(** * Change-detection Siamese U-Nets and the MLflow logger of odeon

    A shallow embedding of
      - [odeon/models/change/arch/change_unet.py] (classes [FCSiamConc] and
        [FCSiamDiff]: construction and forward pass), and
      - [xp/mlflow_logger.py] (methods [log_metrics] and
        [_scan_and_log_checkpoints] of [MLFlowLogger]),
    together with the properties of the fusion step, of the decoder channel
    configuration and of the logger that the specification states.

    Tensors are a shape and a row-major list of scalars.  The scalar type is
    an interface ([Scalar]); the integers are one instance of it. *)

From Stdlib Require Import String Ascii List Arith PeanoNat Lia Bool ZArith.
Import ListNotations.

Set Implicit Arguments.

(* ================================================================== *)
(** ** Python exceptions and fallible computations *)

Inductive PyExc : Type :=
| IndexError
| RuntimeError
| ValueError
| KeyError.

Inductive result (A : Type) : Type :=
| Ok (a : A)
| Raise (e : PyExc).

Arguments Ok {A} a.
Arguments Raise {A} e.

Definition bind {A B : Type} (m : result A) (k : A -> result B) : result B :=
  match m with
  | Ok a => k a
  | Raise e => Raise e
  end.

Notation "x <- m ;; k" := (bind m (fun x => k))
  (at level 61, m at next level, right associativity).

Definition raises {A : Type} (m : result A) : Prop :=
  exists e, m = Raise e.

Definition returns {A : Type} (m : result A) : Prop :=
  exists a, m = Ok a.

(** [[f(x) for x in l]]: the elements are evaluated from left to right and the
    first exception ends the comprehension. *)
Fixpoint mapM {A B : Type} (f : A -> result B) (l : list A) : result (list B) :=
  match l with
  | [] => Ok []
  | x :: l' =>
      y <- f x ;;
      ys <- mapM f l' ;;
      Ok (y :: ys)
  end.

(** [l[i]] for a non-negative index. *)
Definition py_index {A : Type} (l : list A) (i : nat) : result A :=
  match nth_error l i with
  | Some x => Ok x
  | None => Raise IndexError
  end.

(** [range(lo, hi)] *)
Definition py_range (lo hi : nat) : list nat := seq lo (hi - lo).

(* ================================================================== *)
(** ** Tensors *)

(** The element type of a tensor with the operations the models use. *)
Class Scalar (A : Type) : Type := {
  s_zero : A;
  s_sub : A -> A -> A;
  s_neg : A -> A
}.

#[export] Instance Z_Scalar : Scalar Z := {
  s_zero := 0%Z;
  s_sub := Z.sub;
  s_neg := Z.opp
}.

Section Tensors.

Context {A : Type} {SA : Scalar A}.

(** A feature map or an image batch: shape (N, C, H, W), contiguous data. *)
Record Tensor4 : Type := mkTensor4 {
  dimN : nat;
  dimC : nat;
  dimH : nat;
  dimW : nat;
  data : list A
}.

Definition shape (t : Tensor4) : nat * nat * nat * nat :=
  (dimN t, dimC t, dimH t, dimW t).

Definition numel (t : Tensor4) : nat := dimN t * dimC t * dimH t * dimW t.

Definition well_formed (t : Tensor4) : Prop := length (data t) = numel t.

(** [t[n, c, h, w]] *)
Definition get4 (t : Tensor4) (n c h w : nat) : A :=
  nth (((n * dimC t + c) * dimH t + h) * dimW t + w) (data t) s_zero.

(** The tensor of shape (N, C, H, W) whose element at (n, c, h, w) is
    [f n c h w]. *)
Definition tabulate4 (N C H W : nat) (f : nat -> nat -> nat -> nat -> A) : Tensor4 :=
  mkTensor4 N C H W
    (flat_map (fun n =>
       flat_map (fun c =>
         flat_map (fun h =>
           map (fun w => f n c h w) (seq 0 W))
         (seq 0 H))
       (seq 0 C))
     (seq 0 N)).

(** [torch.cat([a, b], dim=1)]: every dimension but the channels must agree. *)
Definition cat_compatible (a b : Tensor4) : Prop :=
  dimN a = dimN b /\ dimH a = dimH b /\ dimW a = dimW b.

Definition cat_compatibleb (a b : Tensor4) : bool :=
  (dimN a =? dimN b) && (dimH a =? dimH b) && (dimW a =? dimW b).

Definition torch_cat_dim1 (a b : Tensor4) : result Tensor4 :=
  if cat_compatibleb a b then
    Ok (tabulate4 (dimN a) (dimC a + dimC b) (dimH a) (dimW a)
          (fun n c h w =>
             if c <? dimC a then get4 a n c h w
             else get4 b n (c - dimC a) h w))
  else Raise RuntimeError.

(** Broadcasting of one dimension: the sizes are equal or one of them is 1. *)
Definition broadcast_dim (a b : nat) : option nat :=
  if a =? b then Some a
  else if a =? 1 then Some b
  else if b =? 1 then Some a
  else None.

Definition broadcast_shape (a b : Tensor4)
  : option (nat * nat * nat * nat) :=
  match broadcast_dim (dimN a) (dimN b), broadcast_dim (dimC a) (dimC b),
        broadcast_dim (dimH a) (dimH b), broadcast_dim (dimW a) (dimW b) with
  | Some N, Some C, Some H, Some W => Some (N, C, H, W)
  | _, _, _, _ => None
  end.

(** The index read in a dimension of size [d] of an operand. *)
Definition bidx (d i : nat) : nat := if d =? 1 then 0 else i.

Definition bget (t : Tensor4) (n c h w : nat) : A :=
  get4 t (bidx (dimN t) n) (bidx (dimC t) c) (bidx (dimH t) h) (bidx (dimW t) w).

(** [a - b] *)
Definition torch_sub (a b : Tensor4) : result Tensor4 :=
  match broadcast_shape a b with
  | Some (N, C, H, W) =>
      Ok (tabulate4 N C H W (fun n c h w => s_sub (bget a n c h w) (bget b n c h w)))
  | None => Raise RuntimeError
  end.

(** [-t] *)
Definition torch_neg (t : Tensor4) : Tensor4 :=
  mkTensor4 (dimN t) (dimC t) (dimH t) (dimW t) (map s_neg (data t)).

Definition all_zero (t : Tensor4) : Prop :=
  Forall (fun a => a = s_zero) (data t).

(** A bitemporal batch: shape (B, T, C, H, W). *)
Record Tensor5 : Type := mkTensor5 {
  dimB5 : nat;
  dimT5 : nat;
  dimC5 : nat;
  dimH5 : nat;
  dimW5 : nat;
  data5 : list A
}.

Definition get5 (x : Tensor5) (b t c h w : nat) : A :=
  nth ((((b * dimT5 x + t) * dimC5 x + c) * dimH5 x + h) * dimW5 x + w)
      (data5 x) s_zero.

(** [x[:, k]] *)
Definition select_time (x : Tensor5) (k : nat) : result Tensor4 :=
  if k <? dimT5 x then
    Ok (tabulate4 (dimB5 x) (dimC5 x) (dimH5 x) (dimW5 x)
          (fun b c h w => get5 x b k c h w))
  else Raise IndexError.

(* ---------------------------------------------------------------- *)
(** ** The fusion steps of the two forward passes *)

(** [FCSiamConc.forward], the two lines after the encoder calls:
    [[
    features = [torch.cat([features2[i], features1[i]], dim=1)
                for i in range(1, len(features1))]
    features.insert(0, features2[0])
    ]] *)
Definition FCSiamConc_fuse (features1 features2 : list Tensor4)
  : result (list Tensor4) :=
  features <-
    mapM (fun i =>
            f2 <- py_index features2 i ;;
            f1 <- py_index features1 i ;;
            torch_cat_dim1 f2 f1)
         (py_range 1 (length features1)) ;;
  f0 <- py_index features2 0 ;;
  Ok (f0 :: features).

(** [FCSiamDiff.forward], the same two lines:
    [[
    features = [features2[i] - features1[i] for i in range(1, len(features1))]
    features.insert(0, features2[0])
    ]] *)
Definition FCSiamDiff_fuse (features1 features2 : list Tensor4)
  : result (list Tensor4) :=
  features <-
    mapM (fun i =>
            f2 <- py_index features2 i ;;
            f1 <- py_index features1 i ;;
            torch_sub f2 f1)
         (py_range 1 (length features1)) ;;
  f0 <- py_index features2 0 ;;
  Ok (f0 :: features).

End Tensors.

Arguments Tensor4 A : clear implicits.
Arguments Tensor5 A : clear implicits.

(* ================================================================== *)
(** ** The two models *)

Definition DEFAULT_DECODER_CHANNELS : list nat := [256; 128; 64; 32; 16].

(** [decoder_use_batchnorm]: [True], [False] or ["inplace"]. *)
Inductive BatchNormOpt : Type :=
| BatchNormTrue
| BatchNormFalse
| BatchNormInplace.

(** [DEFAULT_DECODER_CHANNELS if decoder_channels is None else decoder_channels] *)
Definition decoder_channels_or_default (decoder_channels : option (list nat))
  : list nat :=
  match decoder_channels with
  | None => DEFAULT_DECODER_CHANNELS
  | Some dc => dc
  end.

(** [l[-1]] *)
Definition py_last {A : Type} (l : list A) : result A :=
  match rev l with
  | x :: _ => Ok x
  | [] => Raise IndexError
  end.

(** [s.startswith(p)] *)
Definition startswith (s p : string) : bool := String.prefix p s.

Section Models.

Context {A : Type} {SA : Scalar A}.

(** [activation]: [None], a name or a callable. *)
Inductive Activation : Type :=
| ActivationNone
| ActivationName (name : string)
| ActivationCallable (f : Tensor4 A -> Tensor4 A).

(** What the models use of an encoder of segmentation_models_pytorch: its
    [out_channels] and its call, which returns the feature pyramid. *)
Record Encoder : Type := mkEncoder {
  out_channels : list nat;
  encoder_call : Tensor4 A -> result (list (Tensor4 A))
}.

Definition Decoder : Type := list (Tensor4 A) -> result (Tensor4 A).

Definition Head : Type := Tensor4 A -> result (Tensor4 A).

(** The attributes of a constructed model that [forward] reads. *)
Record SiamModel : Type := mkSiamModel {
  encoder : Encoder;
  decoder : Decoder;
  segmentation_head : Head
}.

(** The constructors of segmentation_models_pytorch that the two classes
    call; they are not part of the repository.
    - [get_encoder(name, in_channels, depth, weights, dropout)]
    - [UnetDecoder(encoder_channels, decoder_channels, n_blocks,
      use_batchnorm, center, attention_type)]
    - [SegmentationHead(in_channels, out_channels, activation, kernel_size)]
    - [Unet.__init__(encoder_name, encoder_depth, encoder_weights,
      decoder_use_batchnorm, decoder_channels, decoder_attention_type,
      in_channels, classes, activation, aux_params=None)], the constructor of
      the base class of [FCSiamDiff] *)
Record Smp : Type := mkSmp {
  get_encoder :
    string -> nat -> nat -> option string -> option A -> result Encoder;
  UnetDecoder :
    list nat -> list nat -> nat -> BatchNormOpt -> bool -> option string ->
    result Decoder;
  SegmentationHead :
    nat -> nat -> Activation -> nat -> result Head;
  Unet_init :
    string -> nat -> option string -> BatchNormOpt -> list nat -> option string ->
    nat -> nat -> Activation -> result SiamModel
}.

(** The arguments of [FCSiamConc.__init__] and [FCSiamDiff.__init__]. *)
Record InitArgs : Type := mkInitArgs {
  encoder_name : string;
  encoder_depth : nat;
  encoder_weights : option string;
  decoder_use_batchnorm : BatchNormOpt;
  decoder_channels : option (list nat);
  decoder_attention_type : option string;
  in_channels : nat;
  classes : nat;
  activation : Activation;
  dropout : option A
}.

(** [FCSiamConc.__init__], lines 82-83:
    [[
    encoder_out_channels = [c * 2 for c in self.encoder.out_channels[1:]]
    encoder_out_channels.insert(0, self.encoder.out_channels[0])
    ]] *)
Definition conc_encoder_out_channels (enc_out_channels : list nat)
  : result (list nat) :=
  let encoder_out_channels := map (fun c => c * 2) (skipn 1 enc_out_channels) in
  c0 <- py_index enc_out_channels 0 ;;
  Ok (c0 :: encoder_out_channels).

Definition FCSiamConc_init (smp : Smp) (args : InitArgs) : result SiamModel :=
  let decoder_channels := decoder_channels_or_default (decoder_channels args) in
  enc <- get_encoder smp (encoder_name args) (in_channels args)
           (encoder_depth args) (encoder_weights args) (dropout args) ;;
  encoder_out_channels <- conc_encoder_out_channels (out_channels enc) ;;
  dec <- UnetDecoder smp encoder_out_channels decoder_channels
           (encoder_depth args) (decoder_use_batchnorm args)
           (if startswith (encoder_name args) "vgg" then true else false)
           (decoder_attention_type args) ;;
  head_in <- py_last decoder_channels ;;
  head <- SegmentationHead smp head_in (classes args) (activation args) 3 ;;
  Ok (mkSiamModel enc dec head).

(** [FCSiamDiff.__init__]: with [kwargs["aux_params"] = None] and the default
    for [decoder_channels], the arguments go to the constructor of the base
    class [Unet]. *)
Definition FCSiamDiff_init (smp : Smp) (args : InitArgs) : result SiamModel :=
  let decoder_channels := decoder_channels_or_default (decoder_channels args) in
  Unet_init smp (encoder_name args) (encoder_depth args) (encoder_weights args)
            (decoder_use_batchnorm args) decoder_channels
            (decoder_attention_type args) (in_channels args) (classes args)
            (activation args).

(** [FCSiamConc.forward] *)
Definition FCSiamConc_forward (self : SiamModel) (x : Tensor5 A)
  : result (Tensor4 A) :=
  x1 <- select_time x 0 ;;
  x2 <- select_time x 1 ;;
  features1 <- encoder_call (encoder self) x1 ;;
  features2 <- encoder_call (encoder self) x2 ;;
  features <- FCSiamConc_fuse features1 features2 ;;
  decoder_output <- decoder self features ;;
  segmentation_head self decoder_output.

(** [FCSiamDiff.forward] *)
Definition FCSiamDiff_forward (self : SiamModel) (x : Tensor5 A)
  : result (Tensor4 A) :=
  x1 <- select_time x 0 ;;
  x2 <- select_time x 1 ;;
  features1 <- encoder_call (encoder self) x1 ;;
  features2 <- encoder_call (encoder self) x2 ;;
  features <- FCSiamDiff_fuse features1 features2 ;;
  decoder_output <- decoder self features ;;
  segmentation_head self decoder_output.

End Models.

Arguments Activation A : clear implicits.
Arguments Encoder A : clear implicits.
Arguments Decoder A : clear implicits.
Arguments Head A : clear implicits.
Arguments Smp A : clear implicits.
Arguments InitArgs A : clear implicits.
Arguments SiamModel A : clear implicits.

(* ================================================================== *)
(** ** The MLflow logger *)

(** The Python values that reach the logger. [PyTensor] is a tensor with one
    element; floats are a mantissa and a binary exponent. *)
Inductive PyVal : Type :=
| PyNone
| PyBool (b : bool)
| PyInt (z : Z)
| PyFloat (mantissa exponent : Z)
| PyStr (s : string)
| PyTensor (mantissa exponent : Z).

(** [isinstance(v, str)] *)
Definition isinstance_str (v : PyVal) : bool :=
  match v with
  | PyStr _ => true
  | _ => false
  end.

(** [isinstance(s, Tensor)] and [s.item()] *)
Definition isinstance_Tensor (v : PyVal) : bool :=
  match v with
  | PyTensor _ _ => true
  | _ => false
  end.

Definition item (v : PyVal) : PyVal :=
  match v with
  | PyTensor m e => PyFloat m e
  | _ => v
  end.

(** [mlflow.entities.Metric] *)
Record Metric : Type := mkMetric {
  key : string;
  value : PyVal;
  timestamp : Z;
  step : Z
}.

(** The metadata dictionary of a checkpoint, with its three keys. *)
Record Metadata : Type := mkMetadata {
  score : PyVal;
  original_filename : string;
  Checkpoint : list (string * PyVal)
}.

Inductive FileContent : Type :=
| YamlDump (metadata : Metadata)
| Text (s : string).

(** What the logger does to the outside: warnings, calls of the MLflow client
    and files of a temporary directory. *)
Inductive Event : Type :=
| LogWarning (msg : string)
| RankZeroWarn (msg : string)
| LogBatch (run_id : option string) (metrics : list Metric)
| LogArtifact (run_id : option string) (local_path artifact_path : string)
| WriteFile (path : string) (content : FileContent)
| Cleanup (tmp_dir : string).

Definition LOGGER_JOIN_CHAR : string := "-".

(** The fields of [MLFlowLogger] that the two methods read or write;
    [_run_id] is the run identifier once the property [experiment] has set
    the run up. *)
Record MLFlowLogger : Type := mkMLFlowLogger {
  _prefix : string;
  _run_id : option string;
  _tmp_dir : string;
  _logged_model_time : list (string * PyVal)
}.

(** [d[k] = v] on a dictionary kept in insertion order. *)
Fixpoint dict_set {V : Type} (k : string) (v : V) (d : list (string * V))
  : list (string * V) :=
  match d with
  | [] => [(k, v)]
  | (k', v') :: d' =>
      if String.eqb k k' then (k, v) :: d' else (k', v') :: dict_set k v d'
  end.

Fixpoint dict_get {V : Type} (k : string) (d : list (string * V)) : option V :=
  match d with
  | [] => None
  | (k', v') :: d' => if String.eqb k k' then Some v' else dict_get k d'
  end.

(** [_add_prefix] of lightning_fabric (not part of the repository): with an
    empty prefix the mapping is returned as it is, otherwise every key [k]
    becomes [prefix + separator + k]. *)
Definition _add_prefix (metrics : list (string * PyVal)) (prefix separator : string)
  : list (string * PyVal) :=
  match prefix with
  | EmptyString => metrics
  | _ => map (fun kv => ((prefix ++ separator ++ fst kv)%string, snd kv)) metrics
  end.

(** Membership in the character class of the pattern ["[^a-zA-Z0-9_/. -]+"]:
    three ranges and five single characters. *)
Definition in_range (lo hi c : ascii) : bool :=
  (nat_of_ascii lo <=? nat_of_ascii c) && (nat_of_ascii c <=? nat_of_ascii hi).

Definition char_class (c : ascii) : bool :=
  in_range "a" "z" c || in_range "A" "Z" c || in_range "0" "9" c
  || Ascii.eqb c "_" || Ascii.eqb c "/" || Ascii.eqb c "."
  || Ascii.eqb c " " || Ascii.eqb c "-".

(** [re.sub("[^a-zA-Z0-9_/. -]+", "", k)]: every run of characters outside the
    class is replaced by the empty string. *)
Fixpoint re_sub_strip (k : string) : string :=
  match k with
  | EmptyString => EmptyString
  | String c k' =>
      if char_class c then String c (re_sub_strip k') else re_sub_strip k'
  end.

(** [step or 0] *)
Definition step_or_0 (step : option Z) : Z :=
  match step with
  | Some s => s
  | None => 0%Z
  end.

(** The two warning texts:
    [f"Discarding metric with string value {k}={v}."] and
    ["MLFlow only allows ... in metric name." f" Replacing {k} with {new_k}."] *)
Definition discarding_message (k v : string) : string :=
  ("Discarding metric with string value " ++ k ++ "=" ++ v ++ ".")%string.

Definition replacing_message (k new_k : string) : string :=
  ("MLFlow only allows '_', '/', '.' and ' ' special characters in metric name."
   ++ " Replacing " ++ k ++ " with " ++ new_k ++ ".")%string.

(** One turn of the loop of [log_metrics] over [metrics.items()]; the state is
    the events so far and [metrics_list]. *)
Definition log_metrics_body (timestamp_ms : Z) (step : option Z)
    (st : list Event * list Metric) (kv : string * PyVal)
  : list Event * list Metric :=
  let '(events, metrics_list) := st in
  let '(k, v) := kv in
  match v with
  | PyStr s =>
      (events ++ [LogWarning (discarding_message k s)], metrics_list)
  | _ =>
      let new_k := re_sub_strip k in
      if negb (String.eqb k new_k) then
        (events ++ [RankZeroWarn (replacing_message k new_k)],
         metrics_list ++ [mkMetric new_k v timestamp_ms (step_or_0 step)])
      else
        (events, metrics_list ++ [mkMetric k v timestamp_ms (step_or_0 step)])
  end.

(** [MLFlowLogger.log_metrics], as it runs on the process of rank zero;
    [timestamp_ms] is [int(time() * 1000)] and [run_id] the value of the
    property [self.run_id].  The result is the list of events in order; the
    last one is the call of [log_batch]. *)
Definition log_metrics (self : MLFlowLogger) (run_id : option string)
    (timestamp_ms : Z) (metrics : list (string * PyVal)) (step : option Z)
  : list Event :=
  let metrics := _add_prefix metrics (_prefix self) LOGGER_JOIN_CHAR in
  let '(events, metrics_list) :=
    fold_left (log_metrics_body timestamp_ms step) metrics ([], []) in
  events ++ [LogBatch run_id metrics_list].

(** The batch that a run of [log_metrics] hands to [log_batch]. *)
Definition logged_batch (events : list Event) : list Metric :=
  flat_map (fun e => match e with LogBatch _ ms => ms | _ => [] end) events.

Definition log_warnings (events : list Event) : list string :=
  flat_map (fun e => match e with LogWarning m => [m] | _ => [] end) events.

Definition rank_zero_warnings (events : list Event) : list string :=
  flat_map (fun e => match e with RankZeroWarn m => [m] | _ => [] end) events.

(** [ModelCheckpoint]: the attributes that [getattr] can find and
    [best_model_path]. *)
Record ModelCheckpoint : Type := mkModelCheckpoint {
  attributes : list (string * PyVal);
  best_model_path : string
}.

Definition getattr (cb : ModelCheckpoint) (k : string) : option PyVal :=
  dict_get k (attributes cb).

Definition hasattr (cb : ModelCheckpoint) (k : string) : bool :=
  match getattr cb k with
  | Some _ => true
  | None => false
  end.

Definition checkpoint_policy_fields : list string :=
  ["monitor"; "mode"; "save_last"; "save_top_k"; "save_weights_only";
   "_every_n_train_steps"; "_every_n_val_epochs"]%string.

(** [Path(p).name] and [Path(p).stem] of pathlib. *)
Class PathLib : Type := {
  path_name : string -> string;
  path_stem : string -> string
}.

(** [str(aliases)] for a list of strings without quotes or escapes. *)
Definition py_str_list (l : list string) : string :=
  ("[" ++ String.concat ", " (map (fun s => "'" ++ s ++ "'") l) ++ "]")%string.

(** A checkpoint as [_scan_checkpoints] returns it: [(t, p, s, tag)]. *)
Definition ScannedCheckpoint : Type := (PyVal * string * PyVal * string)%type.

Section Checkpoints.

Context {PL : PathLib}.

(** The random part of the name of the k-th temporary directory. *)
Variable tmp_name : nat -> string.

Definition checkpoint_metadata (cb : ModelCheckpoint) (p : string) (s : PyVal)
  : Metadata :=
  mkMetadata
    (if isinstance_Tensor s then item s else s)
    (path_name p)
    (flat_map (fun k =>
                 if hasattr cb k then
                   match getattr cb k with
                   | Some v => [(k, v)]
                   | None => []
                   end
                 else [])
              checkpoint_policy_fields).

Definition checkpoint_aliases (cb : ModelCheckpoint) (p : string) : list string :=
  if String.eqb p (best_model_path cb) then ["latest"; "best"]%string
  else ["latest"]%string.

Definition checkpoint_artifact_path (p : string) : string :=
  ("model/checkpoints/" ++ path_stem p)%string.

(** The calls and file writes of one turn of the loop of
    [_scan_and_log_checkpoints], in order; [k] numbers the temporary
    directories. *)
Definition checkpoint_events (run_id : option string) (tmp_root : string)
    (cb : ModelCheckpoint) (k : nat) (c : ScannedCheckpoint) : list Event :=
  let '(t, p, s, tag) := c in
  let metadata := checkpoint_metadata cb p s in
  let aliases := checkpoint_aliases cb p in
  let artifact_path := checkpoint_artifact_path p in
  let tmp_dir := (tmp_root ++ "/test" ++ tmp_name k ++ "test")%string in
  [ LogArtifact run_id p artifact_path;
    WriteFile (tmp_dir ++ "/metadata.yaml")%string (YamlDump metadata);
    WriteFile (tmp_dir ++ "/aliases.txt")%string (Text (py_str_list aliases));
    LogArtifact run_id (tmp_dir ++ "/metadata.yaml")%string artifact_path;
    LogArtifact run_id (tmp_dir ++ "/aliases.txt")%string artifact_path;
    Cleanup tmp_dir ].

(** One turn of the loop; the state is the logger, the events so far and the
    number of temporary directories made.  The last line of the turn is
    [self._logged_model_time[p] = t]. *)
Definition scan_and_log_body (cb : ModelCheckpoint)
    (st : MLFlowLogger * list Event * nat) (c : ScannedCheckpoint)
  : MLFlowLogger * list Event * nat :=
  let '(self, events, k) := st in
  let '(t, p, s, tag) := c in
  (mkMLFlowLogger (_prefix self) (_run_id self) (_tmp_dir self)
     (dict_set p t (_logged_model_time self)),
   events ++ checkpoint_events (_run_id self) (_tmp_dir self) cb k c,
   S k).

(** The loop of [MLFlowLogger._scan_and_log_checkpoints]; [checkpoints] is
    what [_scan_checkpoints(checkpoint_callback, self._logged_model_time)]
    returned, and [self] is the logger as the accesses to [self.experiment]
    leave it: the whole call, with these accesses, is [scan_and_log] below. *)
Definition _scan_and_log_checkpoints (self : MLFlowLogger)
    (checkpoint_callback : ModelCheckpoint) (checkpoints : list ScannedCheckpoint)
  : MLFlowLogger * list Event :=
  let '(self', events, _) :=
    fold_left (scan_and_log_body checkpoint_callback) checkpoints (self, [], 0) in
  (self', events).

End Checkpoints.

(** pathlib on a POSIX system: the components of a path are the pieces
    between slashes that are neither empty nor a single dot; the name is the
    last one, the stem is the name up to its last dot when that dot is neither
    the first nor the last character. *)
Fixpoint split_slash (s : string) : list string :=
  match s with
  | EmptyString => [EmptyString]
  | String c s' =>
      if Ascii.eqb c "/" then EmptyString :: split_slash s'
      else match split_slash s' with
           | [] => [String c EmptyString]
           | x :: xs => String c x :: xs
           end
  end.

Definition posix_parts (p : string) : list string :=
  filter (fun x => negb (String.eqb x "" || String.eqb x "."))
         (split_slash p).

Definition posix_name (p : string) : string := last (posix_parts p) EmptyString.

(** [name.rfind('.')] *)
Fixpoint rfind_dot (s : string) : option nat :=
  match s with
  | EmptyString => None
  | String c s' =>
      match rfind_dot s' with
      | Some i => Some (S i)
      | None => if Ascii.eqb c "." then Some 0 else None
      end
  end.

Definition posix_stem (p : string) : string :=
  let name := posix_name p in
  match rfind_dot name with
  | Some i =>
      if (0 <? i) && (i <? String.length name - 1) then String.substring 0 i name
      else name
  | None => name
  end.

#[export] Instance posix_pathlib : PathLib := {
  path_name := posix_name;
  path_stem := posix_stem
}.

(* ================================================================== *)
(** ** The other methods of the logger *)

Definition LOCAL_FILE_URI_PREFIX : string := "file:".

Definition MLFLOW_RUN_NAME : string := "mlflow.runName".

(** [log_model]: [True], [False] or ["all"]. *)
Inductive LogModel : Type :=
| LogModelTrue
| LogModelFalse
| LogModelAll.

(** [mlflow.entities.Param] *)
Record Param : Type := mkParam {
  param_key : string;
  param_value : string
}.

(** [tags]: [None] or a dictionary. *)
Definition Tags : Type := option (list (string * PyVal)).

(** The exceptions of these methods. *)
Inductive LoggerExc : Type :=
| ModuleNotFoundError
| AttributeError.

Inductive attempt (A : Type) : Type :=
| Done (a : A)
| Fails (e : LoggerExc).

Arguments Done {A} a.
Arguments Fails {A} e.

(** All the attributes of [MLFlowLogger]: those of the record above, where
    [_run_id] is now the attribute as it stands, and the others. *)
Record LoggerState : Type := mkLoggerState {
  core : MLFlowLogger;
  _experiment_name : string;
  _experiment_id : option string;
  _tracking_uri : string;
  _run_name : option string;
  tags : Tags;
  _log_model : LogModel;
  _checkpoint_callback : option ModelCheckpoint;
  _artifact_location : option string;
  _initialized : bool
}.

Definition set_core (c : MLFlowLogger) (self : LoggerState) : LoggerState :=
  mkLoggerState c (_experiment_name self) (_experiment_id self)
    (_tracking_uri self) (_run_name self) (tags self) (_log_model self)
    (_checkpoint_callback self) (_artifact_location self) (_initialized self).

Definition set_run_id (r : option string) (self : LoggerState) : LoggerState :=
  set_core (mkMLFlowLogger (_prefix (core self)) r (_tmp_dir (core self))
                           (_logged_model_time (core self))) self.

Definition set_experiment_id (e : option string) (self : LoggerState) : LoggerState :=
  mkLoggerState (core self) (_experiment_name self) e
    (_tracking_uri self) (_run_name self) (tags self) (_log_model self)
    (_checkpoint_callback self) (_artifact_location self) (_initialized self).

Definition set_tags (t : Tags) (self : LoggerState) : LoggerState :=
  mkLoggerState (core self) (_experiment_name self) (_experiment_id self)
    (_tracking_uri self) (_run_name self) t (_log_model self)
    (_checkpoint_callback self) (_artifact_location self) (_initialized self).

Definition set_checkpoint_callback (cb : option ModelCheckpoint) (self : LoggerState)
  : LoggerState :=
  mkLoggerState (core self) (_experiment_name self) (_experiment_id self)
    (_tracking_uri self) (_run_name self) (tags self) (_log_model self)
    cb (_artifact_location self) (_initialized self).

Definition set_initialized (b : bool) (self : LoggerState) : LoggerState :=
  mkLoggerState (core self) (_experiment_name self) (_experiment_id self)
    (_tracking_uri self) (_run_name self) (tags self) (_log_model self)
    (_checkpoint_callback self) (_artifact_location self) b.

(** What the MLflow client answers: [get_run(run_id)] gives the experiment
    identifier of the run, or no run; [get_experiment_by_name(name)] the
    identifier of the experiment, or [None]; [create_experiment] and
    [create_run] the new identifier. *)
Record MlflowClient : Type := mkMlflowClient {
  get_run : option string -> option string;
  get_experiment_by_name : string -> option string;
  create_experiment : string -> option string -> string;
  create_run : option string -> Tags -> string
}.

(** What these methods do to the outside, besides the events above. *)
Inductive Action : Type :=
| GetRun (run : option string)
| GetExperimentByName (experiment_name : string)
| CreateExperiment (experiment_name : string) (artifact_location : option string)
| CreateRun (experiment : option string) (run_tags : Tags)
| SetTerminated (run : option string) (status : string)
| LogParams (run : option string) (params : list Param)
| Warning (msg : string)
| Print (label : string) (printed : Tags)
| Emit (e : Event).

(** A method: from the attributes to a result, the attributes afterwards and
    the actions in order, or to an exception. *)
Definition Method (X : Type) : Type :=
  LoggerState -> attempt (X * LoggerState * list Action).

Definition ret {X : Type} (x : X) : Method X :=
  fun self => Done (x, self, []).

Definition bindM {X Y : Type} (m : Method X) (k : X -> Method Y) : Method Y :=
  fun self =>
    match m self with
    | Done (x, self1, a1) =>
        match k x self1 with
        | Done (y, self2, a2) => Done (y, self2, a1 ++ a2)
        | Fails e => Fails e
        end
    | Fails e => Fails e
    end.

Notation "x <~ m ;; k" := (bindM m (fun x => k))
  (at level 61, m at next level, right associativity).

Notation "m ;;; k" := (bindM m (fun _ => k))
  (at level 61, right associativity).

Definition read {X : Type} (f : LoggerState -> X) : Method X :=
  fun self => Done (f self, self, []).

Definition write (f : LoggerState -> LoggerState) : Method unit :=
  fun self => Done (tt, f self, []).

Definition act (a : Action) : Method unit :=
  fun self => Done (tt, self, [a]).

Definition acts (l : list Action) : Method unit :=
  fun self => Done (tt, self, l).

Definition raise {X : Type} (e : LoggerExc) : Method X :=
  fun _ => Fails e.

(** [for x in l: body(x)] *)
Fixpoint for_each {X : Type} (l : list X) (body : X -> Method unit) : Method unit :=
  match l with
  | [] => ret tt
  | x :: l' => body x ;;; for_each l' body
  end.

(** [range(start, stop, step)] for a positive step. *)
Definition py_range_step (start stop step : nat) : list nat :=
  map (fun j => start + j * step) (seq 0 ((stop - start + step - 1) / step)).

(** [l[i : j]] *)
Definition py_slice {X : Type} (l : list X) (i j : nat) : list X :=
  firstn (j - i) (skipn i l).

(** [self.tags or {}] *)
Definition tags_or_empty (t : Tags) : list (string * PyVal) :=
  match t with
  | Some d => d
  | None => []
  end.

(** [k in d] *)
Definition dict_has {V : Type} (k : string) (d : list (string * V)) : bool :=
  match dict_get k d with
  | Some _ => true
  | None => false
  end.

(** [v == -1] for a value of Python. *)
Definition eq_minus_one (v : PyVal) : bool :=
  match v with
  | PyInt z => (z =? -1)%Z
  | PyFloat m e | PyTensor m e =>
      if (0 <=? e)%Z then (m * 2 ^ e =? -1)%Z else (m =? - 2 ^ (- e))%Z
  | _ => false
  end.

(** [s.lstrip(chars)]: the leading characters that occur in [chars] go. *)
Fixpoint py_lstrip (chars : list ascii) (s : string) : string :=
  match s with
  | EmptyString => EmptyString
  | String c s' =>
      if existsb (Ascii.eqb c) chars then py_lstrip chars s' else s
  end.

(** [MLFlowLogger.__init__]; [mlflow_available] is [_MLFLOW_AVAILABLE]. *)
Definition MLFlowLogger_init (mlflow_available : bool)
    (experiment_name : string) (run_name : option string)
    (tracking_uri : option string) (tags : Tags) (save_dir : option string)
    (log_model : LogModel) (prefix : string) (artifact_location : option string)
    (run_id : option string) (tmp_dir : string)
  : attempt (LoggerState * list Action) :=
  if negb mlflow_available then Fails ModuleNotFoundError
  else
    let tracking_uri :=
      match tracking_uri with
      | Some (String c u) => String c u
      | _ =>
          (LOCAL_FILE_URI_PREFIX ++
           match save_dir with
           | Some d => d
           | None => "None"
           end)%string
      end in
    Done (mkLoggerState (mkMLFlowLogger prefix run_id tmp_dir [])
            experiment_name None tracking_uri run_name tags log_model None
            artifact_location false,
          [Print "Init tags" tags]).

(** The property [save_dir]. *)
Definition save_dir (self : LoggerState) : option string :=
  if startswith (_tracking_uri self) LOCAL_FILE_URI_PREFIX then
    Some (py_lstrip (list_ascii_of_string LOCAL_FILE_URI_PREFIX) (_tracking_uri self))
  else None.

Section LoggerMethods.

Context {PL : PathLib}.

(** The client, the function [resolve_tags] that the version of MLflow
    provides, Python's [str], [_scan_checkpoints] of Lightning and the names
    of the temporary directories. *)
Variable client : MlflowClient.
Variable resolve_tags : Tags -> Tags.
Variable py_str : PyVal -> string.
Variable _scan_checkpoints :
  ModelCheckpoint -> list (string * PyVal) -> list ScannedCheckpoint.
Variable tmp_name : nat -> string.

(** The property [experiment], on the process of rank zero. *)
Definition experiment : Method unit :=
  initialized <~ read _initialized ;;
  if initialized then ret tt
  else
    rid <~ read (fun self => _run_id (core self)) ;;
    match rid with
    | Some _ =>
        act (GetRun rid) ;;;
        match get_run client rid with
        | Some eid =>
            write (set_experiment_id (Some eid)) ;;;
            write (set_initialized true)
        | None => raise AttributeError
        end
    | None =>
        eid <~ read _experiment_id ;;
        match eid with
        | None =>
            name <~ read _experiment_name ;;
            act (GetExperimentByName name) ;;;
            match get_experiment_by_name client name with
            | Some expt => write (set_experiment_id (Some expt))
            | None =>
                act (Warning ("Experiment with name " ++ name
                              ++ " not found. Creating it.")%string) ;;;
                loc <~ read _artifact_location ;;
                act (CreateExperiment name loc) ;;;
                write (set_experiment_id (Some (create_experiment client name loc)))
            end
        | Some _ => ret tt
        end ;;;
        rid <~ read (fun self => _run_id (core self)) ;;
        match rid with
        | None =>
            run_name <~ read _run_name ;;
            match run_name with
            | Some rn =>
                t <~ read tags ;;
                write (set_tags (Some (tags_or_empty t))) ;;;
                t <~ read (fun self => tags_or_empty (tags self)) ;;
                (if dict_has MLFLOW_RUN_NAME t then
                   act (Warning ("The tag " ++ MLFLOW_RUN_NAME
                                 ++ " is found in tags. The value will be overridden by "
                                 ++ rn ++ ".")%string)
                 else ret tt) ;;;
                write (set_tags (Some (dict_set MLFLOW_RUN_NAME (PyStr rn) t)))
            | None => ret tt
            end ;;;
            t <~ read tags ;;
            act (Print "Resolved tags" (resolve_tags t)) ;;;
            eid <~ read _experiment_id ;;
            act (CreateRun eid (resolve_tags t)) ;;;
            write (set_run_id (Some (create_run client eid (resolve_tags t))))
        | Some _ => ret tt
        end ;;;
        write (set_initialized true)
    end.

(** The properties [run_id] and [experiment_id], and [version] and [name],
    which return them. *)
Definition run_id : Method (option string) :=
  experiment ;;; read (fun self => _run_id (core self)).

Definition experiment_id : Method (option string) :=
  experiment ;;; read _experiment_id.

Definition version : Method (option string) := run_id.

Definition name : Method (option string) := experiment_id.

(** [MLFlowLogger.log_hyperparams]; [params] is the dictionary that
    [_flatten_dict(_convert_params(params))] returned. *)
Definition log_hyperparams (params : list (string * PyVal)) : Method unit :=
  let params_list :=
    map (fun kv => mkParam (fst kv) (String.substring 0 250 (py_str (snd kv))))
        params in
  for_each (py_range_step 0 (length params_list) 100)
    (fun idx =>
       experiment ;;;
       rid <~ run_id ;;
       act (LogParams rid (py_slice params_list idx (idx + 100)))).

(** The call [self._scan_and_log_checkpoints(checkpoint_callback)] with all
    the attributes: the loop reads [self.experiment] first, when there is a
    checkpoint to log. *)
Definition scan_and_log (cb : ModelCheckpoint) : Method unit :=
  times <~ read (fun self => _logged_model_time (core self)) ;;
  match _scan_checkpoints cb times with
  | [] => ret tt
  | c :: cs =>
      experiment ;;;
      logger <~ read core ;;
      write (set_core (fst (_scan_and_log_checkpoints tmp_name logger cb (c :: cs)))) ;;;
      acts (map Emit (snd (_scan_and_log_checkpoints tmp_name logger cb (c :: cs))))
  end.

(** [MLFlowLogger.finalize], on the process of rank zero. *)
Definition finalize (status : string) : Method unit :=
  initialized <~ read _initialized ;;
  if negb initialized then ret tt
  else
    let status :=
      if String.eqb status "success" then "FINISHED"%string
      else if String.eqb status "failed" then "FAILED"%string
      else if String.eqb status "finished" then "FINISHED"%string
      else status in
    cb <~ read _checkpoint_callback ;;
    match cb with
    | Some c => scan_and_log c
    | None => ret tt
    end ;;;
    experiment ;;;
    rid <~ run_id ;;
    act (GetRun rid) ;;;
    match get_run client rid with
    | Some _ =>
        experiment ;;;
        rid <~ run_id ;;
        act (SetTerminated rid status)
    | None => ret tt
    end.

(** [MLFlowLogger.after_save_checkpoint] *)
Definition after_save_checkpoint (checkpoint_callback : ModelCheckpoint)
  : Method unit :=
  log_model <~ read _log_model ;;
  match log_model with
  | LogModelAll => scan_and_log checkpoint_callback
  | LogModelTrue =>
      match getattr checkpoint_callback "save_top_k" with
      | None => raise AttributeError
      | Some k =>
          if eq_minus_one k then scan_and_log checkpoint_callback
          else write (set_checkpoint_callback (Some checkpoint_callback))
      end
  | LogModelFalse => ret tt
  end.

End LoggerMethods.

(* ================================================================== *)
(** ** Notions used in the statements *)

Section Notions.

Context {A : Type} {SA : Scalar A}.

(** Both fusion steps are one loop with a different level-wise operator;
    [fuse_level] is the expression of the comprehension at index [i]. *)
Definition fuse_level (op : Tensor4 A -> Tensor4 A -> result (Tensor4 A))
    (features1 features2 : list (Tensor4 A)) (i : nat) : result (Tensor4 A) :=
  f2 <- py_index features2 i ;;
  f1 <- py_index features1 i ;;
  op f2 f1.

Definition fuse_with (op : Tensor4 A -> Tensor4 A -> result (Tensor4 A))
    (features1 features2 : list (Tensor4 A)) : result (list (Tensor4 A)) :=
  features <-
    mapM (fuse_level op features1 features2) (py_range 1 (length features1)) ;;
  f0 <- py_index features2 0 ;;
  Ok (f0 :: features).

Definition same_shape (a b : Tensor4 A) : Prop := shape a = shape b.

(** The two shapes broadcast together. *)
Definition sub_compatible (a b : Tensor4 A) : Prop :=
  broadcast_shape a b <> None.

Definition zeros (N C H W : nat) : Tensor4 A :=
  tabulate4 N C H W (fun _ _ _ _ => s_zero).

(** A feature pyramid of a U-Net encoder for an input of shape
    (B, _, H, W): level [i] has [channels[i]] channels and the spatial size
    divided by [2 ^ i]. *)
Definition pyramid_shapes (B : nat) (channels : list nat) (H W : nat)
    (fs : list (Tensor4 A)) : Prop :=
  length fs = length channels /\
  forall i f c, nth_error fs i = Some f -> nth_error channels i = Some c ->
                shape f = (B, c, H / 2 ^ i, W / 2 ^ i).

(** What the forward passes rely on from the three collaborators: the
    encoder returns the pyramid of its [out_channels], the decoder maps a
    pyramid of its [encoder_channels] to a map of the input size with the last
    of the decoder channels, the head maps it to [out_ch] channels. *)
Definition encoder_contract (enc : Encoder A) (depth in_ch : nat) : Prop :=
  length (out_channels enc) = depth + 1 /\
  forall x, dimC x = in_ch ->
            Nat.divide (2 ^ depth) (dimH x) -> Nat.divide (2 ^ depth) (dimW x) ->
            exists fs, encoder_call enc x = Ok fs /\
                       pyramid_shapes (dimN x) (out_channels enc) (dimH x) (dimW x) fs.

Definition decoder_contract (dec : Decoder A)
    (encoder_channels decoder_channels : list nat) (n_blocks : nat) : Prop :=
  forall B H W fs,
    Nat.divide (2 ^ n_blocks) H -> Nat.divide (2 ^ n_blocks) W ->
    pyramid_shapes B encoder_channels H W fs ->
    exists y, dec fs = Ok y /\ shape y = (B, last decoder_channels 0, H, W).

Definition head_contract (head : Head A) (in_ch out_ch : nat) : Prop :=
  forall y, dimC y = in_ch ->
            exists m, head y = Ok m /\ shape m = (dimN y, out_ch, dimH y, dimW y).

(** A batch of shape (B, T, C, H, W) filled with one value. *)
Definition full5 (B T C H W : nat) (v : A) : Tensor5 A :=
  mkTensor5 B T C H W (repeat v (B * T * C * H * W)).

(** Collaborators that only produce the shapes: an encoder whose levels are
    zero maps, a decoder and a head that return zero maps. *)
Definition shape_encoder (channels : list nat) : Encoder A :=
  mkEncoder channels
    (fun x => Ok (map (fun ic => zeros (dimN x) (snd ic)
                                       (dimH x / 2 ^ fst ic) (dimW x / 2 ^ fst ic))
                      (combine (seq 0 (length channels)) channels))).

Definition shape_decoder (decoder_channels : list nat) : Decoder A :=
  fun fs => f0 <- py_index fs 0 ;;
            Ok (zeros (dimN f0) (last decoder_channels 0) (dimH f0) (dimW f0)).

Definition shape_head (out_ch : nat) : Head A :=
  fun y => Ok (zeros (dimN y) out_ch (dimH y) (dimW y)).

Definition shape_smp (channels : list nat) : Smp A :=
  mkSmp (fun _ _ _ _ _ => Ok (shape_encoder channels))
        (fun _ dc _ _ _ _ => Ok (shape_decoder dc))
        (fun _ out_ch _ _ => Ok (shape_head out_ch))
        (fun _ _ _ _ dc _ _ out_ch _ =>
           Ok (mkSiamModel (shape_encoder channels) (shape_decoder dc)
                           (shape_head out_ch))).

End Notions.

(** Small integer feature maps and pyramids for the examples. *)
Definition map_a : Tensor4 Z := mkTensor4 1 1 1 1 [7%Z].
Definition map_b : Tensor4 Z := mkTensor4 1 1 1 1 [3%Z].
Definition map_c : Tensor4 Z := mkTensor4 1 2 1 2 [1; 2; 3; 4]%Z.
Definition map_d : Tensor4 Z := mkTensor4 1 2 1 2 [10; 20; 30; 40]%Z.
Definition map_e : Tensor4 Z := mkTensor4 1 1 2 2 [5; 6; 7; 8]%Z.

Definition pyramid_T0 : list (Tensor4 Z) := [map_a; map_c].
Definition pyramid_T1 : list (Tensor4 Z) := [map_b; map_d].

(** A batch of shape (1, 2, 1, 1, 2) whose two time slices are equal, and a
    model whose encoder returns its input at two levels. *)
Definition batch_equal_slices : Tensor5 Z := mkTensor5 1 2 1 1 2 [4; 9; 4; 9]%Z.

Definition echo_encoder : Encoder Z := mkEncoder [1; 1] (fun x => Ok [x; x]).

Definition echo_model : SiamModel Z :=
  mkSiamModel echo_encoder (shape_decoder [1]) (shape_head 1).

(** The configuration of the scenario of the specification: B = 2, C = 3,
    H = W = 64, one class, an encoder of depth 5 with the channel counts of
    resnet34, the default decoder channels. *)
Definition scenario_args : InitArgs Z :=
  mkInitArgs "resnet34" 5 (Some "imagenet"%string) BatchNormTrue None None 3 1
             ActivationNone None.

Definition scenario_channels : list nat := [3; 64; 64; 128; 256; 512].

Definition scenario_batch : Tensor5 Z := full5 2 2 3 64 64 0%Z.

(** The entries of the prefixed mapping whose value is not a string, in the
    order of the mapping. *)
Definition numeric_entries (self : MLFlowLogger) (metrics : list (string * PyVal))
  : list (string * PyVal) :=
  filter (fun kv => negb (isinstance_str (snd kv)))
         (_add_prefix metrics (_prefix self) LOGGER_JOIN_CHAR).

(** What one entry adds to the events and to [metrics_list]. *)
Definition entry_events (kv : string * PyVal) : list Event :=
  match snd kv with
  | PyStr s => [LogWarning (discarding_message (fst kv) s)]
  | _ =>
      if String.eqb (fst kv) (re_sub_strip (fst kv)) then []
      else [RankZeroWarn (replacing_message (fst kv) (re_sub_strip (fst kv)))]
  end.

Definition entry_metrics (timestamp_ms : Z) (step : option Z) (kv : string * PyVal)
  : list Metric :=
  match snd kv with
  | PyStr _ => []
  | v => [mkMetric (re_sub_strip (fst kv)) v timestamp_ms (step_or_0 step)]
  end.

(** A logger as the constructor makes it by default: no prefix. *)
Definition default_logger : MLFlowLogger :=
  mkMLFlowLogger "" (Some "run"%string) "/tmp" [].

(** The character set [a-zA-Z0-9_/. -] of the specification, written out. *)
Definition metric_name_alphabet : string :=
  "abcdefghijklmnopqrstuvwxyzABCDEFGHIJKLMNOPQRSTUVWXYZ0123456789_/. -".

Definition in_alphabet (c : ascii) : bool :=
  existsb (Ascii.eqb c) (list_ascii_of_string metric_name_alphabet).

(** A checkpoint callback and two scanned checkpoints, the second of which is
    the best one. *)
Definition example_callback : ModelCheckpoint :=
  mkModelCheckpoint
    [("monitor", PyStr "val_loss"); ("mode", PyStr "min"); ("save_top_k", PyInt 2)]%string
    "ckpt/epoch=3-step=100.ckpt".

Definition example_checkpoints : list ScannedCheckpoint :=
  [(PyFloat 17 0, "ckpt/last.ckpt", PyNone, "latest");
   (PyFloat 19 0, "ckpt/epoch=3-step=100.ckpt", PyTensor 3 (-2), "best")]%string.

Definition example_tmp_name (k : nat) : string :=
  match k with
  | 0 => "a"
  | _ => "b"
  end.

(** A batch with a single time step, and an encoder that lists no channels. *)
Definition batch_one_step : Tensor5 Z := mkTensor5 1 1 1 1 2 [4; 9]%Z.

Definition bare_smp : Smp Z := shape_smp [].

(** The time and the path of a scanned checkpoint [(t, p, s, tag)]. *)
Definition checkpoint_time (c : ScannedCheckpoint) : PyVal := fst (fst (fst c)).

Definition checkpoint_path (c : ScannedCheckpoint) : string := snd (fst (fst c)).

(** The entries of a batch as a mapping from the logged keys. *)
Definition batch_entries (batch : list Metric) : list (string * PyVal) :=
  map (fun m => (key m, value m)) batch.

(** A logger with a prefix that holds a character outside the class. *)
Definition prefixed_logger : MLFlowLogger :=
  mkMLFlowLogger "exp@1" (Some "run"%string) "/tmp" [].

(** A client that knows the experiment ["known"], and loggers as
    [__init__] makes them. *)
Definition example_client : MlflowClient :=
  mkMlflowClient
    (fun r => match r with
              | Some _ => Some "exp7"%string
              | None => None
              end)
    (fun n => if String.eqb n "known" then Some "exp1"%string else None)
    (fun n _ => ("new-" ++ n)%string)
    (fun _ _ => "run1"%string).

Definition example_resolve_tags (t : Tags) : Tags := t.

Definition new_logger (run_name run : option string) (log_model : LogModel)
  : LoggerState :=
  mkLoggerState (mkMLFlowLogger "" run "/tmp" [])
    "lightning_logs" None "file:./mlruns" run_name
    (Some [("mlflow.runName"%string, PyStr "old")]) log_model None None false.

(** The batches of parameters that a run of [log_hyperparams] hands to
    [log_batch], in order. *)
Definition param_batches (l : list Action) : list (list Param) :=
  flat_map (fun a => match a with LogParams _ ps => [ps] | _ => [] end) l.

(** The actions of the property [experiment]: no parameters, no termination
    and none of the events of the metrics and the checkpoints. *)
Definition set_up_action (a : Action) : Prop :=
  match a with
  | LogParams _ _ | SetTerminated _ _ | Emit _ => False
  | _ => True
  end.

(** The characters of ["file:"]. *)
Definition file_prefix_chars : list ascii :=
  list_ascii_of_string LOCAL_FILE_URI_PREFIX.

(** Python's [str] on the values of the examples, strings and [None]. *)
Definition example_str (v : PyVal) : string :=
  match v with
  | PyStr s => s
  | _ => "None"
  end.

Definition example_params : list (string * PyVal) :=
  [("optimizer"%string, PyStr "adam"); ("scheduler"%string, PyNone)].

(** The first access to [experiment] can end: the logger is initialised, or
    has no run identifier, or the client knows the run. *)
Definition run_reachable (client : MlflowClient) (self : LoggerState) : Prop :=
  _initialized self = true \/
  _run_id (core self) = None \/
  get_run client (_run_id (core self)) <> None.

(** A scan that finds the checkpoints of the examples, whatever was logged. *)
Definition example_scan (cb : ModelCheckpoint) (times : list (string * PyVal))
  : list ScannedCheckpoint := example_checkpoints.

Definition initialized_logger (log_model : LogModel) : LoggerState :=
  set_initialized true (new_logger None (Some "run0"%string) log_model).

(** The string begins with one of the characters. *)
Definition starts_in (chars : list ascii) (s : string) : bool :=
  match s with
  | EmptyString => false
  | String c _ => existsb (Ascii.eqb c) chars
  end.

(** Numbers with the non-finite values of floating-point arithmetic: the
    finite ones are exact, [inf - inf] and every operation on [nan] give
    [nan]. *)
Inductive ExtNum : Type :=
| Fin (z : Z)
| PInf
| NInf
| NaN.

Definition ext_sub (x y : ExtNum) : ExtNum :=
  match x, y with
  | NaN, _ | _, NaN => NaN
  | Fin a, Fin b => Fin (a - b)
  | Fin _, PInf => NInf
  | Fin _, NInf => PInf
  | PInf, PInf => NaN
  | PInf, _ => PInf
  | NInf, NInf => NaN
  | NInf, _ => NInf
  end.

Definition ext_neg (x : ExtNum) : ExtNum :=
  match x with
  | Fin a => Fin (- a)
  | PInf => NInf
  | NInf => PInf
  | NaN => NaN
  end.

#[export] Instance ExtNum_Scalar : Scalar ExtNum := {
  s_zero := Fin 0;
  s_sub := ext_sub;
  s_neg := ext_neg
}.

(** A batch with two equal time slices that hold an infinite value, and a
    model whose encoder returns its input at both levels. *)
Definition slice_inf : Tensor4 ExtNum := mkTensor4 1 1 1 2 [PInf; Fin 9].

Definition batch_inf : Tensor5 ExtNum :=
  mkTensor5 1 2 1 1 2 [PInf; Fin 9; PInf; Fin 9].

Definition inf_model : SiamModel ExtNum :=
  mkSiamModel (mkEncoder [1; 1] (fun x => Ok [x; x]))
              (shape_decoder [1]) (shape_head 1).

(** A logger that keeps a callback, after its experiment was set up. *)
Definition finishing_logger : LoggerState :=
  set_checkpoint_callback (Some example_callback) (initialized_logger LogModelTrue).

(* ================================================================== *)
(** * Properties *)

(** ** Comprehensions *)

Lemma bind_ok_inv {A B : Type} (m : result A) (k : A -> result B) (b : B) :
  bind m k = Ok b -> exists a, m = Ok a /\ k a = Ok b.
Proof.
  destruct m as [a | e]; simpl; intros E; [ exists a; auto | discriminate ].
Qed.

Lemma mapM_length {A B : Type} (f : A -> result B) (l : list A) (r : list B) :
  mapM f l = Ok r -> length r = length l.
Proof.
  revert r. induction l as [| x l IH]; simpl; intros r E.
  - injection E as <-. reflexivity.
  - apply bind_ok_inv in E as (y & _ & E).
    apply bind_ok_inv in E as (ys & Eys & E).
    injection E as <-. simpl. f_equal. apply IH, Eys.
Qed.

Lemma mapM_nth {A B : Type} (f : A -> result B) (l : list A) (r : list B) :
  mapM f l = Ok r ->
  forall i x, nth_error l i = Some x ->
  exists y, nth_error r i = Some y /\ f x = Ok y.
Proof.
  revert r. induction l as [| x0 l IH]; simpl; intros r E i x Hi.
  - destruct i; discriminate.
  - apply bind_ok_inv in E as (y & Ey & E).
    apply bind_ok_inv in E as (ys & Eys & E).
    injection E as <-. destruct i as [| i]; simpl in *.
    + injection Hi as <-. exists y. auto.
    + eapply IH; eauto.
Qed.

Lemma mapM_returns {A B : Type} (f : A -> result B) (l : list A) :
  returns (mapM f l) <-> Forall (fun x => returns (f x)) l.
Proof.
  induction l as [| x l IH]; simpl.
  - split; [ constructor | exists []; reflexivity ].
  - split.
    + intros (r & E). apply bind_ok_inv in E as (y & Ey & E).
      apply bind_ok_inv in E as (ys & Eys & _).
      constructor; [ exists y; exact Ey | apply IH; exists ys; exact Eys ].
    + intros HF. inversion HF as [| ? ? (y & Ey) Hl]; subst.
      apply IH in Hl as (ys & Eys). exists (y :: ys).
      rewrite Ey. simpl. rewrite Eys. reflexivity.
Qed.

Lemma py_index_ok {A : Type} (l : list A) (i : nat) (x : A) :
  py_index l i = Ok x <-> nth_error l i = Some x.
Proof.
  unfold py_index. destruct (nth_error l i); split; intros E;
    try discriminate; injection E as <-; reflexivity.
Qed.

Lemma py_index_returns {A : Type} (l : list A) (i : nat) :
  returns (py_index l i) <-> i < length l.
Proof.
  unfold returns, py_index. rewrite <- nth_error_Some.
  destruct (nth_error l i) as [x |]; split.
  - intros _. discriminate.
  - intros _. exists x. reflexivity.
  - intros (a & E). discriminate.
  - intros N. now contradiction N.
Qed.

Lemma nth_error_py_range (lo hi i : nat) :
  nth_error (py_range lo hi) i = if i <? hi - lo then Some (lo + i) else None.
Proof.
  unfold py_range. destruct (Nat.ltb_spec i (hi - lo)) as [L | L].
  - rewrite nth_error_nth' with (d := 0) by (rewrite length_seq; exact L).
    rewrite seq_nth by exact L. reflexivity.
  - apply nth_error_None. rewrite length_seq. exact L.
Qed.

(** ** Lists laid out in chunks of one size *)

Lemma length_flat_map_const {B C : Type} (g : B -> list C) (k : nat) (l : list B) :
  (forall x, length (g x) = k) -> length (flat_map g l) = length l * k.
Proof.
  intros Hg. induction l as [| x l IH]; simpl; [ reflexivity |].
  rewrite length_app, Hg, IH. reflexivity.
Qed.

Lemma nth_flat_map_seq {C : Type} (g : nat -> list C) (k : nat) (d : C) :
  (forall i, length (g i) = k) ->
  forall n s i j, i < n -> j < k ->
  nth (i * k + j) (flat_map g (seq s n)) d = nth j (g (s + i)) d.
Proof.
  intros Hg. induction n as [| n IH]; intros s i j Hi Hj; [ lia |].
  simpl. destruct i as [| i].
  - rewrite app_nth1 by (rewrite Hg; simpl; exact Hj).
    simpl. rewrite Nat.add_0_r. reflexivity.
  - rewrite app_nth2 by (rewrite Hg; simpl; lia).
    rewrite Hg. replace (S i * k + j - k) with (i * k + j) by (simpl; lia).
    rewrite IH by lia. f_equal. f_equal. lia.
Qed.

Section TensorFacts.

Context {A : Type} {SA : Scalar A}.

Lemma tabulate4_shape (N C H W : nat) (f : nat -> nat -> nat -> nat -> A) :
  shape (tabulate4 N C H W f) = (N, C, H, W).
Proof. reflexivity. Qed.

Lemma tabulate4_well_formed (N C H W : nat) (f : nat -> nat -> nat -> nat -> A) :
  well_formed (tabulate4 N C H W f).
Proof.
  unfold well_formed, numel, tabulate4; simpl.
  rewrite length_flat_map_const with (k := C * (H * W)).
  - rewrite length_seq. lia.
  - intros n. rewrite length_flat_map_const with (k := H * W).
    + rewrite length_seq. reflexivity.
    + intros c. rewrite length_flat_map_const with (k := W).
      * rewrite length_seq. reflexivity.
      * intros h. rewrite length_map, length_seq. reflexivity.
Qed.

Lemma get4_tabulate4 (N C H W : nat) (f : nat -> nat -> nat -> nat -> A)
      (n c h w : nat) :
  n < N -> c < C -> h < H -> w < W ->
  get4 (tabulate4 N C H W f) n c h w = f n c h w.
Proof.
  intros Hn Hc Hh Hw. unfold get4, tabulate4; simpl.
  assert (L1 : forall n c h,
             length (map (fun w => f n c h w) (seq 0 W)) = W)
    by (intros; rewrite length_map, length_seq; reflexivity).
  assert (L2 : forall n c,
             length (flat_map (fun h => map (fun w => f n c h w) (seq 0 W))
                              (seq 0 H)) = H * W)
    by (intros; rewrite length_flat_map_const with (k := W), length_seq; auto).
  assert (L3 : forall n,
             length (flat_map (fun c =>
                       flat_map (fun h => map (fun w => f n c h w) (seq 0 W))
                                (seq 0 H)) (seq 0 C)) = C * (H * W))
    by (intros; rewrite length_flat_map_const with (k := H * W), length_seq; auto).
  replace (((n * C + c) * H + h) * W + w)
    with (n * (C * (H * W)) + (c * (H * W) + (h * W + w))) by lia.
  assert (Hhw : h * W + w < H * W) by nia.
  assert (Hchw : c * (H * W) + (h * W + w) < C * (H * W)) by nia.
  rewrite nth_flat_map_seq with (k := C * (H * W)) by auto.
  rewrite nth_flat_map_seq with (k := H * W) by auto.
  rewrite nth_flat_map_seq with (k := W) by auto.
  simpl. rewrite nth_indep with (d' := f n c h 0)
    by (rewrite length_map, length_seq; exact Hw).
  rewrite (map_nth (fun w => f n c h w) (seq 0 W) 0 w).
  rewrite seq_nth by exact Hw. reflexivity.
Qed.

End TensorFacts.

(** ** The fusion loop *)

Lemma returns_bind {A B : Type} (m : result A) (k : A -> result B) :
  returns (bind m k) <-> exists a, m = Ok a /\ returns (k a).
Proof.
  unfold returns. split.
  - intros (b & E). apply bind_ok_inv in E as (a & Ea & Eb). eauto.
  - intros (a & -> & b & Eb). exists b. exact Eb.
Qed.

Lemma returns_or_raises {A : Type} (m : result A) :
  (returns m /\ ~ raises m) \/ (raises m /\ ~ returns m).
Proof.
  destruct m as [a | e].
  - left. split; [ exists a; reflexivity | intros (e & E); discriminate ].
  - right. split; [ exists e; reflexivity | intros (a & E); discriminate ].
Qed.

Section FusionLoop.

Context {A : Type} {SA : Scalar A}.

Variable op : Tensor4 A -> Tensor4 A -> result (Tensor4 A).

Lemma FCSiamConc_fuse_loop (f1 f2 : list (Tensor4 A)) :
  FCSiamConc_fuse f1 f2 = fuse_with torch_cat_dim1 f1 f2.
Proof. reflexivity. Qed.

Lemma FCSiamDiff_fuse_loop (f1 f2 : list (Tensor4 A)) :
  FCSiamDiff_fuse f1 f2 = fuse_with torch_sub f1 f2.
Proof. reflexivity. Qed.

Lemma fuse_level_ok (f1 f2 : list (Tensor4 A)) (i : nat) (o : Tensor4 A) :
  fuse_level op f1 f2 i = Ok o <->
  exists t0 t1, nth_error f1 i = Some t0 /\ nth_error f2 i = Some t1 /\
                op t1 t0 = Ok o.
Proof.
  unfold fuse_level. split.
  - intros E. apply bind_ok_inv in E as (t1 & E1 & E).
    apply bind_ok_inv in E as (t0 & E0 & E).
    apply py_index_ok in E1, E0. eauto.
  - intros (t0 & t1 & E0 & E1 & E).
    apply py_index_ok in E1, E0. rewrite E1. simpl. rewrite E0. exact E.
Qed.

(** What a run of the loop that ends without an exception has built. *)
Lemma fuse_with_ok (f1 f2 out : list (Tensor4 A)) :
  fuse_with op f1 f2 = Ok out ->
  length out = S (length f1 - 1) /\
  (exists t, nth_error f2 0 = Some t /\ nth_error out 0 = Some t) /\
  forall i, 1 <= i -> i < length f1 ->
    exists t0 t1 o, nth_error f1 i = Some t0 /\ nth_error f2 i = Some t1 /\
                    op t1 t0 = Ok o /\ nth_error out i = Some o.
Proof.
  unfold fuse_with. intros E.
  apply bind_ok_inv in E as (r & Er & E).
  apply bind_ok_inv in E as (t & Et & E).
  injection E as <-. apply py_index_ok in Et.
  split; [| split ].
  - simpl. f_equal. apply mapM_length in Er. rewrite Er.
    unfold py_range. apply length_seq.
  - exists t. auto.
  - intros i Hi Hlt. destruct i as [| j]; [ lia |].
    assert (Hj : nth_error (py_range 1 (length f1)) j = Some (S j)).
    { rewrite nth_error_py_range.
      destruct (Nat.ltb_spec j (length f1 - 1)); [ reflexivity | lia ]. }
    destruct (mapM_nth _ _ Er _ Hj) as (o & Ho & Eo).
    apply (fuse_level_ok f1 f2 (S j) o) in Eo as (t0 & t1 & E0 & E1 & Eop).
    exists t0, t1, o. auto.
Qed.

(** When the loop ends without an exception. *)
Lemma fuse_with_returns (f1 f2 : list (Tensor4 A)) :
  returns (fuse_with op f1 f2) <->
  f2 <> [] /\ length f1 <= length f2 /\
  forall i t0 t1, 1 <= i -> nth_error f1 i = Some t0 ->
                  nth_error f2 i = Some t1 -> returns (op t1 t0).
Proof.
  split.
  - intros (out & E).
    destruct (fuse_with_ok _ _ E) as (_ & (t & Ht & _) & Hlev).
    assert (Hne : f2 <> []) by (intros ->; discriminate).
    split; [ exact Hne | split ].
    + destruct (Nat.le_gt_cases (length f1) (length f2)) as [L | L]; [ exact L |].
      assert (H1 : 1 <= length f2) by (destruct f2; [ congruence | simpl; lia ]).
      destruct (Hlev (length f2) H1 L) as (_ & t1 & _ & _ & E1 & _).
      assert (X : nth_error f2 (length f2) = None) by (apply nth_error_None; lia).
      congruence.
    + intros i t0 t1 Hi E0 E1.
      assert (Hlt : i < length f1) by (apply nth_error_Some; congruence).
      destruct (Hlev i Hi Hlt) as (t0' & t1' & o & E0' & E1' & Eop & _).
      exists o. congruence.
  - intros (Hne & Hlen & Hlev). unfold fuse_with.
    apply returns_bind.
    assert (HF : Forall (fun i => returns (fuse_level op f1 f2 i))
                        (py_range 1 (length f1))).
    { apply Forall_forall. intros i Hin. unfold py_range in Hin.
      apply in_seq in Hin.
      destruct (nth_error f1 i) as [t0 |] eqn:E0;
        [| apply nth_error_None in E0; lia ].
      destruct (nth_error f2 i) as [t1 |] eqn:E1;
        [| apply nth_error_None in E1; lia ].
      destruct (Hlev i t0 t1 (proj1 Hin) E0 E1) as (o & Eo).
      exists o. apply fuse_level_ok. eauto. }
    apply mapM_returns in HF as (r & Er). exists r. split; [ exact Er |].
    destruct f2 as [| t f2]; [ congruence |]. simpl. eexists. reflexivity.
Qed.

End FusionLoop.

(** ** Concatenation and subtraction of feature maps *)

Lemma Forall2_nth_error {A B : Type} (R : A -> B -> Prop) (l1 : list A) (l2 : list B) :
  Forall2 R l1 l2 ->
  forall i a b, nth_error l1 i = Some a -> nth_error l2 i = Some b -> R a b.
Proof.
  induction 1 as [| x y l1 l2 Hxy _ IH]; intros i a b Ea Eb.
  - destruct i; discriminate.
  - destruct i as [| i]; simpl in *.
    + congruence.
    + eapply IH; eauto.
Qed.

Lemma map_flat_map {A B C : Type} (g : B -> C) (f : A -> list B) (l : list A) :
  map g (flat_map f l) = flat_map (fun x => map g (f x)) l.
Proof.
  induction l as [| x l IH]; simpl; [ reflexivity |].
  rewrite map_app, IH. reflexivity.
Qed.

Lemma Forall_flat_map {A B : Type} (P : B -> Prop) (f : A -> list B) (l : list A) :
  (forall x, Forall P (f x)) -> Forall P (flat_map f l).
Proof.
  intros Hf. induction l as [| x l IH]; simpl; [ constructor |].
  apply Forall_app. auto.
Qed.

Section MapOperators.

Context {A : Type} {SA : Scalar A}.

Lemma cat_compatibleb_spec (a b : Tensor4 A) :
  cat_compatibleb a b = true <-> cat_compatible a b.
Proof.
  unfold cat_compatibleb, cat_compatible.
  rewrite !andb_true_iff, !Nat.eqb_eq. tauto.
Qed.

Lemma torch_cat_dim1_returns (a b : Tensor4 A) :
  returns (torch_cat_dim1 a b) <-> cat_compatible a b.
Proof.
  rewrite <- cat_compatibleb_spec. unfold torch_cat_dim1, returns.
  destruct (cat_compatibleb a b); split; intros E; try discriminate.
  - reflexivity.
  - eexists. reflexivity.
  - destruct E; discriminate.
Qed.

(** The result of a concatenation: its shape and its elements. *)
Lemma torch_cat_dim1_ok (a b o : Tensor4 A) :
  torch_cat_dim1 a b = Ok o ->
  shape o = (dimN a, dimC a + dimC b, dimH a, dimW a) /\
  forall n c h w, n < dimN a -> c < dimC a + dimC b -> h < dimH a -> w < dimW a ->
    get4 o n c h w =
    if c <? dimC a then get4 a n c h w else get4 b n (c - dimC a) h w.
Proof.
  unfold torch_cat_dim1. destruct (cat_compatibleb a b); [| discriminate ].
  intros E. injection E as <-. split; [ reflexivity |].
  intros n c h w Hn Hc Hh Hw. now rewrite get4_tabulate4.
Qed.

Lemma broadcast_dim_refl (n : nat) : broadcast_dim n n = Some n.
Proof. unfold broadcast_dim. now rewrite Nat.eqb_refl. Qed.

Lemma broadcast_dim_sym (n m : nat) : broadcast_dim n m = broadcast_dim m n.
Proof.
  unfold broadcast_dim.
  destruct (Nat.eqb_spec n m), (Nat.eqb_spec m n); try congruence.
  destruct (Nat.eqb_spec n 1), (Nat.eqb_spec m 1); congruence.
Qed.

Lemma broadcast_shape_sym (a b : Tensor4 A) :
  broadcast_shape a b = broadcast_shape b a.
Proof.
  unfold broadcast_shape.
  rewrite (broadcast_dim_sym (dimN a)), (broadcast_dim_sym (dimC a)),
          (broadcast_dim_sym (dimH a)), (broadcast_dim_sym (dimW a)).
  reflexivity.
Qed.

Lemma broadcast_shape_same (a b : Tensor4 A) :
  same_shape a b -> broadcast_shape a b = Some (shape a).
Proof.
  unfold same_shape, shape, broadcast_shape. intros E.
  injection E as <- <- <- <-. now rewrite !broadcast_dim_refl.
Qed.

Lemma torch_sub_returns (a b : Tensor4 A) :
  returns (torch_sub a b) <-> sub_compatible a b.
Proof.
  unfold torch_sub, sub_compatible, returns.
  destruct (broadcast_shape a b) as [[[[N C] H] W] |]; split; intros E.
  - discriminate.
  - eexists. reflexivity.
  - destruct E; discriminate.
  - congruence.
Qed.

Lemma bidx_lt (d i : nat) : i < d -> bidx d i = i.
Proof. unfold bidx. destruct (Nat.eqb_spec d 1); lia. Qed.

(** The result of a subtraction of two maps of one shape. *)
Lemma torch_sub_same_shape (a b : Tensor4 A) :
  same_shape a b ->
  exists o, torch_sub a b = Ok o /\ shape o = shape a /\
    forall n c h w, n < dimN a -> c < dimC a -> h < dimH a -> w < dimW a ->
      get4 o n c h w = s_sub (get4 a n c h w) (get4 b n c h w).
Proof.
  intros S. unfold torch_sub. rewrite (broadcast_shape_same S).
  unfold shape at 1. eexists. split; [ reflexivity | split; [ reflexivity |] ].
  intros n c h w Hn Hc Hh Hw. rewrite get4_tabulate4 by assumption.
  unfold bget. unfold same_shape, shape in S. injection S as <- <- <- <-.
  now rewrite !bidx_lt.
Qed.

Lemma torch_neg_tabulate4 (N C H W : nat) (f : nat -> nat -> nat -> nat -> A) :
  torch_neg (tabulate4 N C H W f) =
  tabulate4 N C H W (fun n c h w => s_neg (f n c h w)).
Proof.
  unfold torch_neg, tabulate4; simpl. f_equal.
  rewrite map_flat_map. apply flat_map_ext; intros n.
  rewrite map_flat_map. apply flat_map_ext; intros c.
  rewrite map_flat_map. apply flat_map_ext; intros h.
  apply map_map.
Qed.

Lemma tabulate4_ext (N C H W : nat) (f g : nat -> nat -> nat -> nat -> A) :
  (forall n c h w, f n c h w = g n c h w) ->
  tabulate4 N C H W f = tabulate4 N C H W g.
Proof.
  intros E. unfold tabulate4. f_equal.
  apply flat_map_ext; intros n. apply flat_map_ext; intros c.
  apply flat_map_ext; intros h. apply map_ext; intros w. apply E.
Qed.

(** Swapping the operands of a subtraction negates the result. *)
Lemma torch_sub_swap (a b o : Tensor4 A) :
  (forall x y : A, s_sub x y = s_neg (s_sub y x)) ->
  torch_sub a b = Ok o -> torch_sub b a = Ok (torch_neg o).
Proof.
  intros anti. unfold torch_sub. rewrite (broadcast_shape_sym b a).
  destruct (broadcast_shape a b) as [[[[N C] H] W] |]; [| discriminate ].
  intros E. injection E as <-. f_equal.
  rewrite torch_neg_tabulate4. apply tabulate4_ext. intros. apply anti.
Qed.

(** A map minus itself has the shape of the map and only zeros. *)
Lemma torch_sub_diag (a : Tensor4 A) :
  (forall x : A, s_sub x x = s_zero) ->
  exists o, torch_sub a a = Ok o /\ shape o = shape a /\ all_zero o /\
            well_formed o.
Proof.
  intros diag. unfold torch_sub.
  rewrite (broadcast_shape_same (eq_refl : same_shape a a)). unfold shape at 1.
  eexists. split; [ reflexivity | split; [ reflexivity | split ] ].
  - unfold all_zero, tabulate4; simpl.
    apply Forall_flat_map; intros n. apply Forall_flat_map; intros c.
    apply Forall_flat_map; intros h. apply Forall_forall. intros x Hx.
    apply in_map_iff in Hx as (w & <- & _). apply diag.
  - apply tabulate4_well_formed.
Qed.

(** A map minus itself, whatever the subtraction of the scalars gives on
    equal operands. *)
Lemma torch_sub_self (a : Tensor4 A) :
  exists o, torch_sub a a = Ok o /\ shape o = shape a /\ well_formed o /\
    (forall n c h w, n < dimN a -> c < dimC a -> h < dimH a -> w < dimW a ->
       get4 o n c h w = s_sub (get4 a n c h w) (get4 a n c h w)) /\
    (all_zero o <->
     forall n c h w, n < dimN a -> c < dimC a -> h < dimH a -> w < dimW a ->
       s_sub (get4 a n c h w) (get4 a n c h w) = s_zero).
Proof.
  unfold torch_sub.
  rewrite (broadcast_shape_same (eq_refl : same_shape a a)). unfold shape at 1.
  eexists. split; [ reflexivity | split; [ reflexivity | split; [| split ] ] ].
  - apply tabulate4_well_formed.
  - intros n c h w Hn Hc Hh Hw. rewrite get4_tabulate4 by assumption.
    unfold bget. now rewrite !bidx_lt.
  - split.
    + intros HZ n c h w Hn Hc Hh Hw.
      assert (G : get4 (tabulate4 (dimN a) (dimC a) (dimH a) (dimW a)
                          (fun n c h w => s_sub (bget a n c h w) (bget a n c h w)))
                       n c h w =
                  s_sub (get4 a n c h w) (get4 a n c h w)).
      { rewrite get4_tabulate4 by assumption. unfold bget. now rewrite !bidx_lt. }
      rewrite <- G. unfold get4.
      match goal with
      | |- nth ?i ?l ?d = _ => destruct (nth_in_or_default i l d) as [Hin | ->]
      end; [| reflexivity ].
      unfold all_zero in HZ. rewrite Forall_forall in HZ. apply HZ, Hin.
    + intros D. unfold all_zero, tabulate4; simpl. apply Forall_forall.
      intros x Hx.
      apply in_flat_map in Hx as (n & Hn & Hx).
      apply in_flat_map in Hx as (c & Hc & Hx).
      apply in_flat_map in Hx as (h & Hh & Hx).
      apply in_map_iff in Hx as (w & <- & Hw).
      apply in_seq in Hn, Hc, Hh, Hw.
      unfold bget. rewrite !bidx_lt by lia. apply D; lia.
Qed.

End MapOperators.

(** ** The fused pyramids *)

Section FusedPyramids.

Context {A : Type} {SA : Scalar A}.

(** C1.  For two pyramids of [L] levels (there is a level 0, so [0 < L])
    whose maps agree level by level in batch and spatial size, the fusion
    step of [FCSiamConc.forward] returns a pyramid of [L] levels; its level
    0 is level 0 of the T1 pyramid [f2], unchanged; its level [i >= 1] is
    [torch.cat([f2[i], f1[i]], dim=1)]: the channels of T1 come first, those
    of T0 follow, and the channel count is the sum of the two. *)
Theorem conc_fusion_pyramid (f1 f2 : list (Tensor4 A)) (L : nat) :
  length f1 = L -> length f2 = L -> 0 < L ->
  Forall2 cat_compatible f2 f1 ->
  exists out,
    FCSiamConc_fuse f1 f2 = Ok out /\
    length out = L /\
    nth_error out 0 = nth_error f2 0 /\
    forall i t0 t1, 1 <= i ->
      nth_error f1 i = Some t0 -> nth_error f2 i = Some t1 ->
      exists o,
        nth_error out i = Some o /\
        torch_cat_dim1 t1 t0 = Ok o /\
        shape o = (dimN t1, dimC t1 + dimC t0, dimH t1, dimW t1) /\
        forall n c h w,
          n < dimN t1 -> c < dimC t1 + dimC t0 -> h < dimH t1 -> w < dimW t1 ->
          get4 o n c h w =
          if c <? dimC t1 then get4 t1 n c h w else get4 t0 n (c - dimC t1) h w.
Proof.
  intros L1 L2 HL Hc. rewrite FCSiamConc_fuse_loop.
  assert (R : returns (fuse_with torch_cat_dim1 f1 f2)).
  { apply fuse_with_returns. split; [| split ].
    - intros ->. simpl in L2. lia.
    - lia.
    - intros i t0 t1 _ E0 E1. apply torch_cat_dim1_returns.
      exact (Forall2_nth_error Hc i E1 E0). }
  destruct R as (out & E). exists out.
  destruct (fuse_with_ok _ _ _ E) as (Hlen & (t & Ht & Hout0) & Hlev).
  split; [ exact E | split; [ lia | split; [ congruence |] ] ].
  intros i t0 t1 Hi E0 E1.
  assert (Hlt : i < length f1) by (apply nth_error_Some; congruence).
  destruct (Hlev i Hi Hlt) as (t0' & t1' & o & E0' & E1' & Eop & Eo).
  assert (t0' = t0) by congruence. assert (t1' = t1) by congruence. subst.
  exists o. destruct (torch_cat_dim1_ok _ _ Eop) as (Hs & Hg). auto.
Qed.

(** The difference fusion of two pyramids of the same shapes: it ends
    without an exception and every level from 1 on is a subtraction. *)
Lemma diff_fuse_same_shapes (f1 f2 : list (Tensor4 A)) (L : nat) :
  length f1 = L -> length f2 = L -> 0 < L ->
  Forall2 same_shape f2 f1 ->
  exists out,
    FCSiamDiff_fuse f1 f2 = Ok out /\
    length out = L /\
    nth_error out 0 = nth_error f2 0 /\
    forall i t0 t1, 1 <= i ->
      nth_error f1 i = Some t0 -> nth_error f2 i = Some t1 ->
      exists o, nth_error out i = Some o /\ torch_sub t1 t0 = Ok o.
Proof.
  intros L1 L2 HL Hc. rewrite FCSiamDiff_fuse_loop.
  assert (R : returns (fuse_with torch_sub f1 f2)).
  { apply fuse_with_returns. split; [| split ].
    - intros ->. simpl in L2. lia.
    - lia.
    - intros i t0 t1 _ E0 E1.
      destruct (torch_sub_same_shape (Forall2_nth_error Hc i E1 E0))
        as (o & Eo & _).
      exists o. exact Eo. }
  destruct R as (out & E). exists out.
  destruct (fuse_with_ok _ _ _ E) as (Hlen & (t & Ht & Hout0) & Hlev).
  split; [ exact E | split; [ lia | split; [ congruence |] ] ].
  intros i t0 t1 Hi E0 E1.
  assert (Hlt : i < length f1) by (apply nth_error_Some; congruence).
  destruct (Hlev i Hi Hlt) as (t0' & t1' & o & E0' & E1' & Eop & Eo).
  assert (t0' = t0) by congruence. assert (t1' = t1) by congruence. subst.
  exists o. auto.
Qed.

(** C2.  For two pyramids of [L] levels (there is a level 0, so [0 < L])
    whose maps have the same shape level by level, the fusion step of
    [FCSiamDiff.forward] returns a pyramid of [L] levels; its level 0 is level
    0 of the T1 pyramid [f2], unchanged; its level [i >= 1] is
    [f2[i] - f1[i]], element by element in this order, of the shape (and so
    the channel count) of the two maps. *)
Theorem diff_fusion_pyramid (f1 f2 : list (Tensor4 A)) (L : nat) :
  length f1 = L -> length f2 = L -> 0 < L ->
  Forall2 same_shape f2 f1 ->
  exists out,
    FCSiamDiff_fuse f1 f2 = Ok out /\
    length out = L /\
    nth_error out 0 = nth_error f2 0 /\
    forall i t0 t1, 1 <= i ->
      nth_error f1 i = Some t0 -> nth_error f2 i = Some t1 ->
      exists o,
        nth_error out i = Some o /\
        torch_sub t1 t0 = Ok o /\
        shape o = shape t1 /\ dimC o = dimC t0 /\
        forall n c h w,
          n < dimN t1 -> c < dimC t1 -> h < dimH t1 -> w < dimW t1 ->
          get4 o n c h w = s_sub (get4 t1 n c h w) (get4 t0 n c h w).
Proof.
  intros L1 L2 HL Hc.
  destruct (diff_fuse_same_shapes L1 L2 HL Hc) as (out & E & Hlen & H0 & Hlev).
  exists out. split; [ exact E | split; [ exact Hlen | split; [ exact H0 |] ] ].
  intros i t0 t1 Hi E0 E1.
  destruct (Hlev i t0 t1 Hi E0 E1) as (o & Eo & Eop).
  pose proof (Forall2_nth_error Hc i E1 E0) as S.
  destruct (torch_sub_same_shape S) as (o' & Eo' & Hs & Hg).
  assert (o' = o) by congruence. subst o'.
  exists o. split; [ exact Eo | split; [ exact Eop | split; [ exact Hs | split ] ] ].
  - unfold same_shape, shape in *. congruence.
  - exact Hg.
Qed.

(** C3.  With a subtraction of scalars that changes sign when its operands
    are swapped, the difference fusion is anti-symmetric: for two pyramids
    of the same shapes, swapping them negates every level [i >= 1] of the
    fused pyramid, and level 0 becomes level 0 of the other pyramid. *)
Theorem diff_fusion_antisymmetric (f1 f2 : list (Tensor4 A)) (L : nat) :
  (forall x y : A, s_sub x y = s_neg (s_sub y x)) ->
  length f1 = L -> length f2 = L -> 0 < L ->
  Forall2 same_shape f2 f1 ->
  exists out out',
    FCSiamDiff_fuse f1 f2 = Ok out /\
    FCSiamDiff_fuse f2 f1 = Ok out' /\
    length out = L /\ length out' = L /\
    nth_error out 0 = nth_error f2 0 /\
    nth_error out' 0 = nth_error f1 0 /\
    forall i o, 1 <= i -> nth_error out i = Some o ->
                nth_error out' i = Some (torch_neg o).
Proof.
  intros anti L1 L2 HL Hc.
  assert (Hc' : Forall2 same_shape f1 f2).
  { clear - Hc. induction Hc; constructor; auto.
    unfold same_shape in *. congruence. }
  destruct (diff_fuse_same_shapes L1 L2 HL Hc) as (out & E & Hlen & H0 & Hlev).
  destruct (diff_fuse_same_shapes L2 L1 HL Hc') as (out' & E' & Hlen' & H0' & Hlev').
  exists out, out'. repeat (split; [ assumption |]).
  intros i o Hi Eo.
  assert (Hlt : i < L) by (rewrite <- Hlen; apply nth_error_Some; congruence).
  destruct (nth_error f1 i) as [t0 |] eqn:E0;
    [| apply nth_error_None in E0; lia ].
  destruct (nth_error f2 i) as [t1 |] eqn:E1;
    [| apply nth_error_None in E1; lia ].
  destruct (Hlev i t0 t1 Hi E0 E1) as (o1 & Eo1 & Es1).
  destruct (Hlev' i t1 t0 Hi E1 E0) as (o2 & Eo2 & Es2).
  assert (o1 = o) by congruence. subst o1.
  rewrite (torch_sub_swap _ _ anti Es1) in Es2. congruence.
Qed.

(** C10, as the code has it.  When the two time slices of the batch are one
    tensor [s], and the encoder returns for it a pyramid [fs] with a level 0,
    the forward pass of [FCSiamDiff] fuses [fs] with itself; the fused
    pyramid has level 0 of [fs] as its level 0, and at every level [i >= 1] a
    map of the shape of [fs[i]] that holds at every position [v - v] for the
    value [v] of [fs[i]] there.  This map is all zero exactly when [v - v] is
    zero for every value of [fs[i]]: for finite values, not for an infinite
    value or [nan]. *)
Theorem diff_fusion_equal_slices (self : SiamModel A) (x : Tensor5 A)
    (s : Tensor4 A) (fs : list (Tensor4 A)) :
  select_time x 0 = Ok s -> select_time x 1 = Ok s ->
  encoder_call (encoder self) s = Ok fs -> fs <> [] ->
  exists fused,
    FCSiamDiff_fuse fs fs = Ok fused /\
    FCSiamDiff_forward self x =
      (decoder_output <- decoder self fused ;;
       segmentation_head self decoder_output) /\
    length fused = length fs /\
    nth_error fused 0 = nth_error fs 0 /\
    forall i f, 1 <= i -> nth_error fs i = Some f ->
      exists o, nth_error fused i = Some o /\ shape o = shape f /\
                well_formed o /\
                (forall n c h w,
                    n < dimN f -> c < dimC f -> h < dimH f -> w < dimW f ->
                    get4 o n c h w = s_sub (get4 f n c h w) (get4 f n c h w)) /\
                (all_zero o <->
                 forall n c h w,
                   n < dimN f -> c < dimC f -> h < dimH f -> w < dimW f ->
                   s_sub (get4 f n c h w) (get4 f n c h w) = s_zero).
Proof.
  intros S0 S1 Eenc Hne.
  assert (Hc : Forall2 same_shape fs fs).
  { clear. induction fs; constructor; auto. reflexivity. }
  assert (HL : 0 < length fs) by (destruct fs; [ congruence | simpl; lia ]).
  destruct (diff_fuse_same_shapes eq_refl eq_refl HL Hc)
    as (fused & E & Hlen & H0 & Hlev).
  exists fused. split; [ exact E | split; [| split; [ exact Hlen | split ] ] ].
  - unfold FCSiamDiff_forward. rewrite S0, S1. simpl.
    rewrite Eenc. simpl. rewrite E. reflexivity.
  - exact H0.
  - intros i f Hi Ef.
    destruct (Hlev i f f Hi Ef Ef) as (o & Eo & Es).
    destruct (torch_sub_self f) as (o' & Es' & Hshape & Hwf & Hget & Hz).
    assert (o' = o) by congruence. subst o'.
    exists o. auto.
Qed.

(** C6, as the code has it.  The fusion step ends without an exception
    exactly when the T1 pyramid [f2] is not empty, has at least as many
    levels as the T0 pyramid [f1], and at every level [i >= 1] of [f1] the
    two maps can be combined: for the concatenation they agree in batch,
    height and width; for the subtraction their shapes broadcast (each
    dimension equal, or 1 on one side).  In every other case it raises.
    Level 0 and the levels of [f2] beyond those of [f1] are not compared.
    In particular two pyramids of the same number of levels, at least one,
    and of the same shapes are fused without an exception. *)
Theorem fusion_error_conditions (f1 f2 : list (Tensor4 A)) :
  (returns (FCSiamConc_fuse f1 f2) <->
     f2 <> [] /\ length f1 <= length f2 /\
     forall i t0 t1, 1 <= i -> nth_error f1 i = Some t0 ->
                     nth_error f2 i = Some t1 -> cat_compatible t1 t0) /\
  (returns (FCSiamDiff_fuse f1 f2) <->
     f2 <> [] /\ length f1 <= length f2 /\
     forall i t0 t1, 1 <= i -> nth_error f1 i = Some t0 ->
                     nth_error f2 i = Some t1 -> sub_compatible t1 t0) /\
  (raises (FCSiamConc_fuse f1 f2) <-> ~ returns (FCSiamConc_fuse f1 f2)) /\
  (raises (FCSiamDiff_fuse f1 f2) <-> ~ returns (FCSiamDiff_fuse f1 f2)) /\
  (f2 <> [] -> Forall2 same_shape f2 f1 ->
   returns (FCSiamConc_fuse f1 f2) /\ returns (FCSiamDiff_fuse f1 f2)).
Proof.
  assert (RR : forall m : result (list (Tensor4 A)), raises m <-> ~ returns m).
  { intros m. destruct (returns_or_raises m); tauto. }
  assert (HC : returns (FCSiamConc_fuse f1 f2) <->
     f2 <> [] /\ length f1 <= length f2 /\
     forall i t0 t1, 1 <= i -> nth_error f1 i = Some t0 ->
                     nth_error f2 i = Some t1 -> cat_compatible t1 t0).
  { rewrite FCSiamConc_fuse_loop, fuse_with_returns.
    split; intros (Hne & Hlen & Hlev); (split; [ exact Hne | split; [ exact Hlen |] ]);
      intros i t0 t1 Hi E0 E1; apply torch_cat_dim1_returns; eauto. }
  assert (HD : returns (FCSiamDiff_fuse f1 f2) <->
     f2 <> [] /\ length f1 <= length f2 /\
     forall i t0 t1, 1 <= i -> nth_error f1 i = Some t0 ->
                     nth_error f2 i = Some t1 -> sub_compatible t1 t0).
  { rewrite FCSiamDiff_fuse_loop, fuse_with_returns.
    split; intros (Hne & Hlen & Hlev); (split; [ exact Hne | split; [ exact Hlen |] ]);
      intros i t0 t1 Hi E0 E1; apply torch_sub_returns; eauto. }
  split; [ exact HC | split; [ exact HD | split; [ apply RR | split; [ apply RR |] ] ] ].
  intros Hne Hs. pose proof (Forall2_length Hs) as Hlen. split.
  - apply HC. split; [ exact Hne | split; [ lia |] ].
    intros i t0 t1 _ E0 E1. pose proof (Forall2_nth_error Hs i E1 E0) as S.
    unfold same_shape, shape in S. unfold cat_compatible.
    injection S; intros; auto.
  - apply HD. split; [ exact Hne | split; [ lia |] ].
    intros i t0 t1 _ E0 E1. pose proof (Forall2_nth_error Hs i E1 E0) as S.
    unfold sub_compatible. rewrite (broadcast_shape_same S). discriminate.
Qed.

End FusedPyramids.

(** ** The fused pyramids on integer maps *)

Example conc_fusion_example :
  FCSiamConc_fuse pyramid_T0 pyramid_T1 =
  Ok [map_b; mkTensor4 1 4 1 2 [10; 20; 30; 40; 1; 2; 3; 4]%Z].
Proof. reflexivity. Qed.

Example diff_fusion_example :
  FCSiamDiff_fuse pyramid_T0 pyramid_T1 =
  Ok [map_b; mkTensor4 1 2 1 2 [9; 18; 27; 36]%Z].
Proof. reflexivity. Qed.

Lemma pyramids_same_shape : Forall2 same_shape pyramid_T1 pyramid_T0.
Proof. repeat constructor. Defined.

Lemma pyramids_cat_compatible : Forall2 cat_compatible pyramid_T1 pyramid_T0.
Proof. repeat constructor. Defined.

Lemma conc_fusion_pyramid_witness :
  (length pyramid_T0 = 2 /\ length pyramid_T1 = 2 /\ 0 < 2 /\
   Forall2 cat_compatible pyramid_T1 pyramid_T0) /\
  exists out,
    FCSiamConc_fuse pyramid_T0 pyramid_T1 = Ok out /\ length out = 2 /\
    nth_error out 0 = Some map_b /\
    exists o, nth_error out 1 = Some o /\ shape o = (1, 4, 1, 2) /\
              get4 o 0 0 0 1 = 20%Z /\ get4 o 0 2 0 1 = 2%Z.
Proof.
  split; [ repeat split; [ apply Nat.lt_0_succ | exact pyramids_cat_compatible ] |].
  destruct (@conc_fusion_pyramid Z _ pyramid_T0 pyramid_T1 2 eq_refl eq_refl
              (Nat.lt_0_succ 1) pyramids_cat_compatible)
    as (out & E & Hlen & H0 & Hlev).
  exists out. split; [ exact E | split; [ exact Hlen | split; [ exact H0 |] ] ].
  destruct (Hlev 1 map_c map_d (le_n 1) eq_refl eq_refl) as (o & Eo & _ & Hs & Hg).
  exists o. split; [ exact Eo | split; [ exact Hs | split ] ].
  - apply (Hg 0 0 0 1); repeat constructor.
  - apply (Hg 0 2 0 1); repeat constructor.
Defined.

Lemma diff_fusion_pyramid_witness :
  (length pyramid_T0 = 2 /\ length pyramid_T1 = 2 /\ 0 < 2 /\
   Forall2 same_shape pyramid_T1 pyramid_T0) /\
  exists out,
    FCSiamDiff_fuse pyramid_T0 pyramid_T1 = Ok out /\ length out = 2 /\
    nth_error out 0 = Some map_b /\
    exists o, nth_error out 1 = Some o /\ shape o = (1, 2, 1, 2) /\
              get4 o 0 1 0 1 = (40 - 4)%Z.
Proof.
  split; [ repeat split; [ apply Nat.lt_0_succ | exact pyramids_same_shape ] |].
  destruct (@diff_fusion_pyramid Z _ pyramid_T0 pyramid_T1 2 eq_refl eq_refl
              (Nat.lt_0_succ 1) pyramids_same_shape)
    as (out & E & Hlen & H0 & Hlev).
  exists out. split; [ exact E | split; [ exact Hlen | split; [ exact H0 |] ] ].
  destruct (Hlev 1 map_c map_d (le_n 1) eq_refl eq_refl)
    as (o & Eo & _ & Hs & _ & Hg).
  exists o. split; [ exact Eo | split; [ exact Hs |] ].
  apply (Hg 0 1 0 1); repeat constructor.
Defined.

Lemma Z_sub_antisymmetric : forall x y : Z, s_sub x y = s_neg (s_sub y x).
Proof. intros x y. simpl. lia. Defined.

Lemma Z_sub_diag : forall v : Z, s_sub v v = s_zero.
Proof. intros v. simpl. apply Z.sub_diag. Defined.

Lemma diff_fusion_antisymmetric_witness :
  ((forall x y : Z, s_sub x y = s_neg (s_sub y x)) /\
   length pyramid_T0 = 2 /\ length pyramid_T1 = 2 /\ 0 < 2 /\
   Forall2 same_shape pyramid_T1 pyramid_T0) /\
  exists out out',
    FCSiamDiff_fuse pyramid_T0 pyramid_T1 = Ok out /\
    FCSiamDiff_fuse pyramid_T1 pyramid_T0 = Ok out' /\
    nth_error out 0 = Some map_b /\ nth_error out' 0 = Some map_a /\
    forall i o, 1 <= i -> nth_error out i = Some o ->
                nth_error out' i = Some (torch_neg o).
Proof.
  split;
    [ repeat split;
      [ exact Z_sub_antisymmetric | apply Nat.lt_0_succ | exact pyramids_same_shape ] |].
  destruct (@diff_fusion_antisymmetric Z _ pyramid_T0 pyramid_T1 2
              Z_sub_antisymmetric eq_refl eq_refl (Nat.lt_0_succ 1)
              pyramids_same_shape)
    as (out & out' & E & E' & _ & _ & H0 & H0' & Hneg).
  exists out, out'. repeat (split; [ assumption |]). exact Hneg.
Defined.

Example diff_fusion_swapped_example :
  FCSiamDiff_fuse pyramid_T1 pyramid_T0 =
  Ok [map_a; torch_neg (mkTensor4 1 2 1 2 [9; 18; 27; 36]%Z)].
Proof. reflexivity. Qed.

Lemma echo_model_nonempty : [mkTensor4 1 1 1 2 [4; 9]%Z; mkTensor4 1 1 1 2 [4; 9]%Z] <> [].
Proof. discriminate. Defined.

Lemma diff_fusion_equal_slices_witness :
  (select_time batch_equal_slices 0 = Ok (mkTensor4 1 1 1 2 [4; 9]%Z) /\
   select_time batch_equal_slices 1 = Ok (mkTensor4 1 1 1 2 [4; 9]%Z)) /\
  exists fused,
    FCSiamDiff_fuse [mkTensor4 1 1 1 2 [4; 9]%Z; mkTensor4 1 1 1 2 [4; 9]%Z]
                    [mkTensor4 1 1 1 2 [4; 9]%Z; mkTensor4 1 1 1 2 [4; 9]%Z]
      = Ok fused /\
    nth_error fused 0 = Some (mkTensor4 1 1 1 2 [4; 9]%Z) /\
    exists o, nth_error fused 1 = Some o /\ shape o = (1, 1, 1, 2) /\ all_zero o.
Proof.
  split; [ split; reflexivity |].
  destruct (@diff_fusion_equal_slices Z _ echo_model batch_equal_slices
              (mkTensor4 1 1 1 2 [4; 9]%Z)
              [mkTensor4 1 1 1 2 [4; 9]%Z; mkTensor4 1 1 1 2 [4; 9]%Z]
              eq_refl eq_refl eq_refl echo_model_nonempty)
    as (fused & E & _ & _ & H0 & Hlev).
  exists fused. split; [ exact E | split; [ exact H0 |] ].
  destruct (Hlev 1 (mkTensor4 1 1 1 2 [4; 9]%Z) (le_n 1) eq_refl)
    as (o & Eo & Hs & _ & _ & Hz).
  exists o. split; [ exact Eo | split; [ exact Hs |] ].
  apply Hz. intros n c h w _ _ _ _. apply Z_sub_diag.
Defined.

(** C10 as the specification states it fails on the code: the two time
    slices of [batch_inf] are equal and hold an infinite value; the encoder
    returns the slice at level 1, and the fused level 1 of
    [FCSiamDiff.forward] holds [inf - inf], which is [nan] and not zero. *)
Lemma diff_fusion_equal_slices_not_zero :
  select_time batch_inf 0 = Ok slice_inf /\
  select_time batch_inf 1 = Ok slice_inf /\
  encoder_call (encoder inf_model) slice_inf = Ok [slice_inf; slice_inf] /\
  FCSiamDiff_fuse [slice_inf; slice_inf] [slice_inf; slice_inf] =
    Ok [slice_inf; mkTensor4 1 1 1 2 [NaN; Fin 0]] /\
  FCSiamDiff_forward inf_model batch_inf =
    (decoder_output <-
       decoder inf_model [slice_inf; mkTensor4 1 1 1 2 [NaN; Fin 0]] ;;
     segmentation_head inf_model decoder_output) /\
  ~ all_zero (mkTensor4 1 1 1 2 [NaN; Fin 0]).
Proof.
  repeat split; try reflexivity.
  intros HZ. inversion HZ as [| v l Hv _]. discriminate Hv.
Qed.

Example diff_fusion_equal_slices_example :
  FCSiamDiff_fuse [mkTensor4 1 1 1 2 [4; 9]%Z; mkTensor4 1 1 1 2 [4; 9]%Z]
                  [mkTensor4 1 1 1 2 [4; 9]%Z; mkTensor4 1 1 1 2 [4; 9]%Z]
  = Ok [mkTensor4 1 1 1 2 [4; 9]%Z; mkTensor4 1 1 1 2 [0; 0]%Z].
Proof. reflexivity. Qed.

(** C6 as the specification states it fails on the code: pyramids of
    different level counts are fused without an exception when the T1 pyramid
    is the longer one (its extra levels are dropped); the subtraction
    broadcasts a map of spatial size 1 x 1 against one of size 2 x 2; and
    level 0 of the T0 pyramid is never compared with anything. *)
Lemma fusion_accepts_mismatched_pyramids :
  (length [map_a] <> length [map_a; map_e] /\
   FCSiamConc_fuse [map_a] [map_a; map_e] = Ok [map_a] /\
   FCSiamDiff_fuse [map_a] [map_a; map_e] = Ok [map_a] /\
   ~ raises (FCSiamConc_fuse [map_a] [map_a; map_e]) /\
   ~ raises (FCSiamDiff_fuse [map_a] [map_a; map_e])) /\
  ((dimH map_e, dimW map_e) <> (dimH map_b, dimW map_b) /\
   FCSiamDiff_fuse [map_a; map_b] [map_a; map_e] =
     Ok [map_a; mkTensor4 1 1 2 2 [2; 3; 4; 5]%Z] /\
   ~ raises (FCSiamDiff_fuse [map_a; map_b] [map_a; map_e])) /\
  ((dimH map_a, dimW map_a) <> (dimH map_e, dimW map_e) /\
   FCSiamConc_fuse [map_e; map_c] [map_a; map_d] =
     Ok [map_a; mkTensor4 1 4 1 2 [10; 20; 30; 40; 1; 2; 3; 4]%Z] /\
   ~ raises (FCSiamConc_fuse [map_e; map_c] [map_a; map_d])).
Proof.
  repeat split; try discriminate; intros (e & E); discriminate E.
Qed.

(** ** Construction and forward pass *)

Lemma nth_error_head_map {B : Type} (g : B -> B) (l : list B) (i : nat) :
  nth_error (firstn 1 l ++ map g (skipn 1 l)) i =
  match i with
  | 0 => nth_error l 0
  | S _ => option_map g (nth_error l i)
  end.
Proof.
  destruct l as [| x l]; destruct i as [| i]; simpl; try reflexivity.
  apply nth_error_map.
Qed.

Lemma length_head_map {B : Type} (g : B -> B) (l : list B) :
  length (firstn 1 l ++ map g (skipn 1 l)) = length l.
Proof. destruct l; simpl; [ reflexivity | now rewrite length_map ]. Qed.

Lemma py_last_ok {B : Type} (l : list B) (d : B) :
  l <> [] -> py_last l = Ok (last l d).
Proof.
  intros Hne. destruct (exists_last Hne) as (l' & x & ->).
  unfold py_last. rewrite rev_app_distr, last_last. reflexivity.
Qed.

Lemma nth_error_combine_seq {B : Type} (l : list B) (s i : nat) :
  nth_error (combine (seq s (length l)) l) i =
  option_map (fun c => (s + i, c)) (nth_error l i).
Proof.
  revert s i. induction l as [| x l IH]; intros s i; simpl.
  - destruct i; reflexivity.
  - destruct i as [| i]; simpl.
    + now rewrite Nat.add_0_r.
    + rewrite IH. destruct (nth_error l i); simpl; [| reflexivity ].
      do 2 f_equal. lia.
Qed.

Section Wiring.

Context {A : Type} {SA : Scalar A}.

Lemma conc_encoder_out_channels_ok (oc : list nat) :
  oc <> [] ->
  conc_encoder_out_channels oc =
  Ok (firstn 1 oc ++ map (fun c => c * 2) (skipn 1 oc)).
Proof. destruct oc; [ congruence | reflexivity ]. Qed.

Lemma select_time_shape (x : Tensor5 A) (k : nat) :
  k < dimT5 x ->
  exists s, select_time x k = Ok s /\
            shape s = (dimB5 x, dimC5 x, dimH5 x, dimW5 x).
Proof.
  intros Hk. unfold select_time.
  destruct (Nat.ltb_spec k (dimT5 x)); [| lia ].
  eexists. split; reflexivity.
Qed.

(** The shapes of the pyramid that the concatenation fusion builds from two
    pyramids of a U-Net encoder. *)
Lemma conc_fused_shapes (B H W : nat) (oc : list nat) (f1 f2 : list (Tensor4 A)) :
  oc <> [] ->
  pyramid_shapes B oc H W f1 -> pyramid_shapes B oc H W f2 ->
  exists fused,
    FCSiamConc_fuse f1 f2 = Ok fused /\
    pyramid_shapes B (firstn 1 oc ++ map (fun c => c * 2) (skipn 1 oc)) H W fused.
Proof.
  intros Hne (L1 & S1) (L2 & S2).
  assert (Hlen : 0 < length oc) by (destruct oc; [ congruence | simpl; lia ]).
  assert (R : returns (fuse_with torch_cat_dim1 f1 f2)).
  { apply fuse_with_returns. split; [| split ].
    - intros ->. simpl in L2. lia.
    - lia.
    - intros i t0 t1 _ E0 E1. apply torch_cat_dim1_returns.
      destruct (nth_error oc i) as [c |] eqn:Ec;
        [| apply nth_error_None in Ec;
           assert (i < length f1) by (apply nth_error_Some; congruence); lia ].
      pose proof (S1 i t0 c E0 Ec) as X0. pose proof (S2 i t1 c E1 Ec) as X1.
      unfold shape in X0, X1. unfold cat_compatible.
      injection X0; injection X1; intros; repeat split; congruence. }
  destruct R as (fused & E). exists fused. split; [ exact E |].
  destruct (fuse_with_ok _ _ _ E) as (Hl & (t & Ht & Hf0) & Hlev).
  split.
  - rewrite length_head_map. lia.
  - intros i f c Ef Ec. rewrite nth_error_head_map in Ec.
    destruct i as [| j].
    + assert (f = t) by congruence. subst f.
      apply (S2 0 t c Ht Ec).
    + destruct (nth_error oc (S j)) as [c' |] eqn:Ec'; [| discriminate ].
      simpl in Ec. injection Ec as <-.
      assert (Hj : S j < length f1).
      { rewrite L1. apply nth_error_Some. congruence. }
      destruct (Hlev (S j) (le_n_S _ _ (Nat.le_0_l j)) Hj)
        as (t0 & t1 & o & E0 & E1 & Eop & Eo).
      assert (o = f) by congruence. subst o.
      destruct (torch_cat_dim1_ok _ _ Eop) as (Hs & _).
      pose proof (S1 _ _ _ E0 Ec') as X0. pose proof (S2 _ _ _ E1 Ec') as X1.
      unfold shape in X0, X1. rewrite Hs.
      injection X0 as a1 a2 a3 a4. injection X1 as b1 b2 b3 b4.
      rewrite b1, b2, a2, b3, b4.
      replace (c' + c') with (c' * 2) by lia. reflexivity.
Qed.

(** The same for the difference fusion: the channel counts are kept. *)
Lemma diff_fused_shapes (B H W : nat) (oc : list nat) (f1 f2 : list (Tensor4 A)) :
  oc <> [] ->
  pyramid_shapes B oc H W f1 -> pyramid_shapes B oc H W f2 ->
  exists fused,
    FCSiamDiff_fuse f1 f2 = Ok fused /\ pyramid_shapes B oc H W fused.
Proof.
  intros Hne (L1 & S1) (L2 & S2).
  assert (Hlen : 0 < length oc) by (destruct oc; [ congruence | simpl; lia ]).
  assert (Hsame : forall i t0 t1, nth_error f1 i = Some t0 ->
                                  nth_error f2 i = Some t1 -> same_shape t1 t0).
  { intros i t0 t1 E0 E1.
    destruct (nth_error oc i) as [c |] eqn:Ec;
      [| apply nth_error_None in Ec;
         assert (i < length f1) by (apply nth_error_Some; congruence); lia ].
    unfold same_shape. rewrite (S1 i t0 c E0 Ec), (S2 i t1 c E1 Ec). reflexivity. }
  assert (R : returns (fuse_with torch_sub f1 f2)).
  { apply fuse_with_returns. split; [| split ].
    - intros ->. simpl in L2. lia.
    - lia.
    - intros i t0 t1 _ E0 E1.
      destruct (torch_sub_same_shape (Hsame i t0 t1 E0 E1)) as (o & Eo & _).
      exists o. exact Eo. }
  destruct R as (fused & E). exists fused. split; [ exact E |].
  destruct (fuse_with_ok _ _ _ E) as (Hl & (t & Ht & Hf0) & Hlev).
  split; [ lia |].
  intros i f c Ef Ec. destruct i as [| j].
  - assert (f = t) by congruence. subst f. apply (S2 0 t c Ht Ec).
  - assert (Hj : S j < length f1).
    { rewrite L1. apply nth_error_Some. congruence. }
    destruct (Hlev (S j) (le_n_S _ _ (Nat.le_0_l j)) Hj)
      as (t0 & t1 & o & E0 & E1 & Eop & Eo).
    assert (o = f) by congruence. subst o.
    destruct (torch_sub_same_shape (Hsame _ _ _ E0 E1)) as (o' & Eo' & Hs & _).
    assert (o' = f) by congruence. subst o'.
    rewrite Hs. apply (S2 _ _ _ E1 Ec).
Qed.

End Wiring.

Section Construction.

Context {A : Type} {SA : Scalar A}.

(** The channel counts of the fused pyramid of the concatenation variant. *)
Lemma conc_fused_channels (oc : list nat) (f1 f2 fused : list (Tensor4 A)) :
  map dimC f1 = oc -> map dimC f2 = oc ->
  FCSiamConc_fuse f1 f2 = Ok fused ->
  map dimC fused = firstn 1 oc ++ map (fun c => c * 2) (skipn 1 oc).
Proof.
  intros M1 M2 E. rewrite FCSiamConc_fuse_loop in E.
  destruct (fuse_with_ok _ _ _ E) as (Hl & (t & Ht & Hf0) & Hlev).
  assert (L1 : length f1 = length oc) by (rewrite <- M1; now rewrite length_map).
  assert (L2 : length f2 = length oc) by (rewrite <- M2; now rewrite length_map).
  assert (Hpos : 0 < length f2)
    by (apply nth_error_Some; congruence).
  apply nth_error_ext. intros i.
  rewrite nth_error_head_map, nth_error_map.
  destruct i as [| j].
  - rewrite Hf0, <- M2, nth_error_map, Ht. reflexivity.
  - destruct (Nat.lt_ge_cases (S j) (length f1)) as [Hj | Hj].
    + destruct (Hlev (S j) (le_n_S _ _ (Nat.le_0_l j)) Hj)
        as (t0 & t1 & o & E0 & E1 & Eop & Eo).
      destruct (torch_cat_dim1_ok _ _ Eop) as (Hs & _).
      unfold shape in Hs. injection Hs as _ Hc _ _.
      assert (X1 : nth_error oc (S j) = Some (dimC t1))
        by (rewrite <- M2, nth_error_map, E1; reflexivity).
      assert (X0 : nth_error oc (S j) = Some (dimC t0))
        by (rewrite <- M1, nth_error_map, E0; reflexivity).
      rewrite Eo, X1. simpl. f_equal. rewrite Hc.
      assert (dimC t0 = dimC t1) by congruence. lia.
    + assert (N1 : nth_error fused (S j) = None) by (apply nth_error_None; lia).
      assert (N2 : nth_error oc (S j) = None) by (apply nth_error_None; lia).
      rewrite N1, N2. reflexivity.
Qed.

(** C4.  When the encoder that [FCSiamConc.__init__] obtains has a non-empty
    [out_channels], the list computed for the decoder is
    [[out_channels[0]] + [c * 2 for c in out_channels[1:]]]; the
    constructor hands exactly this list to [UnetDecoder] as
    [encoder_channels]; and it is the list of channel counts of the pyramid
    that the concatenation fusion builds from two pyramids of the encoder. *)
Theorem conc_decoder_encoder_channels (smp : Smp A) (args : InitArgs A)
    (enc : Encoder A) :
  get_encoder smp (encoder_name args) (in_channels args) (encoder_depth args)
              (encoder_weights args) (dropout args) = Ok enc ->
  out_channels enc <> [] ->
  conc_encoder_out_channels (out_channels enc) =
    Ok (firstn 1 (out_channels enc) ++
        map (fun c => c * 2) (skipn 1 (out_channels enc))) /\
  FCSiamConc_init smp args =
    (dec <- UnetDecoder smp
              (firstn 1 (out_channels enc) ++
               map (fun c => c * 2) (skipn 1 (out_channels enc)))
              (decoder_channels_or_default (decoder_channels args))
              (encoder_depth args) (decoder_use_batchnorm args)
              (startswith (encoder_name args) "vgg")
              (decoder_attention_type args) ;;
     head_in <- py_last (decoder_channels_or_default (decoder_channels args)) ;;
     head <- SegmentationHead smp head_in (classes args) (activation args) 3 ;;
     Ok (mkSiamModel enc dec head)) /\
  forall f1 f2 fused,
    map dimC f1 = out_channels enc -> map dimC f2 = out_channels enc ->
    FCSiamConc_fuse f1 f2 = Ok fused ->
    map dimC fused =
      firstn 1 (out_channels enc) ++
      map (fun c => c * 2) (skipn 1 (out_channels enc)).
Proof.
  intros Eenc Hne. split; [| split ].
  - apply conc_encoder_out_channels_ok, Hne.
  - unfold FCSiamConc_init. rewrite Eenc. simpl.
    rewrite (conc_encoder_out_channels_ok Hne). simpl.
    destruct (startswith (encoder_name args) "vgg"); reflexivity.
  - intros f1 f2 fused. apply conc_fused_channels.
Qed.

(** C5.  For a batch of shape (B, 2, C, H, W) and a configuration that is
    valid (a depth of at least 1, as many decoder channels as the depth,
    [in_channels = C], H and W multiples of [2 ^ depth]) with collaborators
    that keep their contracts (the encoder returns the U-Net pyramid of its
    [out_channels], the decoder maps a pyramid of its [encoder_channels] to a
    map of the input size, the head maps it to [classes] channels; the
    constructor [Unet] assembles such parts, its decoder configured with the
    [out_channels] of its encoder), both models are constructed and their
    forward pass returns a mask of shape (B, classes, H, W). *)
Theorem forward_output_shape (smp : Smp A) (args : InitArgs A) (x : Tensor5 A) :
  0 < encoder_depth args ->
  length (decoder_channels_or_default (decoder_channels args)) = encoder_depth args ->
  dimT5 x = 2 ->
  dimC5 x = in_channels args ->
  Nat.divide (2 ^ encoder_depth args) (dimH5 x) ->
  Nat.divide (2 ^ encoder_depth args) (dimW5 x) ->
  (exists enc,
      get_encoder smp (encoder_name args) (in_channels args) (encoder_depth args)
                  (encoder_weights args) (dropout args) = Ok enc /\
      encoder_contract enc (encoder_depth args) (in_channels args)) ->
  (forall ec bn center att,
      length ec = encoder_depth args + 1 ->
      exists dec,
        UnetDecoder smp ec (decoder_channels_or_default (decoder_channels args))
                    (encoder_depth args) bn center att = Ok dec /\
        decoder_contract dec ec
          (decoder_channels_or_default (decoder_channels args))
          (encoder_depth args)) ->
  (forall in_ch act k, exists head,
      SegmentationHead smp in_ch (classes args) act k = Ok head /\
      head_contract head in_ch (classes args)) ->
  (exists unet,
      Unet_init smp (encoder_name args) (encoder_depth args) (encoder_weights args)
                (decoder_use_batchnorm args)
                (decoder_channels_or_default (decoder_channels args))
                (decoder_attention_type args) (in_channels args) (classes args)
                (activation args) = Ok unet /\
      encoder_contract (encoder unet) (encoder_depth args) (in_channels args) /\
      decoder_contract (decoder unet) (out_channels (encoder unet))
        (decoder_channels_or_default (decoder_channels args))
        (encoder_depth args) /\
      head_contract (segmentation_head unet)
        (last (decoder_channels_or_default (decoder_channels args)) 0)
        (classes args)) ->
  (exists model mask,
      FCSiamConc_init smp args = Ok model /\
      FCSiamConc_forward model x = Ok mask /\
      shape mask = (dimB5 x, classes args, dimH5 x, dimW5 x)) /\
  (exists model mask,
      FCSiamDiff_init smp args = Ok model /\
      FCSiamDiff_forward model x = Ok mask /\
      shape mask = (dimB5 x, classes args, dimH5 x, dimW5 x)).
Proof.
  intros Hdepth Hdc HT HC HH HW Henc Hdec Hhead Hunet.
  set (dc := decoder_channels_or_default (decoder_channels args)) in *.
  assert (Hdcne : dc <> []) by (intros X; rewrite X in Hdc; simpl in Hdc; lia).
  destruct (@select_time_shape _ _ x 0) as (x1 & Ex1 & Sx1); [ lia |].
  destruct (@select_time_shape _ _ x 1) as (x2 & Ex2 & Sx2); [ lia |].
  unfold shape in Sx1, Sx2.
  injection Sx1 as N1 C1 H1 W1. injection Sx2 as N2 C2 H2 W2.
  assert (Hforward : forall (enc : Encoder A) (dec : Decoder A) (head : Head A)
      (fuse : list (Tensor4 A) -> list (Tensor4 A) -> result (list (Tensor4 A)))
      (ec : list nat),
    encoder_contract enc (encoder_depth args) (in_channels args) ->
    decoder_contract dec ec dc (encoder_depth args) ->
    head_contract head (last dc 0) (classes args) ->
    (forall f1 f2,
        pyramid_shapes (dimB5 x) (out_channels enc) (dimH5 x) (dimW5 x) f1 ->
        pyramid_shapes (dimB5 x) (out_channels enc) (dimH5 x) (dimW5 x) f2 ->
        exists fused, fuse f1 f2 = Ok fused /\
                      pyramid_shapes (dimB5 x) ec (dimH5 x) (dimW5 x) fused) ->
    exists mask : Tensor4 A,
      (x1 <- select_time x 0 ;; x2 <- select_time x 1 ;;
       features1 <- encoder_call enc x1 ;;
       features2 <- encoder_call enc x2 ;;
       features <- fuse features1 features2 ;;
       decoder_output <- dec features ;;
       head decoder_output) = Ok mask /\
      shape mask = (dimB5 x, classes args, dimH5 x, dimW5 x)).
  { intros enc dec head fuse ec (Hoc & Hcall) Hd Hh Hfuse.
    rewrite Ex1, Ex2. simpl.
    destruct (Hcall x1) as (f1 & Ef1 & P1); [ congruence | congruence | congruence |].
    destruct (Hcall x2) as (f2 & Ef2 & P2); [ congruence | congruence | congruence |].
    rewrite N1, H1, W1 in P1. rewrite N2, H2, W2 in P2.
    rewrite Ef1, Ef2. simpl.
    destruct (Hfuse f1 f2 P1 P2) as (fused & Ef & Pf). rewrite Ef. simpl.
    destruct (Hd _ _ _ _ HH HW Pf) as (y & Ey & Sy). rewrite Ey. simpl.
    unfold shape in Sy. injection Sy as Ny Cy Hy Wy.
    destruct (Hh y Cy) as (mask & Em & Sm). exists mask.
    split; [ exact Em |]. rewrite Sm. congruence. }
  split.
  - destruct Henc as (enc & Eenc & Cenc).
    assert (Hocne : out_channels enc <> []).
    { destruct Cenc as (Hoc & _). intros X. rewrite X in Hoc. simpl in Hoc. lia. }
    destruct (Hdec (firstn 1 (out_channels enc) ++
                    map (fun c => c * 2) (skipn 1 (out_channels enc)))
                   (decoder_use_batchnorm args)
                   (if startswith (encoder_name args) "vgg" then true else false)
                   (decoder_attention_type args))
      as (dec & Edec & Cdec).
    { rewrite length_head_map. apply Cenc. }
    destruct (Hhead (last dc 0) (activation args) 3) as (head & Ehead & Chead).
    exists (mkSiamModel enc dec head).
    destruct (Hforward enc dec head FCSiamConc_fuse _ Cenc Cdec Chead)
      as (mask & Em & Sm).
    { intros f1 f2. apply conc_fused_shapes, Hocne. }
    exists mask. split; [| split; [ exact Em | exact Sm ] ].
    unfold FCSiamConc_init. fold dc. rewrite Eenc. cbn [bind].
    rewrite (conc_encoder_out_channels_ok Hocne). cbn [bind].
    rewrite Edec. cbn [bind]. rewrite (py_last_ok 0 Hdcne). cbn [bind].
    rewrite Ehead. reflexivity.
  - destruct Hunet as (unet & Eunet & Cenc & Cdec & Chead).
    assert (Hocne : out_channels (encoder unet) <> []).
    { destruct Cenc as (Hoc & _). intros X. rewrite X in Hoc. simpl in Hoc. lia. }
    exists unet.
    destruct (Hforward (encoder unet) (decoder unet) (segmentation_head unet)
                FCSiamDiff_fuse _ Cenc Cdec Chead)
      as (mask & Em & Sm).
    { intros f1 f2. apply diff_fused_shapes, Hocne. }
    exists mask. split; [ exact Eunet | split; [ exact Em | exact Sm ] ].
Qed.

End Construction.

(** ** Collaborators that only produce shapes keep the contracts *)

Section ShapeCollaborators.

Context {A : Type} {SA : Scalar A}.

Lemma shape_encoder_contract (channels : list nat) (depth in_ch : nat) :
  length channels = depth + 1 ->
  encoder_contract (shape_encoder (A := A) channels) depth in_ch.
Proof.
  intros Hlen. split; [ exact Hlen |].
  intros x _ _ _. eexists. split; [ reflexivity |]. split.
  - rewrite length_map, length_combine, length_seq. simpl. apply Nat.min_id.
  - intros i f c Ef Ec. simpl in Ec.
    rewrite nth_error_map, nth_error_combine_seq, Ec in Ef. simpl in Ef.
    injection Ef as <-. reflexivity.
Qed.

Lemma shape_decoder_contract (ec dc : list nat) (n : nat) :
  ec <> [] -> decoder_contract (shape_decoder (A := A) dc) ec dc n.
Proof.
  intros Hne B H W fs _ _ (L & S).
  destruct ec as [| c0 ec]; [ congruence |].
  destruct fs as [| t fs]; [ discriminate |].
  eexists. split; [ reflexivity |].
  pose proof (S 0 t c0 eq_refl eq_refl) as X.
  unfold shape in X. change (2 ^ 0) with 1 in X. rewrite !Nat.div_1_r in X.
  injection X as XN _ XH XW.
  unfold shape, zeros. simpl. congruence.
Qed.

Lemma shape_head_contract (in_ch out_ch : nat) :
  head_contract (shape_head (A := A) out_ch) in_ch out_ch.
Proof. intros y _. eexists. split; reflexivity. Qed.

End ShapeCollaborators.

Example select_time_example :
  select_time (mkTensor5 2 2 1 1 2 [1; 2; 3; 4; 5; 6; 7; 8]%Z) 0 =
    Ok (mkTensor4 2 1 1 2 [1; 2; 5; 6]%Z) /\
  select_time (mkTensor5 2 2 1 1 2 [1; 2; 3; 4; 5; 6; 7; 8]%Z) 1 =
    Ok (mkTensor4 2 1 1 2 [3; 4; 7; 8]%Z) /\
  select_time (mkTensor5 2 1 1 1 2 [1; 2; 3; 4]%Z) 1 = Raise IndexError.
Proof. repeat split. Qed.

Lemma scenario_channels_nonempty : scenario_channels <> [].
Proof. discriminate. Defined.

Lemma conc_decoder_encoder_channels_witness :
  (get_encoder (shape_smp scenario_channels) (encoder_name scenario_args)
     (in_channels scenario_args) (encoder_depth scenario_args)
     (encoder_weights scenario_args) (dropout scenario_args)
   = Ok (shape_encoder scenario_channels) /\
   out_channels (shape_encoder (A := Z) scenario_channels) <> []) /\
  conc_encoder_out_channels scenario_channels = Ok [3; 128; 128; 256; 512; 1024].
Proof.
  split; [ split; [ reflexivity | exact scenario_channels_nonempty ] |].
  exact (proj1 (@conc_decoder_encoder_channels Z _ (shape_smp scenario_channels)
                  scenario_args (shape_encoder scenario_channels)
                  eq_refl scenario_channels_nonempty)).
Defined.

Example conc_fused_channels_example :
  option_map (map dimC)
    (match FCSiamConc_fuse pyramid_T0 pyramid_T1 with
     | Ok fused => Some fused
     | Raise _ => None
     end) = Some [1; 4] /\
  conc_encoder_out_channels (map dimC pyramid_T0) = Ok [1; 4].
Proof. split; reflexivity. Qed.

Lemma scenario_divides : Nat.divide (2 ^ 5) 64.
Proof. exists 2. reflexivity. Defined.

Lemma scenario_encoder :
  exists enc,
    get_encoder (shape_smp scenario_channels) (encoder_name scenario_args)
      (in_channels scenario_args) (encoder_depth scenario_args)
      (encoder_weights scenario_args) (dropout scenario_args) = Ok enc /\
    encoder_contract enc (encoder_depth scenario_args) (in_channels scenario_args).
Proof.
  exists (shape_encoder scenario_channels).
  split; [ reflexivity | apply shape_encoder_contract; reflexivity ].
Defined.

Lemma scenario_decoder (ec : list nat) (bn : BatchNormOpt) (center : bool)
    (att : option string) :
  length ec = encoder_depth scenario_args + 1 ->
  exists dec,
    UnetDecoder (shape_smp (A := Z) scenario_channels) ec
      (decoder_channels_or_default (decoder_channels scenario_args))
      (encoder_depth scenario_args) bn center att = Ok dec /\
    decoder_contract dec ec
      (decoder_channels_or_default (decoder_channels scenario_args))
      (encoder_depth scenario_args).
Proof.
  intros Hlen. eexists. split; [ reflexivity |].
  apply shape_decoder_contract. intros X. rewrite X in Hlen. discriminate.
Defined.

Lemma scenario_head (in_ch : nat) (act : Activation Z) (k : nat) :
  exists head,
    SegmentationHead (shape_smp scenario_channels) in_ch (classes scenario_args)
      act k = Ok head /\
    head_contract head in_ch (classes scenario_args).
Proof.
  eexists. split; [ reflexivity | apply shape_head_contract ].
Defined.

Lemma scenario_unet :
  exists unet,
    Unet_init (shape_smp scenario_channels) (encoder_name scenario_args)
      (encoder_depth scenario_args) (encoder_weights scenario_args)
      (decoder_use_batchnorm scenario_args)
      (decoder_channels_or_default (decoder_channels scenario_args))
      (decoder_attention_type scenario_args) (in_channels scenario_args)
      (classes scenario_args) (activation scenario_args) = Ok unet /\
    encoder_contract (encoder unet) (encoder_depth scenario_args)
      (in_channels scenario_args) /\
    decoder_contract (decoder unet) (out_channels (encoder unet))
      (decoder_channels_or_default (decoder_channels scenario_args))
      (encoder_depth scenario_args) /\
    head_contract (segmentation_head unet)
      (last (decoder_channels_or_default (decoder_channels scenario_args)) 0)
      (classes scenario_args).
Proof.
  eexists. split; [ reflexivity | split; [| split ] ].
  - apply shape_encoder_contract. reflexivity.
  - apply shape_decoder_contract. discriminate.
  - apply shape_head_contract.
Defined.

Lemma forward_output_shape_witness :
  (0 < encoder_depth scenario_args /\
   length (decoder_channels_or_default (decoder_channels scenario_args)) = 5 /\
   dimT5 scenario_batch = 2 /\ dimC5 scenario_batch = 3 /\
   Nat.divide (2 ^ 5) (dimH5 scenario_batch) /\
   Nat.divide (2 ^ 5) (dimW5 scenario_batch)) /\
  (exists model mask,
      FCSiamConc_init (shape_smp scenario_channels) scenario_args = Ok model /\
      FCSiamConc_forward model scenario_batch = Ok mask /\
      shape mask = (2, 1, 64, 64)) /\
  (exists model mask,
      FCSiamDiff_init (shape_smp scenario_channels) scenario_args = Ok model /\
      FCSiamDiff_forward model scenario_batch = Ok mask /\
      shape mask = (2, 1, 64, 64)).
Proof.
  split.
  - repeat split; try apply Nat.lt_0_succ; exact scenario_divides.
  - exact (@forward_output_shape Z _ (shape_smp scenario_channels) scenario_args
             scenario_batch (Nat.lt_0_succ 4) eq_refl eq_refl eq_refl
             scenario_divides scenario_divides
             scenario_encoder scenario_decoder scenario_head scenario_unet).
Defined.

(** ** The metric loop of the logger *)

Lemma String_eqb_cons (c1 c2 : ascii) (s1 s2 : string) :
  String.eqb (String c1 s1) (String c2 s2) = Ascii.eqb c1 c2 && String.eqb s1 s2.
Proof. simpl. destruct (Ascii.eqb c1 c2); reflexivity. Qed.

Lemma re_sub_strip_length (k : string) :
  String.length (re_sub_strip k) <= String.length k.
Proof.
  induction k as [| c k IH]; simpl; [ lia |].
  destruct (char_class c); simpl; lia.
Qed.

Lemma re_sub_strip_filter (k : string) :
  re_sub_strip k =
  string_of_list_ascii (filter char_class (list_ascii_of_string k)).
Proof.
  induction k as [| c k IH]; simpl; [ reflexivity |].
  destruct (char_class c); simpl; now rewrite IH.
Qed.

(** The name is left as it is exactly when all its characters are in the
    class. *)
Lemma re_sub_strip_unchanged (k : string) :
  String.eqb k (re_sub_strip k) = forallb char_class (list_ascii_of_string k).
Proof.
  induction k as [| c k IH]; [ reflexivity |].
  simpl re_sub_strip. simpl forallb. destruct (char_class c) eqn:Ec.
  - rewrite String_eqb_cons, Ascii.eqb_refl, IH. reflexivity.
  - simpl andb. apply String.eqb_neq. intros E.
    pose proof (re_sub_strip_length k) as L.
    rewrite <- E in L. simpl in L. lia.
Qed.

Lemma log_metrics_body_entry (timestamp_ms : Z) (step : option Z)
    (events : list Event) (metrics_list : list Metric) (kv : string * PyVal) :
  log_metrics_body timestamp_ms step (events, metrics_list) kv =
  (events ++ entry_events kv, metrics_list ++ entry_metrics timestamp_ms step kv).
Proof.
  destruct kv as (k, v). unfold log_metrics_body, entry_events, entry_metrics.
  simpl fst. simpl snd.
  destruct v; try reflexivity;
    destruct (String.eqb k (re_sub_strip k)) eqn:E; simpl;
    rewrite ?app_nil_r; try reflexivity;
    apply String.eqb_eq in E; rewrite <- E; reflexivity.
Qed.

Lemma log_metrics_loop (timestamp_ms : Z) (step : option Z)
    (l : list (string * PyVal)) (events : list Event) (metrics_list : list Metric) :
  fold_left (log_metrics_body timestamp_ms step) l (events, metrics_list) =
  (events ++ flat_map entry_events l,
   metrics_list ++ flat_map (entry_metrics timestamp_ms step) l).
Proof.
  revert events metrics_list. induction l as [| kv l IH]; intros events metrics_list.
  - simpl. now rewrite !app_nil_r.
  - cbn [fold_left flat_map]. rewrite log_metrics_body_entry, IH.
    now rewrite !app_assoc.
Qed.

Lemma log_metrics_events (self : MLFlowLogger) (run_id : option string)
    (timestamp_ms : Z) (metrics : list (string * PyVal)) (step : option Z) :
  log_metrics self run_id timestamp_ms metrics step =
  flat_map entry_events (_add_prefix metrics (_prefix self) LOGGER_JOIN_CHAR) ++
  [LogBatch run_id
     (flat_map (entry_metrics timestamp_ms step)
               (_add_prefix metrics (_prefix self) LOGGER_JOIN_CHAR))].
Proof.
  unfold log_metrics. rewrite log_metrics_loop. reflexivity.
Qed.

Lemma logged_batch_entry_events (l : list (string * PyVal)) :
  logged_batch (flat_map entry_events l) = [].
Proof.
  induction l as [| (k, v) l IH]; [ reflexivity |].
  simpl flat_map. unfold logged_batch in *. rewrite flat_map_app, IH, app_nil_r.
  unfold entry_events. simpl fst. simpl snd.
  destruct v; try reflexivity;
    destruct (String.eqb k (re_sub_strip k)); reflexivity.
Qed.

Lemma logged_batch_log_metrics (self : MLFlowLogger) (run_id : option string)
    (timestamp_ms : Z) (metrics : list (string * PyVal)) (step : option Z) :
  logged_batch (log_metrics self run_id timestamp_ms metrics step) =
  flat_map (entry_metrics timestamp_ms step)
           (_add_prefix metrics (_prefix self) LOGGER_JOIN_CHAR).
Proof.
  rewrite log_metrics_events. unfold logged_batch at 1.
  rewrite flat_map_app. fold (logged_batch (flat_map entry_events
    (_add_prefix metrics (_prefix self) LOGGER_JOIN_CHAR))).
  rewrite logged_batch_entry_events. simpl. apply app_nil_r.
Qed.

Lemma entry_metrics_numeric (timestamp_ms : Z) (step : option Z)
    (l : list (string * PyVal)) :
  flat_map (entry_metrics timestamp_ms step) l =
  map (fun kv => mkMetric (re_sub_strip (fst kv)) (snd kv) timestamp_ms
                          (step_or_0 step))
      (filter (fun kv => negb (isinstance_str (snd kv))) l).
Proof.
  induction l as [| (k, v) l IH]; [ reflexivity |].
  simpl. rewrite IH. destruct v; reflexivity.
Qed.



Lemma forallb_pointwise {B : Type} (f g : B -> bool) (l : list B) :
  (forall x, f x = g x) -> forallb f l = forallb g l.
Proof.
  intros E. induction l as [| x l IH]; simpl; [ reflexivity |].
  now rewrite E, IH.
Qed.

Lemma forallb_Forall_true {B : Type} (f : B -> bool) (l : list B) :
  forallb f l = true <-> Forall (fun x => f x = true) l.
Proof. rewrite forallb_forall, Forall_forall. reflexivity. Qed.

Lemma char_class_alphabet (c : ascii) : char_class c = in_alphabet c.
Proof. destruct c as [[] [] [] [] [] [] [] []]; reflexivity. Qed.

Lemma rank_zero_warnings_app (a b : list Event) :
  rank_zero_warnings (a ++ b) = rank_zero_warnings a ++ rank_zero_warnings b.
Proof. apply flat_map_app. Qed.

Lemma log_warnings_app (a b : list Event) :
  log_warnings (a ++ b) = log_warnings a ++ log_warnings b.
Proof. apply flat_map_app. Qed.

Lemma rank_zero_warnings_entry (kv : string * PyVal) :
  rank_zero_warnings (entry_events kv) =
  if isinstance_str (snd kv) then []
  else if forallb char_class (list_ascii_of_string (fst kv)) then []
       else [replacing_message (fst kv) (re_sub_strip (fst kv))].
Proof.
  destruct kv as (k, v). unfold entry_events. cbn [fst snd].
  rewrite <- re_sub_strip_unchanged.
  destruct v; cbn [isinstance_str]; try reflexivity;
    destruct (String.eqb k (re_sub_strip k)); reflexivity.
Qed.

Lemma log_warnings_entry (kv : string * PyVal) :
  log_warnings (entry_events kv) =
  match snd kv with
  | PyStr s => [discarding_message (fst kv) s]
  | _ => []
  end.
Proof.
  destruct kv as (k, v). unfold entry_events. cbn [fst snd].
  destruct v; try reflexivity;
    destruct (String.eqb k (re_sub_strip k)); reflexivity.
Qed.

Lemma rank_zero_warnings_log_metrics (self : MLFlowLogger) (run_id : option string)
    (timestamp_ms : Z) (metrics : list (string * PyVal)) (step : option Z) :
  rank_zero_warnings (log_metrics self run_id timestamp_ms metrics step) =
  flat_map (fun kv =>
              if forallb char_class (list_ascii_of_string (fst kv)) then []
              else [replacing_message (fst kv) (re_sub_strip (fst kv))])
           (numeric_entries self metrics).
Proof.
  rewrite log_metrics_events, rank_zero_warnings_app. unfold numeric_entries.
  change (rank_zero_warnings [LogBatch run_id _]) with (@nil string).
  rewrite app_nil_r.
  induction (_add_prefix metrics (_prefix self) LOGGER_JOIN_CHAR)
    as [| kv l IH]; [ reflexivity |].
  cbn [flat_map filter]. rewrite rank_zero_warnings_app, IH, rank_zero_warnings_entry.
  destruct (isinstance_str (snd kv)); reflexivity.
Qed.

Lemma log_warnings_log_metrics (self : MLFlowLogger) (run_id : option string)
    (timestamp_ms : Z) (metrics : list (string * PyVal)) (step : option Z) :
  log_warnings (log_metrics self run_id timestamp_ms metrics step) =
  flat_map (fun kv => match snd kv with
                      | PyStr s => [discarding_message (fst kv) s]
                      | _ => []
                      end)
           (_add_prefix metrics (_prefix self) LOGGER_JOIN_CHAR).
Proof.
  rewrite log_metrics_events, log_warnings_app.
  change (log_warnings [LogBatch run_id _]) with (@nil string).
  rewrite app_nil_r.
  induction (_add_prefix metrics (_prefix self) LOGGER_JOIN_CHAR)
    as [| kv l IH]; [ reflexivity |].
  cbn [flat_map]. rewrite log_warnings_app, IH, log_warnings_entry. reflexivity.
Qed.

(** C7.  The keys of the batch that [log_metrics] hands to MLflow are the
    names (with the prefix of the logger, when it has one) of the entries
    that are not strings, each with every character outside
    [a-zA-Z0-9_/. -] removed and the others kept in order; [rank_zero_warn]
    is called for exactly those of these names that have a character outside
    the set.  With the default logger ["loss/val step-1"] is logged as it is
    and without a warning, and ["loss@val#1"] is logged as ["lossval1"] with
    a warning. *)
Theorem metric_names_sanitized (self : MLFlowLogger) (run_id : option string)
    (timestamp_ms : Z) (metrics : list (string * PyVal)) (step : option Z) :
  map key (logged_batch (log_metrics self run_id timestamp_ms metrics step)) =
    map (fun kv => string_of_list_ascii
                     (filter in_alphabet (list_ascii_of_string (fst kv))))
        (numeric_entries self metrics) /\
  rank_zero_warnings (log_metrics self run_id timestamp_ms metrics step) =
    flat_map (fun kv =>
                if forallb in_alphabet (list_ascii_of_string (fst kv)) then []
                else [replacing_message (fst kv) (re_sub_strip (fst kv))])
             (numeric_entries self metrics) /\
  (forall k, re_sub_strip k =
             string_of_list_ascii (filter in_alphabet (list_ascii_of_string k))) /\
  (forall k, re_sub_strip k = k <->
             Forall (fun c => in_alphabet c = true) (list_ascii_of_string k)) /\
  (forall v, isinstance_str v = false ->
     log_metrics default_logger run_id timestamp_ms [("loss/val step-1"%string, v)] step =
     [LogBatch run_id
        [mkMetric "loss/val step-1" v timestamp_ms (step_or_0 step)]]) /\
  (forall v, isinstance_str v = false ->
     log_metrics default_logger run_id timestamp_ms [("loss@val#1"%string, v)] step =
     [RankZeroWarn (replacing_message "loss@val#1" "lossval1");
      LogBatch run_id [mkMetric "lossval1" v timestamp_ms (step_or_0 step)]]).
Proof.
  assert (Hfilter : forall k, re_sub_strip k =
            string_of_list_ascii (filter in_alphabet (list_ascii_of_string k))).
  { intros k. rewrite re_sub_strip_filter. f_equal.
    apply filter_ext. exact char_class_alphabet. }
  split; [| split; [| split; [ exact Hfilter | split; [| split ] ] ] ].
  - rewrite logged_batch_log_metrics, entry_metrics_numeric, map_map.
    apply map_ext. intros kv. simpl. apply Hfilter.
  - rewrite rank_zero_warnings_log_metrics. apply flat_map_ext. intros kv.
    rewrite (@forallb_pointwise _ char_class in_alphabet _ char_class_alphabet).
    reflexivity.
  - intros k. rewrite <- forallb_Forall_true.
    rewrite <- (@forallb_pointwise _ char_class in_alphabet _ char_class_alphabet).
    rewrite <- re_sub_strip_unchanged. rewrite String.eqb_eq.
    split; intros E; symmetry; exact E.
  - intros v Hv. destruct v; try discriminate; reflexivity.
  - intros v Hv. destruct v; try discriminate; reflexivity.
Qed.


(** ** The checkpoint loop of the logger *)

Section CheckpointLoop.

Context {PL : PathLib}.

Variable tmp_name : nat -> string.

Lemma scan_and_log_loop (cb : ModelCheckpoint) (checkpoints : list ScannedCheckpoint) :
  forall (self : MLFlowLogger) (events : list Event) (k : nat),
  exists self',
    fold_left (scan_and_log_body tmp_name cb) checkpoints (self, events, k) =
    (self',
     events ++
     flat_map (fun ic => checkpoint_events tmp_name (_run_id self) (_tmp_dir self)
                                           cb (fst ic) (snd ic))
              (combine (seq k (length checkpoints)) checkpoints),
     k + length checkpoints) /\
    _run_id self' = _run_id self /\ _tmp_dir self' = _tmp_dir self /\
    _prefix self' = _prefix self.
Proof.
  induction checkpoints as [| c cps IH]; intros self events k.
  - exists self. simpl. rewrite app_nil_r, Nat.add_0_r. auto.
  - cbn [fold_left]. destruct c as [[[t p] s] tag].
    unfold scan_and_log_body at 2.
    destruct (IH (mkMLFlowLogger (_prefix self) (_run_id self) (_tmp_dir self)
                    (dict_set p t (_logged_model_time self)))
                 (events ++ checkpoint_events tmp_name (_run_id self)
                              (_tmp_dir self) cb k (t, p, s, tag))
                 (S k)) as (self' & E & H1 & H2 & H3).
    exists self'. rewrite E. cbn [_run_id _tmp_dir _prefix] in *.
    split; [| auto ].
    cbn [length seq combine flat_map fst snd]. rewrite <- app_assoc.
    f_equal. lia.
Qed.

Lemma scan_and_log_events (self : MLFlowLogger) (cb : ModelCheckpoint)
    (checkpoints : list ScannedCheckpoint) :
  snd (_scan_and_log_checkpoints tmp_name self cb checkpoints) =
  flat_map (fun ic => checkpoint_events tmp_name (_run_id self) (_tmp_dir self)
                                        cb (fst ic) (snd ic))
           (combine (seq 0 (length checkpoints)) checkpoints).
Proof.
  unfold _scan_and_log_checkpoints.
  destruct (scan_and_log_loop cb checkpoints self [] 0) as (self' & E & _).
  rewrite E. reflexivity.
Qed.

Lemma checkpoint_policy_present (cb : ModelCheckpoint) (p : string) (s : PyVal)
      (k : string) (v : PyVal) :
  In (k, v) (Checkpoint (checkpoint_metadata cb p s)) <->
  In k checkpoint_policy_fields /\ getattr cb k = Some v.
Proof.
  unfold checkpoint_metadata. cbn [Checkpoint]. rewrite in_flat_map. split.
  - intros (k' & Hin & Hkv). unfold hasattr in Hkv.
    destruct (getattr cb k') as [v' |] eqn:E; [| contradiction ].
    destruct Hkv as [Hkv | []]. injection Hkv as <- <-. auto.
  - intros (Hin & E). exists k. split; [ exact Hin |].
    unfold hasattr. rewrite E. left. reflexivity.
Qed.

(** C9.  For every checkpoint [(t, p, s, tag)] that the scan returned, the
    events of [_scan_and_log_checkpoints] hold: the upload of the file [p]
    under ["model/checkpoints/"] followed by the stem of [p]; a file
    [metadata.yaml] with the score (the content of the tensor when the score
    is one), the name of [p] and those of the seven checkpoint-policy
    fields that the callback has, uploaded under the same artifact path;
    and a file [aliases.txt] with the list of aliases, uploaded under the
    same artifact path, the list being [["latest", "best"]] when [p] is
    [best_model_path] of the callback and [["latest"]] when it is not. *)
Theorem checkpoints_logged (self : MLFlowLogger) (cb : ModelCheckpoint)
    (checkpoints : list ScannedCheckpoint)
    (t : PyVal) (p : string) (s : PyVal) (tag : string) :
  In (t, p, s, tag) checkpoints ->
  exists tmp_dir metadata aliases,
    In (LogArtifact (_run_id self) p ("model/checkpoints/" ++ path_stem p)%string)
       (snd (_scan_and_log_checkpoints tmp_name self cb checkpoints)) /\
    In (WriteFile (tmp_dir ++ "/metadata.yaml")%string (YamlDump metadata))
       (snd (_scan_and_log_checkpoints tmp_name self cb checkpoints)) /\
    In (LogArtifact (_run_id self) (tmp_dir ++ "/metadata.yaml")%string
                    ("model/checkpoints/" ++ path_stem p)%string)
       (snd (_scan_and_log_checkpoints tmp_name self cb checkpoints)) /\
    In (WriteFile (tmp_dir ++ "/aliases.txt")%string (Text (py_str_list aliases)))
       (snd (_scan_and_log_checkpoints tmp_name self cb checkpoints)) /\
    In (LogArtifact (_run_id self) (tmp_dir ++ "/aliases.txt")%string
                    ("model/checkpoints/" ++ path_stem p)%string)
       (snd (_scan_and_log_checkpoints tmp_name self cb checkpoints)) /\
    score metadata = match s with
                     | PyTensor m e => PyFloat m e
                     | _ => s
                     end /\
    original_filename metadata = path_name p /\
    (forall k v, In (k, v) (Checkpoint metadata) <->
                 In k checkpoint_policy_fields /\ getattr cb k = Some v) /\
    (p = best_model_path cb -> aliases = ["latest"; "best"]%string) /\
    (p <> best_model_path cb -> aliases = ["latest"]%string).
Proof.
  intros Hin. apply In_nth_error in Hin as (k & Hk).
  assert (Hpair : In (k, (t, p, s, tag))
                     (combine (seq 0 (length checkpoints)) checkpoints)).
  { apply nth_error_In with (n := k).
    rewrite nth_error_combine_seq, Hk. reflexivity. }
  assert (Hev : forall e,
             In e (checkpoint_events tmp_name (_run_id self) (_tmp_dir self)
                                     cb k (t, p, s, tag)) ->
             In e (snd (_scan_and_log_checkpoints tmp_name self cb checkpoints))).
  { intros e He. rewrite scan_and_log_events. apply in_flat_map.
    exists (k, (t, p, s, tag)). auto. }
  exists (_tmp_dir self ++ "/test" ++ tmp_name k ++ "test")%string,
         (checkpoint_metadata cb p s), (checkpoint_aliases cb p).
  repeat match goal with
         | |- In _ _ /\ _ => split; [ apply Hev; simpl; tauto |]
         end.
  split; [ destruct s; reflexivity |].
  split; [ reflexivity |].
  split; [ intros k' v; apply checkpoint_policy_present |].
  unfold checkpoint_aliases. destruct (String.eqb_spec p (best_model_path cb));
    split; intros; congruence.
Qed.

End CheckpointLoop.

Lemma example_checkpoint_listed :
  In (PyFloat 19 0, "ckpt/epoch=3-step=100.ckpt"%string, PyTensor 3 (-2), "best"%string)
     example_checkpoints.
Proof. right. left. reflexivity. Defined.

Lemma checkpoints_logged_witness :
  In (PyFloat 19 0, "ckpt/epoch=3-step=100.ckpt"%string, PyTensor 3 (-2), "best"%string)
     example_checkpoints /\
  exists tmp_dir metadata aliases,
    In (LogArtifact (Some "run"%string) "ckpt/epoch=3-step=100.ckpt"
                    "model/checkpoints/epoch=3-step=100")
       (snd (_scan_and_log_checkpoints example_tmp_name default_logger
               example_callback example_checkpoints)) /\
    In (WriteFile (tmp_dir ++ "/metadata.yaml")%string (YamlDump metadata))
       (snd (_scan_and_log_checkpoints example_tmp_name default_logger
               example_callback example_checkpoints)) /\
    score metadata = PyFloat 3 (-2) /\
    original_filename metadata = "epoch=3-step=100.ckpt"%string /\
    aliases = ["latest"; "best"]%string.
Proof.
  split; [ exact example_checkpoint_listed |].
  destruct (@checkpoints_logged posix_pathlib example_tmp_name default_logger
              example_callback example_checkpoints _ _ _ _
              example_checkpoint_listed)
    as (tmp_dir & metadata & aliases & H1 & H2 & _ & _ & _ & H6 & H7 & _ & H9 & _).
  exists tmp_dir, metadata, aliases.
  split; [ exact H1 | split; [ exact H2 | split; [ exact H6 | split; [ exact H7 |] ] ] ].
  apply H9. reflexivity.
Defined.

Example scan_and_log_checkpoints_example :
  snd (_scan_and_log_checkpoints example_tmp_name default_logger example_callback
         example_checkpoints) =
  [ LogArtifact (Some "run") "ckpt/last.ckpt" "model/checkpoints/last";
    WriteFile "/tmp/testatest/metadata.yaml"
      (YamlDump (mkMetadata PyNone "last.ckpt"
                   [("monitor", PyStr "val_loss"); ("mode", PyStr "min");
                    ("save_top_k", PyInt 2)]));
    WriteFile "/tmp/testatest/aliases.txt" (Text "['latest']");
    LogArtifact (Some "run") "/tmp/testatest/metadata.yaml" "model/checkpoints/last";
    LogArtifact (Some "run") "/tmp/testatest/aliases.txt" "model/checkpoints/last";
    Cleanup "/tmp/testatest";
    LogArtifact (Some "run") "ckpt/epoch=3-step=100.ckpt"
      "model/checkpoints/epoch=3-step=100";
    WriteFile "/tmp/testbtest/metadata.yaml"
      (YamlDump (mkMetadata (PyFloat 3 (-2)) "epoch=3-step=100.ckpt"
                   [("monitor", PyStr "val_loss"); ("mode", PyStr "min");
                    ("save_top_k", PyInt 2)]));
    WriteFile "/tmp/testbtest/aliases.txt" (Text "['latest', 'best']");
    LogArtifact (Some "run") "/tmp/testbtest/metadata.yaml"
      "model/checkpoints/epoch=3-step=100";
    LogArtifact (Some "run") "/tmp/testbtest/aliases.txt"
      "model/checkpoints/epoch=3-step=100";
    Cleanup "/tmp/testbtest" ]%string.
Proof. reflexivity. Qed.

(* ================================================================== *)
(** * Further properties of the two models *)

Lemma mapM_ext_in {A B : Type} (f g : A -> result B) (l : list A) :
  (forall x, In x l -> f x = g x) -> mapM f l = mapM g l.
Proof.
  induction l as [| x l IH]; intros E; [ reflexivity |].
  simpl. rewrite (E x (or_introl eq_refl)), IH; [ reflexivity |].
  intros y Hy. apply E. right. exact Hy.
Qed.

Lemma mapM_ok_ext {A B : Type} (f g : A -> result B) (l : list A) (r : list B) :
  mapM f l = Ok r ->
  (forall x y, In x l -> f x = Ok y -> g x = Ok y) ->
  mapM g l = Ok r.
Proof.
  revert r. induction l as [| x l IH]; intros r E Hfg; [ exact E |].
  simpl in E. apply bind_ok_inv in E as (y & Ey & E).
  apply bind_ok_inv in E as (ys & Eys & E). injection E as <-.
  simpl. rewrite (Hfg x y (or_introl eq_refl) Ey). simpl.
  rewrite (IH ys Eys); [ reflexivity |].
  intros x' y' Hin. apply Hfg. right. exact Hin.
Qed.

Section FusionInputs.

Context {A : Type} {SA : Scalar A}.

Variable op : Tensor4 A -> Tensor4 A -> result (Tensor4 A).

Lemma fuse_with_level0 (a b : Tensor4 A) (f1 f2 : list (Tensor4 A)) :
  fuse_with op (a :: f1) f2 = fuse_with op (b :: f1) f2.
Proof.
  unfold fuse_with. cbn [length].
  rewrite (@mapM_ext_in _ _ (fuse_level op (a :: f1) f2)
             (fuse_level op (b :: f1) f2));
    [ reflexivity |].
  intros i Hi. unfold py_range in Hi. apply in_seq in Hi.
  destruct i as [| i]; [ lia | reflexivity ].
Qed.

Lemma fuse_with_no_levels (a : Tensor4 A) (f2 : list (Tensor4 A)) :
  fuse_with op [] f2 = fuse_with op [a] f2.
Proof. reflexivity. Qed.

Lemma fuse_with_longer (f1 f2 extra out : list (Tensor4 A)) :
  fuse_with op f1 f2 = Ok out -> fuse_with op f1 (f2 ++ extra) = Ok out.
Proof.
  unfold fuse_with. intros E.
  apply bind_ok_inv in E as (r & Er & E).
  apply bind_ok_inv in E as (t & Et & E). injection E as <-.
  rewrite (@mapM_ok_ext _ _ (fuse_level op f1 f2) (fuse_level op f1 (f2 ++ extra))
             _ r Er).
  - simpl. apply py_index_ok in Et.
    assert (Et' : py_index (f2 ++ extra) 0 = Ok t).
    { apply py_index_ok. rewrite nth_error_app1; [ exact Et |].
      apply nth_error_Some. congruence. }
    rewrite Et'. reflexivity.
  - intros i o _ Ho. apply fuse_level_ok in Ho as (t0 & t1 & E0 & E1 & Eop).
    apply fuse_level_ok. exists t0, t1. split; [ exact E0 | split; [| exact Eop ] ].
    rewrite nth_error_app1; [ exact E1 |]. apply nth_error_Some. congruence.
Qed.

End FusionInputs.

Section ModelEdges.

Context {A : Type} {SA : Scalar A}.

(** X1.  Level 0 of the T0 pyramid is never read: the fused pyramid of
    either variant, or its exception, stays the same when that level is
    replaced by any other map, and a T0 pyramid without levels is fused like
    one with a single level. *)
Theorem fusion_never_reads_T0_level0 (a b : Tensor4 A) (f1 f2 : list (Tensor4 A)) :
  FCSiamConc_fuse (a :: f1) f2 = FCSiamConc_fuse (b :: f1) f2 /\
  FCSiamDiff_fuse (a :: f1) f2 = FCSiamDiff_fuse (b :: f1) f2 /\
  FCSiamConc_fuse [] f2 = FCSiamConc_fuse [a] f2 /\
  FCSiamDiff_fuse [] f2 = FCSiamDiff_fuse [a] f2.
Proof.
  rewrite !FCSiamConc_fuse_loop, !FCSiamDiff_fuse_loop.
  split; [ apply fuse_with_level0 | split; [ apply fuse_with_level0 |] ].
  split; reflexivity.
Qed.

(** X2.  The levels of the T1 pyramid beyond those of a fusion that ended
    without an exception are not read: with more levels appended to the T1
    pyramid the fused pyramid of either variant is the same. *)
Theorem fusion_ignores_extra_T1_levels (f1 f2 extra : list (Tensor4 A)) :
  (forall out, FCSiamConc_fuse f1 f2 = Ok out ->
               FCSiamConc_fuse f1 (f2 ++ extra) = Ok out) /\
  (forall out, FCSiamDiff_fuse f1 f2 = Ok out ->
               FCSiamDiff_fuse f1 (f2 ++ extra) = Ok out).
Proof.
  split; intros out; rewrite ?FCSiamConc_fuse_loop, ?FCSiamDiff_fuse_loop;
    apply fuse_with_longer.
Qed.

(** X3.  On a batch with fewer than two time steps the forward pass of either
    variant raises [IndexError] at the slicing, whatever the model is. *)
Theorem forward_needs_two_time_steps (self : SiamModel A) (x : Tensor5 A) :
  dimT5 x < 2 ->
  FCSiamConc_forward self x = Raise IndexError /\
  FCSiamDiff_forward self x = Raise IndexError.
Proof.
  intros HT. unfold FCSiamConc_forward, FCSiamDiff_forward, select_time.
  destruct (Nat.ltb_spec 1 (dimT5 x)) as [L | L]; [ lia |].
  destruct (Nat.ltb_spec 0 (dimT5 x)); split; reflexivity.
Qed.

(** X4.  [FCSiamConc.__init__] raises [IndexError] when the encoder lists no
    output channels (at [out_channels[0]], before a decoder is made), and
    when an empty [decoder_channels] is given and the decoder was made (at
    [decoder_channels[-1]]). *)
Theorem conc_init_index_errors (smp : Smp A) (args : InitArgs A) (enc : Encoder A) :
  get_encoder smp (encoder_name args) (in_channels args) (encoder_depth args)
              (encoder_weights args) (dropout args) = Ok enc ->
  (out_channels enc = [] -> FCSiamConc_init smp args = Raise IndexError) /\
  (forall dec,
      out_channels enc <> [] ->
      decoder_channels args = Some [] ->
      UnetDecoder smp
        (firstn 1 (out_channels enc) ++
         map (fun c => c * 2) (skipn 1 (out_channels enc)))
        [] (encoder_depth args) (decoder_use_batchnorm args)
        (startswith (encoder_name args) "vgg") (decoder_attention_type args)
      = Ok dec ->
      FCSiamConc_init smp args = Raise IndexError).
Proof.
  intros Eenc. split.
  - intros Hoc. unfold FCSiamConc_init. rewrite Eenc. cbn [bind].
    rewrite Hoc. reflexivity.
  - intros dec Hne Hdc Edec. unfold FCSiamConc_init. rewrite Eenc. cbn [bind].
    rewrite (conc_encoder_out_channels_ok Hne). cbn [bind].
    rewrite Hdc. cbn [decoder_channels_or_default].
    replace (if startswith (encoder_name args) "vgg" then true else false)
      with (startswith (encoder_name args) "vgg")
      by (destruct (startswith (encoder_name args) "vgg"); reflexivity).
    rewrite Edec. reflexivity.
Qed.

(** X5.  When the two time slices of the batch are one tensor and the encoder
    returns for it a pyramid with a level 0, the forward pass of [FCSiamConc]
    fuses the pyramid with itself: every fused level [i >= 1] has twice the
    channels of the encoder's level and holds that level twice, once in each
    half of its channels. *)
Theorem conc_fusion_equal_slices (self : SiamModel A) (x : Tensor5 A)
    (s : Tensor4 A) (fs : list (Tensor4 A)) :
  select_time x 0 = Ok s -> select_time x 1 = Ok s ->
  encoder_call (encoder self) s = Ok fs -> fs <> [] ->
  exists fused,
    FCSiamConc_fuse fs fs = Ok fused /\
    FCSiamConc_forward self x =
      (decoder_output <- decoder self fused ;;
       segmentation_head self decoder_output) /\
    length fused = length fs /\
    nth_error fused 0 = nth_error fs 0 /\
    forall i f, 1 <= i -> nth_error fs i = Some f ->
      exists o, nth_error fused i = Some o /\
        shape o = (dimN f, dimC f + dimC f, dimH f, dimW f) /\
        forall n c h w, n < dimN f -> c < dimC f -> h < dimH f -> w < dimW f ->
          get4 o n c h w = get4 f n c h w /\
          get4 o n (dimC f + c) h w = get4 f n c h w.
Proof.
  intros S0 S1 Eenc Hne.
  assert (R : returns (fuse_with torch_cat_dim1 fs fs)).
  { apply fuse_with_returns. split; [ exact Hne | split; [ lia |] ].
    intros i t0 t1 _ E0 E1. apply torch_cat_dim1_returns.
    assert (t0 = t1) by congruence. subst. repeat split. }
  destruct R as (fused & E). exists fused.
  destruct (fuse_with_ok _ _ _ E) as (Hlen & (t & Ht & Hf0) & Hlev).
  assert (Hpos : 0 < length fs) by (destruct fs; [ congruence | simpl; lia ]).
  split; [ exact E | split; [| split; [ lia | split; [ congruence |] ] ] ].
  - unfold FCSiamConc_forward. rewrite S0, S1. cbn [bind].
    rewrite Eenc. cbn [bind]. rewrite FCSiamConc_fuse_loop, E. reflexivity.
  - intros i f Hi Ef.
    assert (Hlt : i < length fs) by (apply nth_error_Some; congruence).
    destruct (Hlev i Hi Hlt) as (t0 & t1 & o & E0 & E1 & Eop & Eo).
    assert (t0 = f) by congruence. assert (t1 = f) by congruence. subst.
    exists o. destruct (torch_cat_dim1_ok _ _ Eop) as (Hs & Hg).
    split; [ exact Eo | split; [ exact Hs |] ].
    intros n c h w Hn Hc Hh Hw. split.
    + rewrite Hg by lia. destruct (Nat.ltb_spec c (dimC f)); [ reflexivity | lia ].
    + rewrite Hg by lia. destruct (Nat.ltb_spec (dimC f + c) (dimC f)); [ lia |].
      f_equal. lia.
Qed.

End ModelEdges.

Lemma fusion_ignores_extra_T1_levels_witness :
  FCSiamConc_fuse pyramid_T0 pyramid_T1 =
    Ok [map_b; mkTensor4 1 4 1 2 [10; 20; 30; 40; 1; 2; 3; 4]%Z] /\
  FCSiamConc_fuse pyramid_T0 (pyramid_T1 ++ [map_e]) =
    Ok [map_b; mkTensor4 1 4 1 2 [10; 20; 30; 40; 1; 2; 3; 4]%Z] /\
  FCSiamDiff_fuse pyramid_T0 (pyramid_T1 ++ [map_e]) =
    Ok [map_b; mkTensor4 1 2 1 2 [9; 18; 27; 36]%Z].
Proof.
  split; [ reflexivity | split ].
  - exact (proj1 (@fusion_ignores_extra_T1_levels Z _ pyramid_T0 pyramid_T1 [map_e])
                 _ eq_refl).
  - exact (proj2 (@fusion_ignores_extra_T1_levels Z _ pyramid_T0 pyramid_T1 [map_e])
                 _ eq_refl).
Defined.

Lemma batch_one_step_short : dimT5 batch_one_step < 2.
Proof. apply Nat.lt_succ_diag_r. Defined.

Lemma forward_needs_two_time_steps_witness :
  dimT5 batch_one_step < 2 /\
  FCSiamConc_forward echo_model batch_one_step = Raise IndexError /\
  FCSiamDiff_forward echo_model batch_one_step = Raise IndexError.
Proof.
  split; [ exact batch_one_step_short |].
  exact (@forward_needs_two_time_steps Z _ echo_model batch_one_step
           batch_one_step_short).
Defined.

Lemma conc_init_index_errors_witness :
  get_encoder bare_smp (encoder_name scenario_args) (in_channels scenario_args)
    (encoder_depth scenario_args) (encoder_weights scenario_args)
    (dropout scenario_args) = Ok (shape_encoder []) /\
  FCSiamConc_init bare_smp scenario_args = Raise IndexError.
Proof.
  split; [ reflexivity |].
  exact (proj1 (@conc_init_index_errors Z bare_smp scenario_args
                  (shape_encoder []) eq_refl) eq_refl).
Defined.

Lemma conc_fusion_equal_slices_witness :
  (select_time batch_equal_slices 0 = Ok (mkTensor4 1 1 1 2 [4; 9]%Z) /\
   select_time batch_equal_slices 1 = Ok (mkTensor4 1 1 1 2 [4; 9]%Z)) /\
  exists fused,
    FCSiamConc_fuse [mkTensor4 1 1 1 2 [4; 9]%Z; mkTensor4 1 1 1 2 [4; 9]%Z]
                    [mkTensor4 1 1 1 2 [4; 9]%Z; mkTensor4 1 1 1 2 [4; 9]%Z]
      = Ok fused /\
    exists o, nth_error fused 1 = Some o /\ shape o = (1, 2, 1, 2) /\
              get4 o 0 0 0 1 = 9%Z /\ get4 o 0 1 0 1 = 9%Z.
Proof.
  split; [ split; reflexivity |].
  destruct (@conc_fusion_equal_slices Z _ echo_model batch_equal_slices
              (mkTensor4 1 1 1 2 [4; 9]%Z)
              [mkTensor4 1 1 1 2 [4; 9]%Z; mkTensor4 1 1 1 2 [4; 9]%Z]
              eq_refl eq_refl eq_refl echo_model_nonempty)
    as (fused & E & _ & _ & _ & Hlev).
  exists fused. split; [ exact E |].
  destruct (Hlev 1 (mkTensor4 1 1 1 2 [4; 9]%Z) (le_n 1) eq_refl)
    as (o & Eo & Hs & Hg).
  exists o. split; [ exact Eo | split; [ exact Hs |] ].
  destruct (Hg 0 0 0 1 (le_n 1) (le_n 1) (le_n 1) (le_n 2)) as (G1 & G2).
  split; [ exact G1 | exact G2 ].
Defined.

(* ================================================================== *)
(** * Further properties of the logger *)

(** ** Metric names *)

Lemma re_sub_strip_app (a b : string) :
  re_sub_strip (a ++ b) = (re_sub_strip a ++ re_sub_strip b)%string.
Proof.
  induction a as [| c a IH]; simpl; [ reflexivity |].
  destruct (char_class c); simpl; now rewrite IH.
Qed.

Lemma re_sub_strip_char_class (k : string) :
  forallb char_class (list_ascii_of_string (re_sub_strip k)) = true.
Proof.
  induction k as [| c k IH]; simpl; [ reflexivity |].
  destruct (char_class c) eqn:E; simpl; [ rewrite E |]; exact IH.
Qed.

Lemma re_sub_strip_idempotent (k : string) :
  re_sub_strip (re_sub_strip k) = re_sub_strip k.
Proof.
  symmetry. apply String.eqb_eq.
  rewrite re_sub_strip_unchanged. apply re_sub_strip_char_class.
Qed.

Lemma filter_map_comm {B C : Type} (p : C -> bool) (f : B -> C) (l : list B) :
  filter p (map f l) = map f (filter (fun x => p (f x)) l).
Proof.
  induction l as [| x l IH]; simpl; [ reflexivity |].
  destruct (p (f x)); simpl; now rewrite IH.
Qed.

(** X6.  With a non-empty prefix the key of every logged metric is the prefix
    and the name, each stripped of the characters outside the class, joined
    by ["-"]: the prefix is cleaned like the name and the join character is
    kept. *)
Theorem prefixed_metric_keys (self : MLFlowLogger) (run_id : option string)
    (timestamp_ms : Z) (metrics : list (string * PyVal)) (step : option Z) :
  _prefix self <> EmptyString ->
  map key (logged_batch (log_metrics self run_id timestamp_ms metrics step)) =
  map (fun kv => (re_sub_strip (_prefix self) ++ "-" ++ re_sub_strip (fst kv))%string)
      (filter (fun kv => negb (isinstance_str (snd kv))) metrics).
Proof.
  intros Hp. rewrite logged_batch_log_metrics, entry_metrics_numeric, map_map.
  unfold _add_prefix. destruct (_prefix self) as [| c pre] eqn:E; [ congruence |].
  rewrite filter_map_comm, map_map. apply map_ext. intros kv.
  cbn [fst snd key]. unfold LOGGER_JOIN_CHAR.
  rewrite !re_sub_strip_app. reflexivity.
Qed.

Lemma relog_no_warning (batch : list Metric) :
  Forall (fun m => forallb char_class (list_ascii_of_string (key m)) = true) batch ->
  Forall (fun m => isinstance_str (value m) = false) batch ->
  flat_map (fun kv =>
              if forallb char_class (list_ascii_of_string (fst kv)) then []
              else [replacing_message (fst kv) (re_sub_strip (fst kv))])
           (filter (fun kv => negb (isinstance_str (snd kv))) (batch_entries batch))
  = [] /\
  map (fun kv => re_sub_strip (fst kv))
      (filter (fun kv => negb (isinstance_str (snd kv))) (batch_entries batch))
  = map key batch.
Proof.
  induction batch as [| m batch IH]; intros Hvalid Hnum; [ split; reflexivity |].
  inversion Hvalid as [| ? ? Hm Hb]; subst.
  inversion Hnum as [| ? ? Hv Hn]; subst.
  destruct (IH Hb Hn) as (IH1 & IH2).
  unfold batch_entries in *. simpl. rewrite Hv. simpl. rewrite Hm, IH1, IH2.
  split; [ reflexivity |]. f_equal.
  symmetry. apply String.eqb_eq. rewrite re_sub_strip_unchanged. exact Hm.
Qed.

(** X7.  Every key of a logged batch holds only characters of the class, and
    stripping is idempotent: when the metrics of a logged batch are logged
    again by a logger without prefix, [rank_zero_warn] is not called and the
    keys are the same. *)
Theorem logged_keys_are_stable (self : MLFlowLogger) (run_id : option string)
    (timestamp_ms : Z) (metrics : list (string * PyVal)) (step : option Z) :
  Forall (fun m => forallb char_class (list_ascii_of_string (key m)) = true)
         (logged_batch (log_metrics self run_id timestamp_ms metrics step)) /\
  (forall k, re_sub_strip (re_sub_strip k) = re_sub_strip k) /\
  forall self' run_id' timestamp_ms' step',
    _prefix self' = EmptyString ->
    rank_zero_warnings
      (log_metrics self' run_id' timestamp_ms'
         (batch_entries (logged_batch
            (log_metrics self run_id timestamp_ms metrics step))) step') = [] /\
    map key (logged_batch
      (log_metrics self' run_id' timestamp_ms'
         (batch_entries (logged_batch
            (log_metrics self run_id timestamp_ms metrics step))) step')) =
    map key (logged_batch (log_metrics self run_id timestamp_ms metrics step)).
Proof.
  assert (Hvalid : Forall (fun m => forallb char_class (list_ascii_of_string (key m)) = true)
                     (logged_batch (log_metrics self run_id timestamp_ms metrics step))).
  { rewrite logged_batch_log_metrics, entry_metrics_numeric.
    apply Forall_forall. intros m Hm. apply in_map_iff in Hm as (kv & <- & _).
    apply re_sub_strip_char_class. }
  assert (Hnum : Forall (fun m => isinstance_str (value m) = false)
                   (logged_batch (log_metrics self run_id timestamp_ms metrics step))).
  { rewrite logged_batch_log_metrics, entry_metrics_numeric.
    apply Forall_forall. intros m Hm. apply in_map_iff in Hm as (kv & <- & Hkv).
    apply filter_In in Hkv as (_ & Hkv). simpl. now apply negb_true_iff in Hkv. }
  split; [ exact Hvalid | split; [ exact re_sub_strip_idempotent |] ].
  intros self' run_id' timestamp_ms' step' Hp.
  remember (logged_batch (log_metrics self run_id timestamp_ms metrics step))
    as batch eqn:Hbatch.
  clear Hbatch.
  destruct (relog_no_warning Hvalid Hnum) as (R1 & R2).
  rewrite rank_zero_warnings_log_metrics, logged_batch_log_metrics,
    entry_metrics_numeric, map_map.
  unfold numeric_entries, _add_prefix. rewrite Hp.
  split; [ exact R1 | exact R2 ].
Qed.

(** X8.  Every entry of the mapping gives either one metric of the batch or
    one discarding warning, never both and never none; all metrics of a batch
    carry the one timestamp of the call and the step, which is 0 when no step
    is given. *)
Theorem metrics_batch_accounting (self : MLFlowLogger) (run_id : option string)
    (timestamp_ms : Z) (metrics : list (string * PyVal)) (at_step : option Z) :
  length (logged_batch (log_metrics self run_id timestamp_ms metrics at_step)) +
  length (log_warnings (log_metrics self run_id timestamp_ms metrics at_step)) =
    length metrics /\
  Forall (fun m => timestamp m = timestamp_ms /\
                   step m = match at_step with Some s => s | None => 0%Z end)
         (logged_batch (log_metrics self run_id timestamp_ms metrics at_step)) /\
  log_metrics self run_id timestamp_ms metrics None =
  log_metrics self run_id timestamp_ms metrics (Some 0%Z).
Proof.
  split; [| split ].
  - rewrite logged_batch_log_metrics, log_warnings_log_metrics.
    assert (L : length (_add_prefix metrics (_prefix self) LOGGER_JOIN_CHAR) =
                length metrics).
    { unfold _add_prefix. destruct (_prefix self); [ reflexivity | apply length_map ]. }
    rewrite <- L. clear L.
    induction (_add_prefix metrics (_prefix self) LOGGER_JOIN_CHAR)
      as [| (k, v) l IH]; [ reflexivity |].
    cbn [flat_map]. rewrite !length_app.
    destruct v; simpl in *; lia.
  - rewrite logged_batch_log_metrics, entry_metrics_numeric.
    apply Forall_forall. intros m Hm. apply in_map_iff in Hm as (kv & <- & _).
    split; reflexivity.
  - rewrite !log_metrics_events. reflexivity.
Qed.

Lemma prefixed_logger_has_prefix : _prefix prefixed_logger <> EmptyString.
Proof. discriminate. Defined.

Lemma prefixed_metric_keys_witness :
  _prefix prefixed_logger <> EmptyString /\
  map key (logged_batch
    (log_metrics prefixed_logger (Some "run"%string) 5
       [("loss@val"%string, PyFloat 1 0); ("tag"%string, PyStr "foo")] None)) =
  ["exp1-lossval"%string].
Proof.
  split; [ exact prefixed_logger_has_prefix |].
  exact (prefixed_metric_keys prefixed_logger (Some "run"%string) 5
           [("loss@val"%string, PyFloat 1 0); ("tag"%string, PyStr "foo")] None
           prefixed_logger_has_prefix).
Defined.

(** ** The dictionary of logged checkpoints *)

Lemma dict_get_set_same {V : Type} (k : string) (v : V) (d : list (string * V)) :
  dict_get k (dict_set k v d) = Some v.
Proof.
  induction d as [| (k', v') d IH]; simpl.
  - now rewrite String.eqb_refl.
  - destruct (String.eqb k k') eqn:E; simpl.
    + now rewrite String.eqb_refl.
    + rewrite E. exact IH.
Qed.

Lemma dict_get_set_other {V : Type} (k k' : string) (v : V) (d : list (string * V)) :
  k <> k' -> dict_get k' (dict_set k v d) = dict_get k' d.
Proof.
  intros Hne. induction d as [| (k0, v0) d IH]; simpl.
  - destruct (String.eqb_spec k' k); [ congruence | reflexivity ].
  - destruct (String.eqb_spec k k0) as [-> | Hk]; simpl.
    + destruct (String.eqb_spec k' k0); [ congruence | reflexivity ].
    + destruct (String.eqb_spec k' k0); [ reflexivity | exact IH ].
Qed.

Lemma dict_set_all_absent (cps : list ScannedCheckpoint) (d : list (string * PyVal))
      (p : string) :
  ~ In p (map checkpoint_path cps) ->
  dict_get p (fold_left (fun d c => dict_set (checkpoint_path c) (checkpoint_time c) d)
                        cps d) = dict_get p d.
Proof.
  revert d. induction cps as [| c cps IH]; intros d Hn; [ reflexivity |].
  simpl in *. rewrite IH by tauto.
  apply dict_get_set_other. intros E. apply Hn. left. exact E.
Qed.

Lemma prefix_append (a b : string) : String.prefix a (a ++ b) = true.
Proof.
  induction a as [| c a IH]; simpl.
  - destruct b; reflexivity.
  - destruct (Ascii.ascii_dec c c); [ exact IH | congruence ].
Qed.

Section CheckpointState.

Context {PL : PathLib}.

Variable tmp_name : nat -> string.

Lemma scan_and_log_times (cb : ModelCheckpoint) (checkpoints : list ScannedCheckpoint) :
  forall (self : MLFlowLogger) (events : list Event) (k : nat),
    _logged_model_time
      (fst (fst (fold_left (scan_and_log_body tmp_name cb) checkpoints
                           (self, events, k)))) =
    fold_left (fun d c => dict_set (checkpoint_path c) (checkpoint_time c) d)
              checkpoints (_logged_model_time self).
Proof.
  induction checkpoints as [| c cps IH]; intros self events k; [ reflexivity |].
  cbn [fold_left]. destruct c as [[[t p] s] tag].
  unfold scan_and_log_body at 2. rewrite IH. reflexivity.
Qed.

Lemma scan_and_log_state (self : MLFlowLogger) (cb : ModelCheckpoint)
    (checkpoints : list ScannedCheckpoint) :
  _logged_model_time (fst (_scan_and_log_checkpoints tmp_name self cb checkpoints)) =
    fold_left (fun d c => dict_set (checkpoint_path c) (checkpoint_time c) d)
              checkpoints (_logged_model_time self) /\
  _prefix (fst (_scan_and_log_checkpoints tmp_name self cb checkpoints)) = _prefix self /\
  _run_id (fst (_scan_and_log_checkpoints tmp_name self cb checkpoints)) = _run_id self /\
  _tmp_dir (fst (_scan_and_log_checkpoints tmp_name self cb checkpoints)) = _tmp_dir self.
Proof.
  unfold _scan_and_log_checkpoints.
  pose proof (scan_and_log_times cb checkpoints self [] 0) as T.
  destruct (scan_and_log_loop tmp_name cb checkpoints self [] 0)
    as (self' & E & H1 & H2 & H3).
  rewrite E in *. cbn [fst] in *. auto.
Qed.

(** The dictionary [_logged_model_time] after the loop. *)
Lemma scan_loop_times_lookup (self : MLFlowLogger) (cb : ModelCheckpoint)
    (checkpoints : list ScannedCheckpoint) :
  (forall before c after,
      checkpoints = before ++ c :: after ->
      ~ In (checkpoint_path c) (map checkpoint_path after) ->
      dict_get (checkpoint_path c)
        (_logged_model_time
           (fst (_scan_and_log_checkpoints tmp_name self cb checkpoints))) =
      Some (checkpoint_time c)) /\
  (forall p,
      ~ In p (map checkpoint_path checkpoints) ->
      dict_get p
        (_logged_model_time
           (fst (_scan_and_log_checkpoints tmp_name self cb checkpoints))) =
      dict_get p (_logged_model_time self)).
Proof.
  destruct (scan_and_log_state self cb checkpoints) as (T & _).
  split.
  - intros before c after -> Hlast. rewrite T, fold_left_app. cbn [fold_left].
    rewrite dict_set_all_absent by exact Hlast. apply dict_get_set_same.
  - intros p Hp. rewrite T. apply dict_set_all_absent, Hp.
Qed.


End CheckpointState.

(** ** The experiment and the run *)

Section ExperimentFacts.

Variable client : MlflowClient.
Variable resolve_tags : Tags -> Tags.

Lemma experiment_initialized (self : LoggerState) :
  _initialized self = true ->
  experiment client resolve_tags self = Done (tt, self, []).
Proof.
  intros H. unfold experiment, bindM, read. rewrite H. reflexivity.
Qed.

Lemma run_id_initialized (self : LoggerState) :
  _initialized self = true ->
  run_id client resolve_tags self = Done (_run_id (core self), self, []).
Proof.
  intros H. unfold run_id, bindM. rewrite (experiment_initialized self H).
  reflexivity.
Qed.

Ltac open_logger self :=
  destruct self as [[pre rid tmp times] ename eid uri rname tg lm cb loc ini];
  cbn [core _experiment_name _experiment_id _tracking_uri _run_name tags
       _log_model _checkpoint_callback _artifact_location _initialized
       _prefix _run_id _tmp_dir _logged_model_time] in *.

Ltac run_method :=
  unfold experiment, bindM, read, write, act, ret, raise;
  cbn [core _experiment_name _experiment_id _tracking_uri _run_name tags
       _log_model _checkpoint_callback _artifact_location _initialized
       _prefix _run_id _tmp_dir _logged_model_time
       set_core set_run_id set_experiment_id set_tags set_initialized
       set_checkpoint_callback app].

Ltac crunch := cbn -[String.append MLFLOW_RUN_NAME].

Ltac crunch_in H := cbn -[String.append MLFLOW_RUN_NAME] in H.

Ltac split_cases :=
  crunch;
  repeat match goal with
         | |- context [get_experiment_by_name client ?n] =>
             destruct (get_experiment_by_name client n) eqn:?; crunch
         | |- context [dict_has ?k ?d] =>
             destruct (dict_has k d) eqn:?; crunch
         end.

Lemma experiment_sets_initialized (self self1 : LoggerState) (a : list Action) :
  experiment client resolve_tags self = Done (tt, self1, a) ->
  _initialized self1 = true.
Proof.
  open_logger self. destruct ini.
  - rewrite experiment_initialized by reflexivity. intros E. now injection E as <- _.
  - run_method. destruct rid as [r |].
    + destruct (get_run client (Some r)); cbn; [| discriminate ].
      intros E. now injection E as <- _.
    + destruct eid; destruct rname; split_cases;
        intros E; now injection E as <- _.
Qed.

(** X11.  The experiment is set up once: after an access to the property
    [experiment] that ended without an exception the logger is initialised,
    and every later access to [experiment] or to [run_id] calls nothing and
    changes nothing. *)
Theorem experiment_set_up_once (self self1 : LoggerState) (a : list Action) :
  experiment client resolve_tags self = Done (tt, self1, a) ->
  _initialized self1 = true /\
  experiment client resolve_tags self1 = Done (tt, self1, []) /\
  run_id client resolve_tags self1 = Done (_run_id (core self1), self1, []).
Proof.
  intros E. pose proof (experiment_sets_initialized self E) as I.
  split; [ exact I | split ].
  - apply experiment_initialized, I.
  - apply run_id_initialized, I.
Qed.

(** X12.  With a run identifier given to the logger, the first access to
    [experiment] only asks the client for this run: it takes the experiment
    identifier from the run, creates neither an experiment nor a run, and
    leaves the tags as they are, whatever the run name is; when the client
    returns no run the access raises [AttributeError]. *)
Theorem experiment_resumes_run (self : LoggerState) (r : string) :
  _initialized self = false ->
  _run_id (core self) = Some r ->
  (forall e, get_run client (Some r) = Some e ->
     experiment client resolve_tags self =
     Done (tt, set_initialized true (set_experiment_id (Some e) self),
           [GetRun (Some r)])) /\
  (get_run client (Some r) = None ->
     experiment client resolve_tags self = Fails AttributeError).
Proof.
  intros Hi Hr. open_logger self. subst. run_method.
  split; [ intros e E | intros E ]; rewrite E; reflexivity.
Qed.

(** X13.  Without a run identifier, the first access to [experiment] never
    raises: it ends initialised, with the run identifier that the client
    returned for a new run in the experiment of the logger and with the
    resolved tags; the creation of the run is its last action.  An experiment
    is created exactly when the logger has no experiment identifier and the
    client finds no experiment of its name, and then a warning is logged; the
    prefix, the temporary directory and the logged checkpoints are kept. *)
Theorem experiment_creates_run (self : LoggerState) :
  _initialized self = false ->
  _run_id (core self) = None ->
  exists self1 before,
    experiment client resolve_tags self =
      Done (tt, self1,
            before ++ [Print "Resolved tags" (resolve_tags (tags self1));
                       CreateRun (_experiment_id self1) (resolve_tags (tags self1))]) /\
    _initialized self1 = true /\
    _run_id (core self1) =
      Some (create_run client (_experiment_id self1) (resolve_tags (tags self1))) /\
    _experiment_id self1 =
      match _experiment_id self with
      | Some e => Some e
      | None =>
          match get_experiment_by_name client (_experiment_name self) with
          | Some e => Some e
          | None => Some (create_experiment client (_experiment_name self)
                                            (_artifact_location self))
          end
      end /\
    (forall n l,
        In (CreateExperiment n l) before <->
        _experiment_id self = None /\
        get_experiment_by_name client (_experiment_name self) = None /\
        n = _experiment_name self /\ l = _artifact_location self) /\
    (forall e t, ~ In (CreateRun e t) before) /\
    (forall x, ~ In (GetRun x) before) /\
    _prefix (core self1) = _prefix (core self) /\
    _tmp_dir (core self1) = _tmp_dir (core self) /\
    _logged_model_time (core self1) = _logged_model_time (core self).
Proof.
  intros Hi Hr. open_logger self. subst. run_method.
  destruct eid as [e |]; destruct rname as [rn |]; split_cases;
    eexists; eexists;
    (split;
     [ match goal with
       | |- Done (_, ?S, ?L) = Done (_, ?s1, ?b ++ _) =>
           unify s1 S;
           let b' := eval cbn -[String.append MLFLOW_RUN_NAME]
                       in (firstn (length L - 2) L) in
           unify b b'
       end; reflexivity |]);
    crunch;
    (split; [ reflexivity |]); (split; [ reflexivity |]); (split; [ reflexivity |]);
    (split;
     [ intros n l; split;
       [ intros H; crunch_in H;
         repeat (destruct H as [H | H]; try discriminate H);
         try contradiction;
         injection H as <- <-; repeat split; first [ assumption | reflexivity ]
       | intros (H1 & H2 & H3 & H4); subst;
         try discriminate; try congruence; crunch; tauto ] |]);
    (split; [ intros e' t' H; crunch_in H; intuition discriminate |]);
    (split; [ intros x H; crunch_in H; intuition discriminate |]);
    repeat split; reflexivity.
Qed.

End ExperimentFacts.

(** ** Tags, parameters and the end of a run *)

Lemma substring_0_length (n : nat) (s : string) :
  String.length (String.substring 0 n s) = Nat.min n (String.length s).
Proof.
  revert s. induction n as [| n IH]; intros s; destruct s as [| c s]; simpl;
    try reflexivity.
  now rewrite IH.
Qed.

Lemma substring_0_prefix (n : nat) (s : string) :
  String.prefix (String.substring 0 n s) s = true.
Proof.
  revert s. induction n as [| n IH]; intros s; destruct s as [| c s]; simpl;
    try reflexivity.
  destruct (Ascii.ascii_dec c c); [ apply IH | congruence ].
Qed.

Lemma substring_0_short (n : nat) (s : string) :
  String.length s <= n -> String.substring 0 n s = s.
Proof.
  revert s. induction n as [| n IH]; intros s Hs; destruct s as [| c s]; simpl in *;
    try reflexivity; try lia.
  f_equal. apply IH. lia.
Qed.

Lemma firstn_add_skipn {X : Type} (a b : nat) (l : list X) :
  firstn (a + b) l = firstn a l ++ firstn b (skipn a l).
Proof.
  revert l. induction a as [| a IH]; intros l; [ reflexivity |].
  destruct l as [| x l]; simpl.
  - now rewrite firstn_nil.
  - now rewrite IH.
Qed.

(** The slices of a list at the multiples of [c]. *)
Lemma slices_concat {X : Type} (c : nat) (l : list X) (k : nat) :
  concat (map (fun j => firstn c (skipn (j * c) l)) (seq 0 k)) = firstn (k * c) l.
Proof.
  induction k as [| k IH]; [ reflexivity |].
  rewrite seq_S, map_app, concat_app, IH. simpl.
  rewrite app_nil_r. replace (c + k * c) with (k * c + c) by lia.
  symmetry. apply firstn_add_skipn.
Qed.

Lemma range_step_100 (n : nat) :
  py_range_step 0 n 100 = map (fun j => j * 100) (seq 0 ((n + 99) / 100)).
Proof.
  unfold py_range_step. replace (n - 0 + 100 - 1) with (n + 99) by lia.
  reflexivity.
Qed.

Lemma batch_count_bounds (n : nat) :
  n <= (n + 99) / 100 * 100 /\ ((n + 99) / 100 - 1) * 100 < n + 100 /\
  (0 < n -> ((n + 99) / 100 - 1) * 100 < n).
Proof.
  pose proof (Nat.div_mod (n + 99) 100 ltac:(discriminate)) as D.
  pose proof (Nat.mod_upper_bound (n + 99) 100 ltac:(discriminate)) as U.
  repeat split; try intros ?; lia.
Qed.

Lemma slices_of_params {X : Type} (l : list X) :
  concat (map (fun idx => py_slice l idx (idx + 100))
              (py_range_step 0 (length l) 100)) = l /\
  Forall (fun b => 1 <= length b <= 100)
         (map (fun idx => py_slice l idx (idx + 100))
              (py_range_step 0 (length l) 100)) /\
  forall i, S i < (length l + 99) / 100 ->
            length (nth i (map (fun idx => py_slice l idx (idx + 100))
                               (py_range_step 0 (length l) 100)) []) = 100.
Proof.
  rewrite range_step_100, map_map.
  assert (E : forall j, py_slice l (j * 100) (j * 100 + 100) =
                        firstn 100 (skipn (j * 100) l)).
  { intros j. unfold py_slice. f_equal. lia. }
  rewrite (map_ext _ _ E).
  destruct (batch_count_bounds (length l)) as (B1 & B2 & B3).
  split; [| split ].
  - rewrite slices_concat. apply firstn_all2. exact B1.
  - apply Forall_forall. intros b Hb. apply in_map_iff in Hb as (j & <- & Hj).
    apply in_seq in Hj. rewrite length_firstn, length_skipn.
    assert (0 < length l) by (destruct (length l); [ simpl in Hj; lia | lia ]).
    assert (j * 100 < length l) by nia.
    lia.
  - intros i Hi.
    rewrite nth_indep with (d' := firstn 100 (skipn (0 * 100) l))
      by (rewrite length_map, length_seq; lia).
    rewrite (map_nth (fun j => firstn 100 (skipn (j * 100) l))).
    rewrite seq_nth by lia. simpl Nat.add.
    rewrite length_firstn, length_skipn. nia.
Qed.

Section LoggerFacts.

Context {PL : PathLib}.

Variable client : MlflowClient.
Variable resolve_tags : Tags -> Tags.
Variable py_str : PyVal -> string.
Variable _scan_checkpoints :
  ModelCheckpoint -> list (string * PyVal) -> list ScannedCheckpoint.
Variable tmp_name : nat -> string.

Ltac open_state self :=
  destruct self as [[pre rid tmp times] ename eid uri rname tg lm cb loc ini];
  cbn [core _experiment_name _experiment_id _tracking_uri _run_name tags
       _log_model _checkpoint_callback _artifact_location _initialized
       _prefix _run_id _tmp_dir _logged_model_time] in *.

Ltac unfold_method :=
  unfold experiment, bindM, read, write, act, ret, raise;
  cbn [core _experiment_name _experiment_id _tracking_uri _run_name tags
       _log_model _checkpoint_callback _artifact_location _initialized
       _prefix _run_id _tmp_dir _logged_model_time
       set_core set_run_id set_experiment_id set_tags set_initialized
       set_checkpoint_callback app].

Ltac reduce := cbn -[String.append MLFLOW_RUN_NAME].

Ltac reduce_in H := cbn -[String.append MLFLOW_RUN_NAME] in H.

Ltac case_split :=
  reduce;
  repeat match goal with
         | |- context [get_experiment_by_name client ?n] =>
             destruct (get_experiment_by_name client n) eqn:?; reduce
         | |- context [dict_has ?k ?d] =>
             destruct (dict_has k d) eqn:?; reduce
         end.

Lemma experiment_only_sets_up (self self1 : LoggerState) (a : list Action) :
  experiment client resolve_tags self = Done (tt, self1, a) ->
  Forall set_up_action a.
Proof.
  open_state self. destruct ini.
  - rewrite experiment_initialized by reflexivity. intros E.
    injection E as _ <-. constructor.
  - unfold_method. destruct rid as [r |].
    + destruct (get_run client (Some r)); reduce; [| discriminate ].
      intros E. injection E as _ <-. repeat constructor.
    + destruct eid; destruct rname; case_split;
        intros E; injection E as _ <-; repeat constructor.
Qed.

(** X14.  When the logger has a run name and creates its run, the tags that
    go to the new run hold the run name under ["mlflow.runName"], in place of
    a value given for this key, and every other tag as it was; the warning
    about the overridden tag is logged exactly when the key was there. *)
Theorem run_name_becomes_tag (self : LoggerState) (rn : string) :
  _initialized self = false ->
  _run_id (core self) = None ->
  _run_name self = Some rn ->
  exists self1 a,
    experiment client resolve_tags self = Done (tt, self1, a) /\
    tags self1 =
      Some (dict_set MLFLOW_RUN_NAME (PyStr rn) (tags_or_empty (tags self))) /\
    dict_get MLFLOW_RUN_NAME (tags_or_empty (tags self1)) = Some (PyStr rn) /\
    (forall k, k <> MLFLOW_RUN_NAME ->
               dict_get k (tags_or_empty (tags self1)) =
               dict_get k (tags_or_empty (tags self))) /\
    In (CreateRun (_experiment_id self1) (resolve_tags (tags self1))) a /\
    (In (Warning ("The tag " ++ MLFLOW_RUN_NAME
                  ++ " is found in tags. The value will be overridden by "
                  ++ rn ++ ".")%string) a <->
     dict_has MLFLOW_RUN_NAME (tags_or_empty (tags self)) = true).
Proof.
  intros Hi Hr Hn. open_state self. subst. unfold_method.
  destruct eid as [e |]; case_split;
    eexists; eexists; (split; [ reflexivity |]); reduce;
    (split; [ reflexivity |]);
    (split; [ apply dict_get_set_same |]);
    (split; [ intros k Hk; apply dict_get_set_other; congruence |]);
    (split; [ simpl; tauto |]);
    (split;
     [ intros H; reduce_in H;
       repeat (destruct H as [H | H]; try discriminate H);
       try contradiction; try reflexivity;
       injection H as H; cbn in H; discriminate H
     | intros H; try discriminate H; simpl; tauto ]).
Qed.

Lemma log_params_step (self : LoggerState) (ps : list Param) :
  _initialized self = true ->
  (experiment client resolve_tags ;;;
   rid <~ run_id client resolve_tags ;;
   act (LogParams rid ps)) self =
  Done (tt, self, [LogParams (_run_id (core self)) ps]).
Proof.
  intros I. unfold bindM.
  rewrite (experiment_initialized client resolve_tags self I).
  rewrite (run_id_initialized client resolve_tags self I). reflexivity.
Qed.

Lemma log_params_loop_initialized (self : LoggerState) (pl : list Param)
      (idxs : list nat) :
  _initialized self = true ->
  for_each idxs
    (fun idx =>
       experiment client resolve_tags ;;;
       rid <~ run_id client resolve_tags ;;
       act (LogParams rid (py_slice pl idx (idx + 100)))) self =
  Done (tt, self,
        map (fun idx => LogParams (_run_id (core self)) (py_slice pl idx (idx + 100)))
            idxs).
Proof.
  intros I. induction idxs as [| idx idxs IH]; [ reflexivity |].
  cbn [for_each map]. unfold bindM at 1.
  rewrite (log_params_step self _ I), IH. reflexivity.
Qed.

Lemma param_batches_app (a b : list Action) :
  param_batches (a ++ b) = param_batches a ++ param_batches b.
Proof. apply flat_map_app. Qed.

Lemma param_batches_set_up (a : list Action) :
  Forall set_up_action a -> param_batches a = [] /\
  forall r ps, ~ In (LogParams r ps) a.
Proof.
  induction 1 as [| x a Hx _ (IH1 & IH2)]; [ split; [ reflexivity | intros r ps [] ] |].
  split.
  - unfold param_batches in *. simpl. rewrite IH1. destruct x; try reflexivity.
    destruct Hx.
  - intros r ps [E | Hin]; [ subst; exact Hx | exact (IH2 r ps Hin) ].
Qed.

Lemma param_batches_map (r : option string) (pl : list Param) (idxs : list nat) :
  param_batches (map (fun idx => LogParams r (py_slice pl idx (idx + 100))) idxs) =
  map (fun idx => py_slice pl idx (idx + 100)) idxs.
Proof.
  induction idxs as [| i idxs IH]; [ reflexivity |].
  unfold param_batches in *. simpl. now rewrite IH.
Qed.

(** What a run of [log_hyperparams] that ends without an exception did. *)
Lemma log_hyperparams_batches (params : list (string * PyVal))
      (self self1 : LoggerState) (a : list Action) :
  log_hyperparams client resolve_tags py_str params self = Done (tt, self1, a) ->
  param_batches a =
    map (fun idx =>
           py_slice (map (fun kv => mkParam (fst kv)
                                            (String.substring 0 250 (py_str (snd kv))))
                         params) idx (idx + 100))
        (py_range_step 0 (length params) 100) /\
  forall r ps, In (LogParams r ps) a -> r = _run_id (core self1).
Proof.
  unfold log_hyperparams. rewrite length_map.
  set (pl := map (fun kv => mkParam (fst kv)
                                    (String.substring 0 250 (py_str (snd kv)))) params).
  destruct (py_range_step 0 (length params) 100) as [| idx idxs].
  - intros E. injection E as _ <-. split; [ reflexivity | intros r ps [] ].
  - cbn [for_each]. unfold bindM at 1. unfold bindM at 1.
    destruct (experiment client resolve_tags self) as [[[[] s1] a1] | e] eqn:E1;
      [| discriminate ].
    pose proof (experiment_sets_initialized client resolve_tags self E1) as I.
    pose proof (experiment_only_sets_up self E1) as K.
    destruct (param_batches_set_up K) as (K1 & K2).
    unfold bindM at 1. rewrite (run_id_initialized client resolve_tags s1 I).
    cbn [act]. rewrite (log_params_loop_initialized s1 pl idxs I).
    intros E. injection E as <- <-. split.
    + rewrite !param_batches_app, K1, param_batches_map. reflexivity.
    + intros r ps Hin. rewrite !in_app_iff in Hin.
      destruct Hin as [[Hin | Hin] | Hin].
      * exfalso. exact (K2 r ps Hin).
      * simpl in Hin. destruct Hin as [Hin | []]. now injection Hin as <- _.
      * apply in_map_iff in Hin as (i & Hi & _). now injection Hi as <- _.
Qed.

Lemma experiment_returns (self : LoggerState) :
  run_reachable client self ->
  exists self1 a, experiment client resolve_tags self = Done (tt, self1, a).
Proof.
  intros [I | [R | G]].
  - exists self, []. apply experiment_initialized, I.
  - open_state self. subst. destruct ini.
    + eexists; eexists; apply experiment_initialized; reflexivity.
    + unfold_method. destruct eid; destruct rname; case_split;
        eexists; eexists; reflexivity.
  - open_state self. destruct ini.
    + eexists; eexists; apply experiment_initialized; reflexivity.
    + unfold_method. destruct rid as [r |].
      * destruct (get_run client (Some r)); [| congruence ].
        eexists; eexists; reflexivity.
      * destruct eid; destruct rname; case_split;
          eexists; eexists; reflexivity.
Qed.

Lemma log_hyperparams_returns (params : list (string * PyVal)) (self : LoggerState) :
  run_reachable client self ->
  exists self1 a,
    log_hyperparams client resolve_tags py_str params self = Done (tt, self1, a).
Proof.
  intros P. unfold log_hyperparams. rewrite length_map.
  destruct (py_range_step 0 (length params) 100) as [| idx idxs].
  - eexists; eexists; reflexivity.
  - destruct (experiment_returns P) as (s1 & a1 & E1).
    pose proof (experiment_sets_initialized client resolve_tags self E1) as I.
    cbn [for_each]. unfold bindM at 1. unfold bindM at 1. rewrite E1.
    unfold bindM at 1. rewrite (run_id_initialized client resolve_tags s1 I).
    cbn [act]. rewrite (log_params_loop_initialized s1 _ idxs I).
    eexists; eexists; reflexivity.
Qed.

(** X15.  [log_hyperparams] logs every parameter once and in order: when the
    run of the logger can be reached the call ends, and the batches it hands
    to [log_batch], put end to end, are the parameters of the dictionary, each
    with its value turned into a string and cut after 250 characters; all
    batches go to the run of the logger. *)
Theorem hyperparams_all_logged (params : list (string * PyVal)) (self : LoggerState) :
  run_reachable client self ->
  exists self1 a,
    log_hyperparams client resolve_tags py_str params self = Done (tt, self1, a) /\
    concat (param_batches a) =
      map (fun kv => mkParam (fst kv) (String.substring 0 250 (py_str (snd kv))))
          params /\
    forall r ps, In (LogParams r ps) a -> r = _run_id (core self1).
Proof.
  intros P. destruct (log_hyperparams_returns params P) as (self1 & a & E).
  exists self1, a. split; [ exact E |].
  destruct (log_hyperparams_batches params self E) as (B & R).
  split; [| exact R ]. rewrite B.
  pose proof (slices_of_params
                (map (fun kv => mkParam (fst kv)
                                        (String.substring 0 250 (py_str (snd kv))))
                     params)) as (C & _).
  rewrite length_map in C. exact C.
Qed.

(** X16.  [log_hyperparams] makes one call of [log_batch] for every hundred
    parameters or part of it: every batch holds between 1 and 100 parameters,
    every batch but the last holds 100, and without parameters nothing is
    called and the logger stays as it is. *)
Theorem hyperparams_batches_of_100 (params : list (string * PyVal))
    (self : LoggerState) :
  run_reachable client self ->
  exists self1 a,
    log_hyperparams client resolve_tags py_str params self = Done (tt, self1, a) /\
    length (param_batches a) = (length params + 99) / 100 /\
    Forall (fun b => 1 <= length b <= 100) (param_batches a) /\
    (forall i, S i < length (param_batches a) ->
               length (nth i (param_batches a) []) = 100) /\
    (params = [] -> a = [] /\ self1 = self).
Proof.
  intros P. destruct (log_hyperparams_returns params P) as (self1 & a & E).
  exists self1, a. split; [ exact E |].
  destruct (log_hyperparams_batches params self E) as (B & _).
  pose proof (slices_of_params
                (map (fun kv => mkParam (fst kv)
                                        (String.substring 0 250 (py_str (snd kv))))
                     params)) as (_ & S1 & S2).
  rewrite length_map in S1, S2.
  assert (L : length (param_batches a) = (length params + 99) / 100).
  { rewrite B, length_map, range_step_100, length_map, length_seq. reflexivity. }
  split; [ exact L | split; [| split ] ].
  - rewrite B. exact S1.
  - intros i Hi. rewrite B. apply S2. lia.
  - intros ->. unfold log_hyperparams in E. cbn in E.
    injection E as <- <-. split; reflexivity.
Qed.

(** X17.  Every parameter that [log_hyperparams] logs has the key of an entry
    of the dictionary and a value of at most 250 characters, which is the
    beginning of the string of the entry's value, and the whole string when
    that has at most 250 characters. *)
Theorem hyperparams_values_truncated (params : list (string * PyVal))
    (self : LoggerState) :
  run_reachable client self ->
  exists self1 a,
    log_hyperparams client resolve_tags py_str params self = Done (tt, self1, a) /\
    forall r ps p,
      In (LogParams r ps) a -> In p ps ->
      String.length (param_value p) <= 250 /\
      exists v,
        In (param_key p, v) params /\
        String.prefix (param_value p) (py_str v) = true /\
        (String.length (py_str v) <= 250 -> param_value p = py_str v).
Proof.
  intros P. destruct (log_hyperparams_returns params P) as (self1 & a & E).
  exists self1, a. split; [ exact E |]. intros r ps p Hps Hp.
  destruct (log_hyperparams_batches params self E) as (B & _).
  pose proof (slices_of_params
                (map (fun kv => mkParam (fst kv)
                                        (String.substring 0 250 (py_str (snd kv))))
                     params)) as (C & _).
  rewrite length_map in C.
  assert (Hin : In p (concat (param_batches a))).
  { apply in_concat. exists ps. split; [| exact Hp ].
    unfold param_batches. apply in_flat_map. exists (LogParams r ps).
    split; [ exact Hps | left; reflexivity ]. }
  rewrite B, C in Hin.
  apply in_map_iff in Hin as ((k, v) & <- & Hkv). cbn [param_value param_key fst snd].
  split.
  - rewrite substring_0_length. apply Nat.le_min_l.
  - exists v. split; [ exact Hkv | split ].
    + apply substring_0_prefix.
    + apply substring_0_short.
Qed.

Lemma set_core_core (self : LoggerState) : set_core (core self) self = self.
Proof. now destruct self. Qed.

(** A scan by an initialised logger. *)
Lemma scan_and_log_initialized (self : LoggerState) (cb : ModelCheckpoint) :
  _initialized self = true ->
  scan_and_log client resolve_tags _scan_checkpoints tmp_name cb self =
  Done (tt,
        set_core (fst (_scan_and_log_checkpoints tmp_name (core self) cb
                         (_scan_checkpoints cb (_logged_model_time (core self))))) self,
        map Emit (snd (_scan_and_log_checkpoints tmp_name (core self) cb
                         (_scan_checkpoints cb (_logged_model_time (core self)))))).
Proof.
  intros I. unfold scan_and_log. unfold bindM at 1. cbn [read].
  destruct (_scan_checkpoints cb (_logged_model_time (core self))) as [| c cs].
  - cbn. rewrite set_core_core. reflexivity.
  - unfold bindM at 1. rewrite (experiment_initialized client resolve_tags self I).
    reflexivity.
Qed.

(** The first access to [experiment] keeps the prefix, the temporary
    directory and the logged checkpoints. *)
Lemma experiment_frame (self self1 : LoggerState) (a : list Action) :
  experiment client resolve_tags self = Done (tt, self1, a) ->
  _prefix (core self1) = _prefix (core self) /\
  _tmp_dir (core self1) = _tmp_dir (core self) /\
  _logged_model_time (core self1) = _logged_model_time (core self) /\
  (_initialized self = true -> self1 = self /\ a = []).
Proof.
  open_state self. destruct ini.
  - rewrite experiment_initialized by reflexivity. intros E.
    injection E as <- <-. repeat split; reflexivity.
  - unfold_method. destruct rid as [r |].
    + destruct (get_run client (Some r)); reduce; [| discriminate ].
      intros E. injection E as <- _. repeat split; try reflexivity; discriminate.
    + destruct eid; destruct rname; case_split;
        intros E; injection E as <- _;
        repeat split; try reflexivity; discriminate.
Qed.


(** The whole call [self._scan_and_log_checkpoints(checkpoint_callback)]:
    nothing without a checkpoint; else the first access to [experiment],
    then the loop on the logger as this access left it. *)
Lemma scan_and_log_cases (self : LoggerState) (cb : ModelCheckpoint) :
  (_scan_checkpoints cb (_logged_model_time (core self)) = [] ->
   scan_and_log client resolve_tags _scan_checkpoints tmp_name cb self =
   Done (tt, self, [])) /\
  (_scan_checkpoints cb (_logged_model_time (core self)) <> [] ->
   forall s1 a1,
     experiment client resolve_tags self = Done (tt, s1, a1) ->
     scan_and_log client resolve_tags _scan_checkpoints tmp_name cb self =
     Done (tt,
           set_core (fst (_scan_and_log_checkpoints tmp_name (core s1) cb
                            (_scan_checkpoints cb (_logged_model_time (core self)))))
                    s1,
           a1 ++ map Emit
                   (snd (_scan_and_log_checkpoints tmp_name (core s1) cb
                           (_scan_checkpoints cb (_logged_model_time (core self))))))) /\
  (_scan_checkpoints cb (_logged_model_time (core self)) <> [] ->
   forall e,
     experiment client resolve_tags self = Fails e ->
     scan_and_log client resolve_tags _scan_checkpoints tmp_name cb self = Fails e).
Proof.
  split; [| split ].
  - intros H. unfold scan_and_log. unfold bindM at 1. cbn [read].
    rewrite H. reflexivity.
  - intros H s1 a1 E. unfold scan_and_log. unfold bindM at 1. cbn [read].
    destruct (_scan_checkpoints cb (_logged_model_time (core self))) as [| c cs];
      [ congruence |].
    unfold bindM at 1. rewrite E. reflexivity.
  - intros H e E. unfold scan_and_log. unfold bindM at 1. cbn [read].
    destruct (_scan_checkpoints cb (_logged_model_time (core self))) as [| c cs];
      [ congruence |].
    unfold bindM at 1. rewrite E. reflexivity.
Qed.

(** The call returns when the run can be reached. *)
Lemma scan_and_log_returns (self : LoggerState) (cb : ModelCheckpoint) :
  run_reachable client self ->
  exists s1 a1,
    (experiment client resolve_tags self = Done (tt, s1, a1) /\
     (_scan_checkpoints cb (_logged_model_time (core self)) <> [] ->
      _initialized s1 = true) /\
     Forall set_up_action a1 /\
     _prefix (core s1) = _prefix (core self) /\
     _tmp_dir (core s1) = _tmp_dir (core self) /\
     _logged_model_time (core s1) = _logged_model_time (core self) /\
     (_initialized self = true -> s1 = self /\ a1 = [])) /\
    scan_and_log client resolve_tags _scan_checkpoints tmp_name cb self =
    match _scan_checkpoints cb (_logged_model_time (core self)) with
    | [] => Done (tt, self, [])
    | c :: cs =>
        Done (tt,
              set_core (fst (_scan_and_log_checkpoints tmp_name (core s1) cb (c :: cs)))
                       s1,
              a1 ++ map Emit
                      (snd (_scan_and_log_checkpoints tmp_name (core s1) cb (c :: cs))))
    end.
Proof.
  intros P. destruct (experiment_returns P) as (s1 & a1 & E).
  exists s1, a1.
  destruct (experiment_frame self E) as (F1 & F2 & F3 & F4).
  destruct (scan_and_log_cases self cb) as (C0 & C1 & _).
  split.
  - split; [ exact E |].
    split; [ intros _; exact (experiment_sets_initialized client resolve_tags self E) |].
    split; [ exact (experiment_only_sets_up self E) |].
    auto.
  - destruct (_scan_checkpoints cb (_logged_model_time (core self))) as [| c cs].
    + apply C0. reflexivity.
    + apply C1; [ discriminate | exact E ].
Qed.

(** X9.  When the run can be reached, [_scan_and_log_checkpoints] ends, and
    afterwards the dictionary [_logged_model_time] gives, for the path of
    every checkpoint found, the time of the last checkpoint found with this
    path, and for every other path what it gave before.  The prefix and the
    temporary directory of the logger are kept; the run identifier is kept by
    a logger that was initialised, while another logger, when a checkpoint is
    found, comes out initialised.  Without a checkpoint nothing changes. *)
Theorem logged_model_time_remembered (self : LoggerState) (cb : ModelCheckpoint) :
  run_reachable client self ->
  exists self1 a,
    scan_and_log client resolve_tags _scan_checkpoints tmp_name cb self =
      Done (tt, self1, a) /\
    (forall before c after,
        _scan_checkpoints cb (_logged_model_time (core self)) =
          before ++ c :: after ->
        ~ In (checkpoint_path c) (map checkpoint_path after) ->
        dict_get (checkpoint_path c) (_logged_model_time (core self1)) =
        Some (checkpoint_time c)) /\
    (forall p,
        ~ In p (map checkpoint_path
                    (_scan_checkpoints cb (_logged_model_time (core self)))) ->
        dict_get p (_logged_model_time (core self1)) =
        dict_get p (_logged_model_time (core self))) /\
    _prefix (core self1) = _prefix (core self) /\
    _tmp_dir (core self1) = _tmp_dir (core self) /\
    (_initialized self = true -> _run_id (core self1) = _run_id (core self)) /\
    (_scan_checkpoints cb (_logged_model_time (core self)) <> [] ->
     _initialized self1 = true) /\
    (_scan_checkpoints cb (_logged_model_time (core self)) = [] -> self1 = self).
Proof.
  intros P.
  destruct (scan_and_log_returns cb P)
    as (s1 & a1 & (E & I1 & _ & F1 & F2 & F3 & F4) & R).
  destruct (_scan_checkpoints cb (_logged_model_time (core self)))
    as [| c0 cs] eqn:Ecps.
  - exists self, []. split; [ exact R |].
    split; [ intros [| ? ?] ? ? Hb; discriminate Hb |].
    repeat split; try reflexivity; congruence.
  - destruct (scan_and_log_state tmp_name (core s1) cb (c0 :: cs))
      as (_ & S1 & S2 & S3).
    destruct (scan_loop_times_lookup tmp_name (core s1) cb (c0 :: cs)) as (T1 & T2).
    eexists; eexists. split; [ exact R |].
    cbn [set_core core _initialized].
    split; [ exact T1 |].
    split; [ intros p Hp; rewrite (T2 p Hp); now rewrite F3 |].
    split; [ congruence |].
    split; [ congruence |].
    split; [ intros I; destruct (F4 I) as (-> & _); exact S2 |].
    split; [ intros _; apply I1; discriminate | discriminate ].
Qed.


Lemma finalize_initialized (self : LoggerState) (status : string) :
  _initialized self = true ->
  finalize client resolve_tags _scan_checkpoints tmp_name status self =
  let scanned :=
    match _checkpoint_callback self with
    | Some c =>
        Some (_scan_and_log_checkpoints tmp_name (core self) c
                (_scan_checkpoints c (_logged_model_time (core self))))
    | None => None
    end in
  let self1 :=
    match scanned with
    | Some r => set_core (fst r) self
    | None => self
    end in
  Done (tt, self1,
        match scanned with
        | Some r => map Emit (snd r)
        | None => []
        end ++
        GetRun (_run_id (core self1)) ::
        match get_run client (_run_id (core self1)) with
        | Some _ =>
            [SetTerminated (_run_id (core self1))
               (if String.eqb status "success" then "FINISHED"
                else if String.eqb status "failed" then "FAILED"
                else if String.eqb status "finished" then "FINISHED"
                else status)%string]
        | None => []
        end).
Proof.
  intros I. unfold finalize. unfold bindM at 1. cbn [read]. rewrite I.
  cbn [negb]. unfold bindM at 1. cbn [read]. unfold bindM at 1.
  assert (K : forall s1 : LoggerState, _initialized s1 = true ->
    (experiment client resolve_tags ;;;
     rid <~ run_id client resolve_tags ;;
     act (GetRun rid) ;;;
     match get_run client rid with
     | Some _ =>
         experiment client resolve_tags ;;;
         rid0 <~ run_id client resolve_tags ;;
         act (SetTerminated rid0
                (if String.eqb status "success" then "FINISHED"
                 else if String.eqb status "failed" then "FAILED"
                 else if String.eqb status "finished" then "FINISHED"
                 else status)%string)
     | None => ret tt
     end) s1 =
    Done (tt, s1,
          GetRun (_run_id (core s1)) ::
          match get_run client (_run_id (core s1)) with
          | Some _ =>
              [SetTerminated (_run_id (core s1))
                 (if String.eqb status "success" then "FINISHED"
                  else if String.eqb status "failed" then "FAILED"
                  else if String.eqb status "finished" then "FINISHED"
                  else status)%string]
          | None => []
          end)).
  { intros s1 I1. unfold bindM at 1.
    rewrite (experiment_initialized client resolve_tags s1 I1).
    unfold bindM at 1. rewrite (run_id_initialized client resolve_tags s1 I1).
    unfold bindM at 1. cbn [act].
    destruct (get_run client (_run_id (core s1))).
    - unfold bindM at 1. rewrite (experiment_initialized client resolve_tags s1 I1).
      unfold bindM at 1. rewrite (run_id_initialized client resolve_tags s1 I1).
      reflexivity.
    - reflexivity. }
  destruct (_checkpoint_callback self) as [c |].
  - rewrite (scan_and_log_initialized self c I). cbv zeta.
    rewrite K by (destruct self; exact I).
    cbn [fst snd]. reflexivity.
  - cbn [ret]. cbv zeta. rewrite (K self I). reflexivity.
Qed.

(** X18.  [finalize] on an initialised logger never raises.  With a callback
    kept, it first uploads the checkpoints found for this callback and
    remembers them; without one it uploads nothing and the logger does not
    change.  Then it asks the client for the run and, when the client returns
    one, marks it as terminated: as [FINISHED] for ["success"] and
    ["finished"], as [FAILED] for ["failed"], and with the given status as it
    is for any other string. *)
Theorem finalize_terminates_run (self : LoggerState) (status : string) :
  _initialized self = true ->
  exists final,
    finalize client resolve_tags _scan_checkpoints tmp_name status self =
      Done (tt,
            match _checkpoint_callback self with
            | Some c =>
                set_core
                  (fst (_scan_and_log_checkpoints tmp_name (core self) c
                          (_scan_checkpoints c (_logged_model_time (core self)))))
                  self
            | None => self
            end,
            match _checkpoint_callback self with
            | Some c =>
                map Emit
                  (snd (_scan_and_log_checkpoints tmp_name (core self) c
                          (_scan_checkpoints c (_logged_model_time (core self)))))
            | None => []
            end ++
            GetRun (_run_id (core self)) ::
            match get_run client (_run_id (core self)) with
            | Some _ => [SetTerminated (_run_id (core self)) final]
            | None => []
            end) /\
    (status = "success"%string \/ status = "finished"%string ->
     final = "FINISHED"%string) /\
    (status = "failed"%string -> final = "FAILED"%string) /\
    (status <> "success"%string -> status <> "failed"%string ->
     status <> "finished"%string -> final = status).
Proof.
  intros I.
  exists (if String.eqb status "success" then "FINISHED"
          else if String.eqb status "failed" then "FAILED"
          else if String.eqb status "finished" then "FINISHED"
          else status)%string.
  split.
  - rewrite (finalize_initialized self status I). cbv zeta.
    destruct (_checkpoint_callback self) as [c |]; [| reflexivity ].
    destruct (scan_and_log_state tmp_name (core self) c
                (_scan_checkpoints c (_logged_model_time (core self))))
      as (_ & _ & R & _).
    cbn [set_core core]. rewrite R. reflexivity.
  - split; [| split ].
    + intros [-> | ->]; reflexivity.
    + intros ->; reflexivity.
    + intros N1 N2 N3.
      apply String.eqb_neq in N1, N2, N3. now rewrite N1, N2, N3.
Qed.

(** X19.  With [log_model=True] and a callback whose [save_top_k] is not -1,
    [after_save_checkpoint] uploads nothing and keeps the callback; a later
    [finalize] of the initialised logger uploads the checkpoints found for
    this callback, before it asks for the run, and remembers them.  On a
    logger whose experiment was never set up, [finalize] returns at once: the
    kept checkpoints are not uploaded and no run is terminated. *)
Theorem deferred_checkpoints_logged_at_finalize (self : LoggerState)
    (cb : ModelCheckpoint) (k : PyVal) (status : string) :
  _log_model self = LogModelTrue ->
  getattr cb "save_top_k" = Some k ->
  eq_minus_one k = false ->
  after_save_checkpoint client resolve_tags _scan_checkpoints tmp_name cb self =
    Done (tt, set_checkpoint_callback (Some cb) self, []) /\
  (_initialized self = true ->
   exists self2 rest,
     (after_save_checkpoint client resolve_tags _scan_checkpoints tmp_name cb ;;;
      finalize client resolve_tags _scan_checkpoints tmp_name status) self =
       Done (tt, self2,
             map Emit (snd (_scan_and_log_checkpoints tmp_name (core self) cb
                              (_scan_checkpoints cb (_logged_model_time (core self)))))
             ++ GetRun (_run_id (core self)) :: rest) /\
     core self2 =
       fst (_scan_and_log_checkpoints tmp_name (core self) cb
              (_scan_checkpoints cb (_logged_model_time (core self)))) /\
     (forall e, ~ In (Emit e) rest)) /\
  (_initialized self = false ->
   (after_save_checkpoint client resolve_tags _scan_checkpoints tmp_name cb ;;;
    finalize client resolve_tags _scan_checkpoints tmp_name status) self =
     Done (tt, set_checkpoint_callback (Some cb) self, [])).
Proof.
  intros L G K.
  assert (A : after_save_checkpoint client resolve_tags _scan_checkpoints tmp_name
                cb self =
              Done (tt, set_checkpoint_callback (Some cb) self, [])).
  { unfold after_save_checkpoint. unfold bindM at 1. cbn [read].
    rewrite L, G, K. reflexivity. }
  split; [ exact A | split ].
  - intros I. unfold bindM at 1. rewrite A.
    rewrite finalize_initialized by (destruct self; exact I). cbv zeta.
    destruct self as [c0 ename eid uri rname tg lm cb0 loc ini].
    cbn [set_checkpoint_callback _checkpoint_callback core set_core app].
    destruct (scan_and_log_state tmp_name c0 cb
                (_scan_checkpoints cb (_logged_model_time c0))) as (_ & _ & R & _).
    rewrite R.
    eexists; eexists. split; [ reflexivity | split; [ reflexivity |] ].
    intros e Hin. destruct (get_run client (_run_id c0)); simpl in Hin;
      [ destruct Hin as [Hin | []]; discriminate Hin | exact Hin ].
  - intros I. unfold bindM at 1. rewrite A. unfold finalize. unfold bindM at 1.
    destruct self as [c0 ename eid uri rname tg lm cb0 loc ini].
    cbn in I. subst ini. reflexivity.
Qed.

(** X20.  [after_save_checkpoint] on an initialised logger: with
    [log_model="all"], and with [log_model=True] when [save_top_k] of the
    callback is -1, the checkpoints found are uploaded at once and remembered,
    and no callback is kept; with [log_model=False] nothing happens; with
    [log_model=True] and a callback without [save_top_k] the call raises
    [AttributeError]. *)
Theorem after_save_checkpoint_policy (self : LoggerState) (cb : ModelCheckpoint) :
  _initialized self = true ->
  (_log_model self = LogModelAll \/
   (_log_model self = LogModelTrue /\
    exists k, getattr cb "save_top_k" = Some k /\ eq_minus_one k = true) ->
   exists self1,
     after_save_checkpoint client resolve_tags _scan_checkpoints tmp_name cb self =
       Done (tt, self1,
             map Emit (snd (_scan_and_log_checkpoints tmp_name (core self) cb
                              (_scan_checkpoints cb (_logged_model_time (core self))))))
     /\
     core self1 =
       fst (_scan_and_log_checkpoints tmp_name (core self) cb
              (_scan_checkpoints cb (_logged_model_time (core self)))) /\
     _checkpoint_callback self1 = _checkpoint_callback self) /\
  (_log_model self = LogModelFalse ->
   after_save_checkpoint client resolve_tags _scan_checkpoints tmp_name cb self =
     Done (tt, self, [])) /\
  (_log_model self = LogModelTrue -> getattr cb "save_top_k" = None ->
   after_save_checkpoint client resolve_tags _scan_checkpoints tmp_name cb self =
     Fails AttributeError).
Proof.
  intros I. split; [| split ].
  - intros H. eexists. split; [| split ].
    + unfold after_save_checkpoint. unfold bindM at 1. cbn [read].
      destruct H as [-> | (-> & k & -> & ->)];
        rewrite (scan_and_log_initialized self cb I); reflexivity.
    + reflexivity.
    + reflexivity.
  - intros L. unfold after_save_checkpoint. unfold bindM at 1. cbn [read].
    rewrite L. reflexivity.
  - intros L G. unfold after_save_checkpoint. unfold bindM at 1. cbn [read].
    rewrite L, G. reflexivity.
Qed.

End LoggerFacts.

(** ** The directory of a local tracking URI *)

Lemma py_lstrip_spec (chars : list ascii) (s : string) :
  exists stripped,
    s = (stripped ++ py_lstrip chars s)%string /\
    Forall (fun c => In c chars) (list_ascii_of_string stripped) /\
    starts_in chars (py_lstrip chars s) = false.
Proof.
  induction s as [| c s (stripped & E & F & N)].
  - exists EmptyString. repeat split. constructor.
  - simpl. destruct (existsb (Ascii.eqb c) chars) eqn:X.
    + exists (String c stripped). simpl. rewrite <- E. repeat split; [| exact N ].
      constructor; [| exact F ].
      apply existsb_exists in X as (x & Hx & Hc).
      apply Ascii.eqb_eq in Hc. now subst.
    + exists EmptyString. repeat split; [ constructor | exact X ].
Qed.

Lemma py_lstrip_fixed (chars : list ascii) (s : string) :
  py_lstrip chars s = s <-> starts_in chars s = false.
Proof.
  split.
  - intros E. destruct (py_lstrip_spec chars s) as (_ & _ & _ & N).
    now rewrite E in N.
  - intros N. destruct s as [| c s]; [ reflexivity |]. simpl in *.
    now rewrite N.
Qed.

Lemma py_lstrip_file_uri (d : string) :
  py_lstrip file_prefix_chars (LOCAL_FILE_URI_PREFIX ++ d) =
  py_lstrip file_prefix_chars d.
Proof. reflexivity. Qed.

Lemma save_dir_local (self : LoggerState) (d : string) :
  _tracking_uri self = (LOCAL_FILE_URI_PREFIX ++ d)%string ->
  save_dir self = Some (py_lstrip file_prefix_chars d).
Proof.
  intros E. unfold save_dir, startswith. rewrite E, prefix_append.
  f_equal.
Qed.

(** X21.  The property [save_dir] is [None] when the tracking URI does not
    begin with ["file:"].  For the URI ["file:" + d] it is not always [d]:
    it is [d] without its longest beginning made of the characters [f], [i],
    [l], [e] and [:], so it is [d] exactly when [d] does not begin with one of
    these characters. *)
Theorem save_dir_strips_characters (self : LoggerState) :
  (startswith (_tracking_uri self) LOCAL_FILE_URI_PREFIX = false ->
   save_dir self = None) /\
  (forall d,
      _tracking_uri self = (LOCAL_FILE_URI_PREFIX ++ d)%string ->
      exists stripped r,
        save_dir self = Some r /\
        d = (stripped ++ r)%string /\
        Forall (fun c => In c ["f"; "i"; "l"; "e"; ":"]%char)
               (list_ascii_of_string stripped) /\
        starts_in file_prefix_chars r = false /\
        (save_dir self = Some d <-> starts_in file_prefix_chars d = false)).
Proof.
  split.
  - intros N. unfold save_dir. now rewrite N.
  - intros d E. rewrite (save_dir_local self E).
    destruct (py_lstrip_spec file_prefix_chars d) as (stripped & E1 & F & N).
    exists stripped, (py_lstrip file_prefix_chars d).
    repeat split; try assumption.
    + intros H. apply py_lstrip_fixed. congruence.
    + intros H. f_equal. now apply py_lstrip_fixed.
Qed.

(** X22.  [__init__] raises [ModuleNotFoundError] when MLflow is missing.
    Else, without a tracking URI (none, or the empty string) the logger gets
    the URI ["file:" + save_dir], starts uninitialised with no logged
    checkpoint and no callback, and its property [save_dir] gives the
    directory back exactly when the directory does not begin with one of the
    characters of ["file:"], as the default ["./mlruns"] does not; with a
    tracking URI that does not begin with ["file:"] the property is [None]
    and the directory is not used. *)
Theorem init_save_dir_round_trip (experiment_name : string)
    (run_name : option string) (tags : Tags) (log_model : LogModel)
    (prefix : string) (artifact_location run_id : option string)
    (tmp_dir : string) :
  (forall tracking_uri dir,
      MLFlowLogger_init false experiment_name run_name tracking_uri tags dir
        log_model prefix artifact_location run_id tmp_dir =
      Fails ModuleNotFoundError) /\
  (forall tracking_uri d,
      tracking_uri = None \/ tracking_uri = Some EmptyString ->
      exists self,
        MLFlowLogger_init true experiment_name run_name tracking_uri tags (Some d)
          log_model prefix artifact_location run_id tmp_dir =
        Done (self, [Print "Init tags" tags]) /\
        _tracking_uri self = ("file:" ++ d)%string /\
        (save_dir self = Some d <-> starts_in file_prefix_chars d = false) /\
        (d = "./mlruns"%string -> save_dir self = Some d) /\
        _initialized self = false /\
        _experiment_id self = None /\
        _logged_model_time (core self) = [] /\
        _checkpoint_callback self = None) /\
  (forall uri dir,
      uri <> EmptyString ->
      startswith uri "file:" = false ->
      exists self,
        MLFlowLogger_init true experiment_name run_name (Some uri) tags dir
          log_model prefix artifact_location run_id tmp_dir =
        Done (self, [Print "Init tags" tags]) /\
        _tracking_uri self = uri /\
        save_dir self = None).
Proof.
  split; [| split ].
  - reflexivity.
  - intros tracking_uri d H.
    destruct H as [-> | ->]; (eexists; split; [ reflexivity |]);
    cbn [_tracking_uri _initialized _experiment_id core _logged_model_time
         _checkpoint_callback];
    (split; [ reflexivity |]);
    match goal with
    | |- (save_dir ?s = _ <-> _) /\ _ =>
        assert (S : save_dir s = Some (py_lstrip file_prefix_chars d))
          by (apply save_dir_local; reflexivity)
    end;
    rewrite S; repeat split; try reflexivity;
    try (intros H1; apply py_lstrip_fixed; congruence);
    try (intros H1; f_equal; now apply py_lstrip_fixed);
    intros ->; reflexivity.
  - intros uri dir N P. destruct uri as [| c u]; [ congruence |].
    eexists. split; [ reflexivity |]. split; [ reflexivity |].
    unfold save_dir, LOCAL_FILE_URI_PREFIX. cbn [_tracking_uri]. now rewrite P.
Qed.

(** ** The properties of the logger on the examples *)

Lemma experiment_set_up_once_witness :
  exists self1 a,
    experiment example_client example_resolve_tags
      (new_logger None None LogModelFalse) = Done (tt, self1, a) /\
    _initialized self1 = true /\
    experiment example_client example_resolve_tags self1 = Done (tt, self1, []) /\
    run_id example_client example_resolve_tags self1 =
      Done (_run_id (core self1), self1, []).
Proof.
  eexists; eexists. split; [ reflexivity |].
  exact (@experiment_set_up_once example_client example_resolve_tags
           (new_logger None None LogModelFalse) _ _ eq_refl).
Defined.

Lemma experiment_resumes_run_witness :
  _initialized (new_logger None (Some "run0"%string) LogModelFalse) = false /\
  experiment example_client example_resolve_tags
    (new_logger None (Some "run0"%string) LogModelFalse) =
  Done (tt,
        set_initialized true
          (set_experiment_id (Some "exp7"%string)
             (new_logger None (Some "run0"%string) LogModelFalse)),
        [GetRun (Some "run0"%string)]).
Proof.
  split; [ reflexivity |].
  exact (proj1 (@experiment_resumes_run example_client example_resolve_tags
                  (new_logger None (Some "run0"%string) LogModelFalse) "run0"
                  eq_refl eq_refl) "exp7"%string eq_refl).
Defined.

Lemma experiment_creates_run_witness :
  exists self1 before,
    experiment example_client example_resolve_tags
      (new_logger None None LogModelFalse) =
      Done (tt, self1,
            before ++ [Print "Resolved tags" (example_resolve_tags (tags self1));
                       CreateRun (_experiment_id self1)
                                 (example_resolve_tags (tags self1))]) /\
    _initialized self1 = true /\
    _run_id (core self1) = Some "run1"%string /\
    _experiment_id self1 = Some "new-lightning_logs"%string.
Proof.
  destruct (@experiment_creates_run example_client example_resolve_tags
              (new_logger None None LogModelFalse) eq_refl eq_refl)
    as (self1 & before & E & I & R & X & _).
  exists self1, before. repeat split; assumption.
Defined.

Lemma run_name_becomes_tag_witness :
  exists self1 a,
    experiment example_client example_resolve_tags
      (new_logger (Some "mine"%string) None LogModelFalse) = Done (tt, self1, a) /\
    tags self1 = Some [("mlflow.runName"%string, PyStr "mine")] /\
    In (Warning "The tag mlflow.runName is found in tags. The value will be overridden by mine.") a.
Proof.
  destruct (@run_name_becomes_tag example_client example_resolve_tags
              (new_logger (Some "mine"%string) None LogModelFalse) "mine"
              eq_refl eq_refl eq_refl)
    as (self1 & a & E & T & _ & _ & _ & W).
  exists self1, a. split; [ exact E | split; [ exact T |] ].
  apply W. reflexivity.
Defined.

Lemma hyperparams_all_logged_witness :
  exists self1 a,
    log_hyperparams example_client example_resolve_tags example_str example_params
      (new_logger None None LogModelFalse) = Done (tt, self1, a) /\
    concat (param_batches a) =
      [mkParam "optimizer" "adam"; mkParam "scheduler" "None"].
Proof.
  destruct (@hyperparams_all_logged example_client example_resolve_tags example_str
              example_params (new_logger None None LogModelFalse)
              (or_intror (or_introl eq_refl)))
    as (self1 & a & E & C & _).
  exists self1, a. split; [ exact E | exact C ].
Defined.

Lemma hyperparams_batches_of_100_witness :
  exists self1 a,
    log_hyperparams example_client example_resolve_tags example_str example_params
      (new_logger None None LogModelFalse) = Done (tt, self1, a) /\
    length (param_batches a) = 1.
Proof.
  destruct (@hyperparams_batches_of_100 example_client example_resolve_tags
              example_str example_params (new_logger None None LogModelFalse)
              (or_intror (or_introl eq_refl)))
    as (self1 & a & E & L & _).
  exists self1, a. split; [ exact E | exact L ].
Defined.

Lemma hyperparams_values_truncated_witness :
  exists self1 a,
    log_hyperparams example_client example_resolve_tags example_str example_params
      (initialized_logger LogModelFalse) = Done (tt, self1, a) /\
    forall r ps p, In (LogParams r ps) a -> In p ps ->
                   String.length (param_value p) <= 250.
Proof.
  destruct (@hyperparams_values_truncated example_client example_resolve_tags
              example_str example_params (initialized_logger LogModelFalse)
              (or_introl eq_refl))
    as (self1 & a & E & T).
  exists self1, a. split; [ exact E |].
  intros r ps p H1 H2. exact (proj1 (T r ps p H1 H2)).
Defined.

Lemma finalize_terminates_run_witness :
  _initialized finishing_logger = true /\
  exists self1 rest,
    finalize example_client example_resolve_tags example_scan example_tmp_name
      "success" finishing_logger =
    Done (tt, self1,
          Emit (LogArtifact (Some "run0"%string) "ckpt/last.ckpt"
                            "model/checkpoints/last") :: rest) /\
    dict_get "ckpt/last.ckpt" (_logged_model_time (core self1)) =
      Some (PyFloat 17 0) /\
    last rest (GetRun None) = SetTerminated (Some "run0"%string) "FINISHED".
Proof.
  split; [ reflexivity |].
  destruct (@finalize_terminates_run posix_pathlib example_client
              example_resolve_tags example_scan example_tmp_name
              finishing_logger "success" eq_refl)
    as (final & E & F & _).
  rewrite (F (or_introl eq_refl)) in E.
  eexists; eexists. split; [ exact E |]. split; reflexivity.
Defined.

Lemma logged_model_time_remembered_witness :
  run_reachable example_client (new_logger None None LogModelAll) /\
  exists self1 a,
    scan_and_log example_client example_resolve_tags example_scan example_tmp_name
      example_callback (new_logger None None LogModelAll) = Done (tt, self1, a) /\
    dict_get "ckpt/last.ckpt" (_logged_model_time (core self1)) =
      Some (PyFloat 17 0) /\
    _initialized self1 = true.
Proof.
  split; [ right; left; reflexivity |].
  destruct (@logged_model_time_remembered posix_pathlib example_client
              example_resolve_tags example_scan example_tmp_name
              (new_logger None None LogModelAll) example_callback
              (or_intror (or_introl eq_refl)))
    as (self1 & a & E & T & _ & _ & _ & _ & I & _).
  exists self1, a. split; [ exact E |]. split.
  - apply (T [] (PyFloat 17 0, "ckpt/last.ckpt"%string, PyNone, "latest"%string)
             [(PyFloat 19 0, "ckpt/epoch=3-step=100.ckpt"%string, PyTensor 3 (-2),
               "best"%string)] eq_refl).
    simpl. intros [H | []]. discriminate H.
  - apply I. discriminate.
Defined.


Lemma deferred_checkpoints_logged_at_finalize_witness :
  after_save_checkpoint example_client example_resolve_tags example_scan
    example_tmp_name example_callback (initialized_logger LogModelTrue) =
  Done (tt,
        set_checkpoint_callback (Some example_callback)
          (initialized_logger LogModelTrue), []) /\
  exists self2 a,
    (after_save_checkpoint example_client example_resolve_tags example_scan
       example_tmp_name example_callback ;;;
     finalize example_client example_resolve_tags example_scan example_tmp_name
       "failed") (initialized_logger LogModelTrue) = Done (tt, self2, a) /\
    In (Emit (LogArtifact (Some "run0"%string) "ckpt/last.ckpt"
                          "model/checkpoints/last")) a /\
    dict_get "ckpt/last.ckpt" (_logged_model_time (core self2)) =
      Some (PyFloat 17 0).
Proof.
  destruct (@deferred_checkpoints_logged_at_finalize posix_pathlib example_client
              example_resolve_tags example_scan example_tmp_name
              (initialized_logger LogModelTrue) example_callback (PyInt 2)
              "failed" eq_refl eq_refl eq_refl)
    as (A & B & _).
  split; [ exact A |].
  destruct (B eq_refl) as (self2 & rest & E & C & _).
  exists self2. eexists. split; [ exact E |]. split.
  - apply in_or_app. left. vm_compute. left. reflexivity.
  - rewrite C. vm_compute. reflexivity.
Defined.

Lemma after_save_checkpoint_policy_witness :
  exists self1 a,
    after_save_checkpoint example_client example_resolve_tags example_scan
      example_tmp_name example_callback (initialized_logger LogModelAll) =
      Done (tt, self1, a) /\
    length a = 12 /\
    _checkpoint_callback self1 = None.
Proof.
  destruct (proj1 (@after_save_checkpoint_policy posix_pathlib example_client
                     example_resolve_tags example_scan example_tmp_name
                     (initialized_logger LogModelAll) example_callback eq_refl)
                  (or_introl eq_refl))
    as (self1 & E & _ & C).
  exists self1. eexists. split; [ exact E |]. split; [ reflexivity | exact C ].
Defined.
